(** * Message lifecycle engine of the WhatsApp notification backend

    A shallow embedding of [backend/utils.py], [backend/models.py],
    [backend/whatsapp_client.py] and the handlers of [backend/main.py]
    (campaign fan-out, dispatch, webhook status and inbound handlers),
    then of the rest of the backend (the recipient store and its CSV import,
    the listings, the webhook endpoint, the call to the provider) and of the
    event store of [backend/server.py], followed by their properties.

    Conventions of the embedding.
    - A database session is a value of type [DB]: one list of rows per table,
      in insertion order.  A handler returns the state it has committed,
      either normally ([Returned]) or together with the exception that left
      it ([Raised]); what was changed in the session but not committed when
      an exception escapes is lost with the session.
    - JSON payloads are Python values ([pyval]); a [dict] is an association
      list, read by [dict_get] as [dict.get] reads it.  A JSON number is an
      integer ([PInt]); numbers with a fraction or an exponent are outside
      the embedding.
    - The database is SQLite, as [backend/db.py] sets it up: a JSON value
      compared with a text column is bound as a query parameter
      ([bind_parameter]) and compared as SQLite compares it ([column_eq]).
    - Strings are sequences of code points below 256.
    - Integer columns are [Z] (counters) and [nat] (primary keys, clock
      readings). *)

From Stdlib Require Import List String Ascii ZArith Arith Bool Lia Sorted
  DecimalString.
Import ListNotations.
Local Open Scope string_scope.
Set Warnings "-register-all".

(** ** Python values and exceptions *)

Inductive pyval : Type :=
| PNone
| PBool (b : bool)
| PInt (z : Z)
| PStr (s : string)
| PList (l : list pyval)
| PDict (d : list (string * pyval)).

Definition dict := list (string * pyval).

Inductive exn : Type :=
| AttributeError (detail : string)
| ValueError (detail : string)
| HTTPException (status_code : nat) (detail : string)
| TransportError (detail : string)
| ProgrammingError (detail : string)
| OverflowError (detail : string).

(** [str(e)] of an exception is its message. *)
Definition exn_str (e : exn) : string :=
  match e with
  | AttributeError d | ValueError d | HTTPException _ d | TransportError d
  | ProgrammingError d | OverflowError d => d
  end.

(** Results of code that may raise before it touches the database. *)
Inductive res (A : Type) : Type :=
| Ok (a : A)
| Err (e : exn).
Arguments Ok {A} a.
Arguments Err {A} e.

Definition bind {A B} (r : res A) (k : A -> res B) : res B :=
  match r with
  | Ok a => k a
  | Err e => Err e
  end.

Notation "x <- r ;; k" := (bind r (fun x => k))
  (at level 61, r at next level, right associativity).

(** Python truth value: [bool(v)]. *)
Definition truthy (v : pyval) : bool :=
  match v with
  | PNone => false
  | PBool b => b
  | PInt z => negb (Z.eqb z 0)
  | PStr s => negb (String.eqb s "")
  | PList l => match l with [] => false | _ => true end
  | PDict d => match d with [] => false | _ => true end
  end.

(** [a or b]. *)
Definition py_or (a b : pyval) : pyval := if truthy a then a else b.

Fixpoint assoc (k : string) (d : dict) : option pyval :=
  match d with
  | [] => None
  | (k', v) :: d' => if String.eqb k k' then Some v else assoc k d'
  end.

(** [d.get(k, default)] and [d.get(k)]. *)
Definition dict_get_default (d : dict) (k : string) (default : pyval) : pyval :=
  match assoc k d with
  | Some v => v
  | None => default
  end.

Definition dict_get (d : dict) (k : string) : pyval := dict_get_default d k PNone.

(** [v == "literal"]: only a [str] equals a string literal. *)
Definition eq_str (v : pyval) (s : string) : bool :=
  match v with
  | PStr t => String.eqb t s
  | _ => false
  end.

(** [type(v).__name__] *)
Definition type_name (v : pyval) : string :=
  match v with
  | PNone => "NoneType"
  | PBool _ => "bool"
  | PInt _ => "int"
  | PStr _ => "str"
  | PList _ => "list"
  | PDict _ => "dict"
  end.

(** The exception of [v.attr] on a value that has no such attribute. *)
Definition no_attribute (v : pyval) (attr : string) : exn :=
  AttributeError ("'" ++ type_name v ++ "' object has no attribute '" ++ attr ++ "'").

(** [v.get(k, default)] on an arbitrary value: anything but a [dict] has no
    [get]. *)
Definition py_get (v : pyval) (k : string) (default : pyval) : res pyval :=
  match v with
  | PDict d => Ok (dict_get_default d k default)
  | _ => Err (no_attribute v "get")
  end.

(** ** [str.strip] and [str.lower] on code points below 256 *)

Definition is_space (c : ascii) : bool :=
  let n := nat_of_ascii c in
  (((9 <=? n) && (n <=? 13)) || ((28 <=? n) && (n <=? 32))
   || (n =? 133) || (n =? 160))%nat.

Definition lower_char (c : ascii) : ascii :=
  let n := nat_of_ascii c in
  if (((65 <=? n) && (n <=? 90))
      || ((192 <=? n) && (n <=? 222) && negb (n =? 215)))%nat
  then ascii_of_nat (n + 32) else c.

Fixpoint lower (s : string) : string :=
  match s with
  | EmptyString => EmptyString
  | String c s' => String (lower_char c) (lower s')
  end.

Fixpoint lstrip (s : string) : string :=
  match s with
  | EmptyString => EmptyString
  | String c s' => if is_space c then lstrip s' else s
  end.

Fixpoint rstrip (s : string) : string :=
  match s with
  | EmptyString => EmptyString
  | String c s' =>
      match rstrip s' with
      | EmptyString => if is_space c then EmptyString else String c EmptyString
      | r => String c r
      end
  end.

Definition strip (s : string) : string := rstrip (lstrip s).

(** ** utils.py *)

Definition stop_vocabulary : list string :=
  ["stop"; "unsubscribe"; "cancel"; "end"; "quit"].

Definition is_stop_command (text : string) : bool :=
  if String.eqb text "" then false
  else
    let t := lower (strip text) in
    existsb (String.eqb t) stop_vocabulary.

Record StatusInfo : Type := {
  whatsapp_message_id_of : pyval;
  status_of : pyval;
  error_of : pyval
}.

Definition extract_message_status (status_data : dict) : option StatusInfo :=
  match status_data with
  | [] => None
  | _ =>
      let message_id := dict_get status_data "id" in
      let status := dict_get status_data "status" in
      let errors := dict_get status_data "errors" in
      if negb (truthy message_id) || negb (truthy status) then None
      else
        let err :=
          match errors with
          | PList (e :: _) => e
          | _ => PNone
          end in
        Some {| whatsapp_message_id_of := message_id;
                status_of := status;
                error_of := err |}
  end.

Record ButtonPayload : Type := {
  response_type : string;
  button_id : string;
  button_title : string
}.

Section Runtime.

(** Python's builtin [repr], which [str] falls back to on everything but a
    [str]; it belongs to the language runtime, not to the repository. *)
Variable repr : pyval -> string.

Definition py_str (v : pyval) : string :=
  match v with
  | PStr s => s
  | _ => repr v
  end.

(** [{"response_type": rt, "button_id": str(r.get(k_id) or ""),
      "button_title": str(r.get(k_title) or "")}] with [r = v or {}]. *)
Definition reply_payload (rt : string) (v : pyval) (k_id k_title : string)
  : res ButtonPayload :=
  i <- py_get (py_or v (PDict [])) k_id PNone ;;
  t <- py_get (py_or v (PDict [])) k_title PNone ;;
  Ok {| response_type := rt;
        button_id := py_str (py_or i (PStr ""));
        button_title := py_str (py_or t (PStr "")) |}.

Definition legacy_button (message_data : dict) : res (option ButtonPayload) :=
  match dict_get message_data "button" with
  | PDict button =>
      Ok (Some {| response_type := "button";
                  button_id := py_str (py_or (dict_get button "payload") (PStr ""));
                  button_title := py_str (py_or (dict_get button "text") (PStr "")) |})
  | _ => Ok None
  end.

Definition extract_button_payload (message_data : dict) : res (option ButtonPayload) :=
  match message_data with
  | [] => Ok None
  | _ =>
      match dict_get message_data "interactive" with
      | PDict interactive =>
          let itype := dict_get interactive "type" in
          if eq_str itype "button_reply" then
            p <- reply_payload "button_reply" (dict_get interactive "button_reply") "id" "title" ;;
            Ok (Some p)
          else if eq_str itype "list_reply" then
            p <- reply_payload "list_reply" (dict_get interactive "list_reply") "id" "title" ;;
            Ok (Some p)
          else legacy_button message_data
      | _ => legacy_button message_data
      end
  end.

End Runtime.

(** ** models.py *)

Inductive MessageStatus : Type := QUEUED | SENT | DELIVERED | READ | FAILED.

Definition MessageStatus_eqb (a b : MessageStatus) : bool :=
  match a, b with
  | QUEUED, QUEUED | SENT, SENT | DELIVERED, DELIVERED
  | READ, READ | FAILED, FAILED => true
  | _, _ => false
  end.

(** A member row: the columns the handlers read or assign.  The
    bookkeeping timestamps [created_at] and [updated_at] of models.py are
    not part of the record (no handler reads them; the ORM sets them on
    insert and rewrites [updated_at] with every UPDATE of the row). *)
Module Member.
Record t : Type := {
  id : nat;
  phone_number : string;
  full_name : option string;
  email : option string;
  status : option string;
  city : option string;
  plan : option string;
  expiry_date : option nat;
  is_opted_in : bool
}.

Definition set_is_opted_in (b : bool) (m : t) : t :=
  {| id := id m; phone_number := phone_number m; full_name := full_name m;
     email := email m; status := status m; city := city m; plan := plan m;
     expiry_date := expiry_date m; is_opted_in := b |}.
End Member.

Module Campaign.
Record t : Type := {
  id : nat;
  name : string;
  template_name : string;
  description : option string;
  target_count : Z;
  sent_count : Z;
  delivered_count : Z;
  read_count : Z;
  failed_count : Z;
  status_filter : option string;
  plan_filter : option string;
  city_filter : option string;
  expiry_days_filter : option Z;
  status : string;
  created_at : nat;
  sent_at : option nat
}.

(** Assignment to the columns the handlers write: counters, [status],
    [sent_at]. *)
Definition write (sent delivered read failed : Z) (st : string)
           (at_ : option nat) (c : t) : t :=
  {| id := id c; name := name c; template_name := template_name c;
     description := description c; target_count := target_count c;
     sent_count := sent; delivered_count := delivered;
     read_count := read; failed_count := failed;
     status_filter := status_filter c; plan_filter := plan_filter c;
     city_filter := city_filter c; expiry_days_filter := expiry_days_filter c;
     status := st; created_at := created_at c; sent_at := at_ |}.

Definition incr_sent (c : t) : t :=
  write (sent_count c + 1) (delivered_count c) (read_count c) (failed_count c)
        (status c) (sent_at c) c.
Definition incr_delivered (c : t) : t :=
  write (sent_count c) (delivered_count c + 1) (read_count c) (failed_count c)
        (status c) (sent_at c) c.
Definition incr_read (c : t) : t :=
  write (sent_count c) (delivered_count c) (read_count c + 1) (failed_count c)
        (status c) (sent_at c) c.
Definition incr_failed (c : t) : t :=
  write (sent_count c) (delivered_count c) (read_count c) (failed_count c + 1)
        (status c) (sent_at c) c.
Definition set_status (st : string) (c : t) : t :=
  write (sent_count c) (delivered_count c) (read_count c) (failed_count c)
        st (sent_at c) c.
Definition set_sent_at (n : nat) (c : t) : t :=
  write (sent_count c) (delivered_count c) (read_count c) (failed_count c)
        (status c) (Some n) c.

(** The four counters, in the order sent, delivered, read, failed. *)
Definition counters (c : t) : Z * Z * Z * Z :=
  (sent_count c, delivered_count c, read_count c, failed_count c).
End Campaign.

Module Message.
Record t : Type := {
  id : nat;
  campaign_id : nat;
  member_id : nat;
  status : MessageStatus;
  template_name : option string;
  whatsapp_message_id : option string;
  error_message : option string;
  created_at : nat;
  sent_at : option nat;
  delivered_at : option nat;
  read_at : option nat
}.

(** Assignment to the columns the handlers write. *)
Definition write (st : MessageStatus) (wa_id err : option string)
           (sent delivered read : option nat) (m : t) : t :=
  {| id := id m; campaign_id := campaign_id m; member_id := member_id m;
     status := st; template_name := template_name m;
     whatsapp_message_id := wa_id; error_message := err;
     created_at := created_at m;
     sent_at := sent; delivered_at := delivered; read_at := read |}.

(** [msg.status = SENT; msg.sent_at = now] *)
Definition mark_sent (now : nat) (m : t) : t :=
  write SENT (whatsapp_message_id m) (error_message m)
        (Some now) (delivered_at m) (read_at m) m.
(** [msg.status = DELIVERED; msg.delivered_at = now] *)
Definition mark_delivered (now : nat) (m : t) : t :=
  write DELIVERED (whatsapp_message_id m) (error_message m)
        (sent_at m) (Some now) (read_at m) m.
(** [msg.status = READ; msg.read_at = now] *)
Definition mark_read (now : nat) (m : t) : t :=
  write READ (whatsapp_message_id m) (error_message m)
        (sent_at m) (delivered_at m) (Some now) m.
(** [msg.status = FAILED; msg.error_message = err] *)
Definition mark_failed (err : string) (m : t) : t :=
  write FAILED (whatsapp_message_id m) (Some err)
        (sent_at m) (delivered_at m) (read_at m) m.
(** [msg.status = SENT; msg.whatsapp_message_id = wa_id; msg.sent_at = now] *)
Definition mark_dispatched (wa_id : option string) (now : nat) (m : t) : t :=
  write SENT wa_id (error_message m)
        (Some now) (delivered_at m) (read_at m) m.
End Message.

Module Response.
Record t : Type := {
  id : nat;
  message_id : nat;
  member_id : nat;
  campaign_id : option nat;
  response_type : option string;
  button_title : option string;
  button_id : option string;
  received_at : nat
}.
End Response.

Module OptOut.
Record t : Type := {
  id : nat;
  member_id : option nat;
  phone_number : string;
  reason : option string;
  created_at : nat
}.
End OptOut.

(** ** The database *)

Record DB : Type := {
  members : list Member.t;
  campaigns : list Campaign.t;
  messages : list Message.t;
  responses : list Response.t;
  optouts : list OptOut.t
}.

Definition with_members (l : list Member.t) (db : DB) : DB :=
  {| members := l; campaigns := campaigns db; messages := messages db;
     responses := responses db; optouts := optouts db |}.
Definition with_campaigns (l : list Campaign.t) (db : DB) : DB :=
  {| members := members db; campaigns := l; messages := messages db;
     responses := responses db; optouts := optouts db |}.
Definition with_messages (l : list Message.t) (db : DB) : DB :=
  {| members := members db; campaigns := campaigns db; messages := l;
     responses := responses db; optouts := optouts db |}.
Definition with_responses (l : list Response.t) (db : DB) : DB :=
  {| members := members db; campaigns := campaigns db; messages := messages db;
     responses := l; optouts := optouts db |}.
Definition with_optouts (l : list OptOut.t) (db : DB) : DB :=
  {| members := members db; campaigns := campaigns db; messages := messages db;
     responses := responses db; optouts := l |}.

(** The key an autoincrement primary key gives to the next inserted row. *)
Definition next_id (ids : list nat) : nat := S (fold_right Nat.max 0 ids).

(** [UPDATE table SET ... WHERE id = pk], as the unit of work flushes the
    attribute assignments made on a loaded row. *)
Definition update_where {A} (key : A -> nat) (pk : nat) (f : A -> A)
           (table : list A) : list A :=
  map (fun r => if (key r =? pk)%nat then f r else r) table.

Definition update_member (pk : nat) (f : Member.t -> Member.t) (db : DB) : DB :=
  with_members (update_where Member.id pk f (members db)) db.
Definition update_campaign (pk : nat) (f : Campaign.t -> Campaign.t) (db : DB) : DB :=
  with_campaigns (update_where Campaign.id pk f (campaigns db)) db.
Definition update_message (pk : nat) (f : Message.t -> Message.t) (db : DB) : DB :=
  with_messages (update_where Message.id pk f (messages db)) db.

(** [db.query(Campaign).filter(Campaign.id == pk).first()], also the
    [campaign] relationship of a message. *)
Definition get_campaign (db : DB) (pk : nat) : option Campaign.t :=
  find (fun c => (Campaign.id c =? pk)%nat) (campaigns db).

(** The [member] relationship of a message. *)
Definition get_member (db : DB) (pk : nat) : option Member.t :=
  find (fun m => (Member.id m =? pk)%nat) (members db).

(** The decimal text of an integer. *)
Definition decimal (z : Z) : string := NilZero.string_of_int (Z.to_int z).

(** A JSON value as the driver binds it to a query: a [str] as text, an
    [int] as a 64-bit integer, a [bool] as the integer 1 or 0, [None] as
    NULL; sqlite3 refuses a [list] or a [dict], and an [int] out of range. *)
Definition bind_parameter (v : pyval) : res unit :=
  match v with
  | PList _ | PDict _ =>
      Err (ProgrammingError ("Error binding parameter 1: type '" ++ type_name v
                             ++ "' is not supported"))
  | PInt z =>
      if ((- 2 ^ 63 <=? z) && (z <? 2 ^ 63))%Z then Ok tt
      else Err (OverflowError "Python int too large to convert to SQLite INTEGER")
  | _ => Ok tt
  end.

(** The text SQLite makes of a bound value where a text column meets it: the
    column's TEXT affinity turns an integer into its decimal text. *)
Definition sqlite_text (v : pyval) : option string :=
  match v with
  | PStr s => Some s
  | PInt z => Some (decimal z)
  | PBool b => Some (if b then "1" else "0")
  | _ => None
  end.

(** [column == value] in a query, for a text column and a JSON value that
    was bound: the column is compared with the text of the value, and
    [column == None] is rendered [column IS NULL]. *)
Definition column_eq (col : option string) (v : pyval) : bool :=
  match v with
  | PNone => match col with None => true | Some _ => false end
  | _ =>
      match col, sqlite_text v with
      | Some c, Some s => String.eqb c s
      | _, _ => false
      end
  end.

(** [db.query(Message).filter(Message.whatsapp_message_id == msg_id).first()] *)
Definition message_by_whatsapp_id (db : DB) (msg_id : pyval) : option Message.t :=
  find (fun m => column_eq (Message.whatsapp_message_id m) msg_id) (messages db).

(** [db.query(Member).filter(Member.phone_number == sender).first()] *)
Definition member_by_phone (db : DB) (sender : pyval) : option Member.t :=
  find (fun m => column_eq (Some (Member.phone_number m)) sender) (members db).

(** The first row of [ORDER BY created_at DESC]: a row no other row is newer
    than; among equally new rows the earliest inserted one is taken. *)
Fixpoint newest (l : list Message.t) : option Message.t :=
  match l with
  | [] => None
  | m :: l' =>
      match newest l' with
      | Some m' => if (Message.created_at m <? Message.created_at m')%nat
                   then Some m' else Some m
      | None => Some m
      end
  end.

(** [db.query(Message).filter(Message.member_id == pk)
       .order_by(desc(Message.created_at)).first()] *)
Definition last_message_of (db : DB) (pk : nat) : option Message.t :=
  newest (filter (fun m => (Message.member_id m =? pk)%nat) (messages db)).

(** What a handler leaves behind: the committed state, and the exception if
    one escaped. *)
Inductive result : Type :=
| Returned (db : DB)
| Raised (e : exn) (db : DB).

Definition committed (r : result) : DB :=
  match r with
  | Returned db | Raised _ db => db
  end.

(** ** schemas.py *)

Module SendTemplateRequest.
Record t : Type := {
  campaign_name : string;
  template_name : string;
  description : option string;
  status_filter : option string;
  plan_filter : option string;
  city_filter : option string;
  expiry_days_filter : option Z;
  access_token : string;
  phone_number_id : string;
  language_code : string;
  test_numbers : option (list string);
  auto_dispatch : bool
}.
End SendTemplateRequest.

Module SendTemplateResponse.
Record t : Type := {
  campaign_id : nat;
  message : string;
  total_recipients : nat;
  queued_count : nat;
  dispatch_started : bool
}.
End SendTemplateResponse.

(** ** whatsapp_client.py *)

(** [WhatsAppCloudClient.__init__], reached through [get_whatsapp_client];
    the client object carries nothing the handlers read back. *)
Definition get_whatsapp_client (access_token phone_number_id : string) : res unit :=
  if String.eqb access_token "" then Err (ValueError "access_token is required")
  else if String.eqb phone_number_id "" then Err (ValueError "phone_number_id is required")
  else Ok tt.

(** The provider as the dispatcher sees it: the answer of the [k]-th call
    [send_template_message_sync(recipient_phone, template_name)] of one
    dispatch, either the dictionary the client returns
    ([{"success": ..., "message_id": ..., "error": ...}]) or an exception. *)
Definition provider : Type := nat -> string -> string -> res dict.

(** ** main.py *)

(** Work handed to [background_tasks.add_task]. *)
Inductive Task : Type :=
| send_campaign_messages_task (campaign_id : nat) (access_token phone_number_id : string).

(** What an HTTP handler leaves behind: the committed state, its response
    (or the exception it raised), and the background tasks it scheduled. *)
Record Http (A : Type) : Type := {
  http_db : DB;
  http_response : res A;
  http_background : list Task
}.
Arguments http_db {A} h.
Arguments http_response {A} h.
Arguments http_background {A} h.

Section Handlers.

Variable repr : pyval -> string.

(** A value assigned to a nullable string column: [None] is NULL, a [str] is
    stored as it is. *)
Definition text_column (v : pyval) : option string :=
  match v with
  | PNone => None
  | _ => Some (py_str repr v)
  end.

(** [msg.campaign.<counter> += 1] after [f] was assigned to [msg], then
    [db.commit()]; a message without campaign row has [msg.campaign = None]. *)
Definition bump (db : DB) (msg : Message.t) (f : Message.t -> Message.t)
           (counter : string) (count : Campaign.t -> Campaign.t) : result :=
  match get_campaign db (Message.campaign_id msg) with
  | None => Raised (no_attribute PNone counter) db
  | Some camp =>
      Returned (update_campaign (Campaign.id camp) count
                  (update_message (Message.id msg) f db))
  end.

Definition process_status_update (now : nat) (db : DB) (status_data : dict) : result :=
  match extract_message_status status_data with
  | None => Returned db
  | Some info =>
      let msg_id := whatsapp_message_id_of info in
      let status := status_of info in
      if negb (truthy msg_id) then Returned db
      else
        match bind_parameter msg_id with
        | Err e => Raised e db
        | Ok _ =>
            match message_by_whatsapp_id db msg_id with
            | None => Returned db
            | Some msg =>
                if eq_str status "sent" then
                  Returned (update_message (Message.id msg) (Message.mark_sent now) db)
                else if eq_str status "delivered" then
                  bump db msg (Message.mark_delivered now)
                       "delivered_count" Campaign.incr_delivered
                else if eq_str status "read" then
                  bump db msg (Message.mark_read now) "read_count" Campaign.incr_read
                else if eq_str status "failed" then
                  bump db msg (Message.mark_failed (py_str repr (error_of info)))
                       "failed_count" Campaign.incr_failed
                else Returned db
            end
        end
  end.

(** [(message_data.get("text") or {}).get("body", "") or ""] *)
Definition inbound_text (message_data : dict) : res pyval :=
  body <- py_get (py_or (dict_get message_data "text") (PDict [])) "body" (PStr "") ;;
  Ok (py_or body (PStr "")).

(** [utils.is_stop_command(text)] on the value [inbound_text] yields: it is
    never falsy unless it is the empty string, and only a [str] has [strip]. *)
Definition is_stop_command_value (text : pyval) : res bool :=
  match text with
  | PStr s => Ok (is_stop_command s)
  | _ => if truthy text then Err (no_attribute text "strip") else Ok false
  end.

(** [OptOut(member_id=member.id, phone_number=sender, reason="stop")]: the
    text column holds the sender as SQLite stores it; the sender was bound
    for the member lookup, so it has a text. *)
Definition new_optout (db : DB) (member : Member.t) (sender : pyval) (now : nat)
  : OptOut.t :=
  {| OptOut.id := next_id (map OptOut.id (optouts db));
     OptOut.member_id := Some (Member.id member);
     OptOut.phone_number := match sqlite_text sender with
                            | Some s => s
                            | None => ""
                            end;
     OptOut.reason := Some "stop";
     OptOut.created_at := now |}.

Definition new_response (db : DB) (member : Member.t) (last_msg : Message.t)
           (payload : ButtonPayload) (now : nat) : Response.t :=
  {| Response.id := next_id (map Response.id (responses db));
     Response.message_id := Message.id last_msg;
     Response.member_id := Member.id member;
     Response.campaign_id := Some (Message.campaign_id last_msg);
     Response.response_type := Some (response_type payload);
     Response.button_title := Some (button_title payload);
     Response.button_id := Some (button_id payload);
     Response.received_at := now |}.

Definition process_incoming_message (now : nat) (db : DB) (message_data : dict) : result :=
  let sender := dict_get message_data "from" in
  if negb (truthy sender) then Returned db
  else
    match bind_parameter sender with
    | Err e => Raised e db
    | Ok _ =>
        match member_by_phone db sender with
        | None => Returned db
        | Some member =>
            match (text <- inbound_text message_data ;; is_stop_command_value text) with
            | Err e => Raised e db
            | Ok true =>
                Returned (with_optouts (optouts db ++ [new_optout db member sender now])
                            (update_member (Member.id member)
                               (Member.set_is_opted_in false) db))
            | Ok false =>
                match extract_button_payload repr message_data with
                | Err e => Raised e db
                | Ok None => Returned db
                | Ok (Some payload) =>
                    match last_message_of db (Member.id member) with
                    | None => Returned db
                    | Some last_msg =>
                        Returned (with_responses
                                    (responses db
                                       ++ [new_response db member last_msg payload now])
                                    db)
                    end
                end
            end
        end
    end.

(** The handlers on whatever element of [statuses] or [messages] the webhook
    found: [webhook_post] checks no element, and the tasks hand the element
    on as it is.  [extract_message_status] returns on a falsy value before
    it calls [get]; [process_incoming_message] calls [get] first. *)
Definition process_status_update_any (now : nat) (db : DB) (status_data : pyval)
  : result :=
  match status_data with
  | PDict d => process_status_update now db d
  | _ => if truthy status_data then Raised (no_attribute status_data "get") db
         else Returned db
  end.

Definition process_incoming_message_any (now : nat) (db : DB) (message_data : pyval)
  : result :=
  match message_data with
  | PDict d => process_incoming_message now db d
  | _ => Raised (no_attribute message_data "get") db
  end.

(** [Campaign(name=..., template_name=..., description=...,
              target_count=len(members), status="queued")] once flushed. *)
Definition new_campaign (db : DB) (request : SendTemplateRequest.t)
           (members : list Member.t) (now : nat) : Campaign.t :=
  {| Campaign.id := next_id (map Campaign.id (campaigns db));
     Campaign.name := SendTemplateRequest.campaign_name request;
     Campaign.template_name := SendTemplateRequest.template_name request;
     Campaign.description := SendTemplateRequest.description request;
     Campaign.target_count := Z.of_nat (List.length members);
     Campaign.sent_count := 0;
     Campaign.delivered_count := 0;
     Campaign.read_count := 0;
     Campaign.failed_count := 0;
     Campaign.status_filter := None;
     Campaign.plan_filter := None;
     Campaign.city_filter := None;
     Campaign.expiry_days_filter := None;
     Campaign.status := "queued";
     Campaign.created_at := now;
     Campaign.sent_at := None |}.

(** [Message(campaign_id=campaign.id, member_id=m.id, status=QUEUED,
             template_name=request.template_name)] with the key [pk]. *)
Definition new_message (pk campaign_id : nat) (request : SendTemplateRequest.t)
           (m : Member.t) (now : nat) : Message.t :=
  {| Message.id := pk;
     Message.campaign_id := campaign_id;
     Message.member_id := Member.id m;
     Message.status := QUEUED;
     Message.template_name := Some (SendTemplateRequest.template_name request);
     Message.whatsapp_message_id := None;
     Message.error_message := None;
     Message.created_at := now;
     Message.sent_at := None;
     Message.delivered_at := None;
     Message.read_at := None |}.

(** The rows of the [for m in members: db.add(Message(...))] loop, keyed
    from [pk] on in insertion order. *)
Fixpoint fan_out (pk campaign_id : nat) (request : SendTemplateRequest.t)
         (members : list Member.t) (now : nat) : list Message.t :=
  match members with
  | [] => []
  | m :: rest =>
      new_message pk campaign_id request m now
      :: fan_out (S pk) campaign_id request rest now
  end.

Definition create_campaign_and_queue (now : nat) (db : DB)
           (request : SendTemplateRequest.t) : Http SendTemplateResponse.t :=
  let members := filter Member.is_opted_in (members db) in
  match members with
  | [] =>
      {| http_db := db;
         http_response := Err (HTTPException 400 "No opted-in members");
         http_background := [] |}
  | _ =>
      let campaign := new_campaign db request members now in
      let rows := fan_out (next_id (map Message.id (messages db)))
                          (Campaign.id campaign) request members now in
      let db' := with_messages (messages db ++ rows)
                   (with_campaigns (campaigns db ++ [campaign]) db) in
      if SendTemplateRequest.auto_dispatch request then
        {| http_db := db';
           http_response :=
             Ok {| SendTemplateResponse.campaign_id := Campaign.id campaign;
                   SendTemplateResponse.message := "Campaign created and dispatch started.";
                   SendTemplateResponse.total_recipients := List.length members;
                   SendTemplateResponse.queued_count := List.length members;
                   SendTemplateResponse.dispatch_started := true |};
           http_background :=
             [send_campaign_messages_task (Campaign.id campaign)
                (SendTemplateRequest.access_token request)
                (SendTemplateRequest.phone_number_id request)] |}
      else
        {| http_db := db';
           http_response :=
             Ok {| SendTemplateResponse.campaign_id := Campaign.id campaign;
                   SendTemplateResponse.message := "Campaign created and queued.";
                   SendTemplateResponse.total_recipients := List.length members;
                   SendTemplateResponse.queued_count := List.length members;
                   SendTemplateResponse.dispatch_started := false |};
           http_background := [] |}
  end.

(** The body of [dispatch_campaign]'s response:
    [{"status": "dispatch_started", "campaign_id": campaign_id}]. *)
Definition dispatch_campaign (db : DB) (campaign_id : nat)
           (access_token phone_number_id : string) : Http dict :=
  {| http_db := db;
     http_response :=
       Ok [("status", PStr "dispatch_started");
           ("campaign_id", PInt (Z.of_nat campaign_id))];
     http_background :=
       [send_campaign_messages_task campaign_id access_token phone_number_id] |}.

(** The [try] block of one turn of the [for msg in msgs] loop, up to the
    branch on [res.get("success")]: the [k]-th provider call of this
    dispatch.  [msg.member] is loaded from the members table; a missing
    member, or an exception of the client, ends in the [except] branch. *)
Inductive SendOutcome : Type :=
| Accepted (message_id : option string)
| Rejected (error : string).

Definition try_send (wa : provider) (db : DB) (template_name : string)
           (k : nat) (msg : Message.t) : SendOutcome :=
  match get_member db (Message.member_id msg) with
  | None => Rejected (exn_str (no_attribute PNone "phone_number"))
  | Some member =>
      match wa k (Member.phone_number member) template_name with
      | Err e => Rejected (exn_str e)
      | Ok res =>
          if truthy (dict_get res "success")
          then Accepted (text_column (dict_get res "message_id"))
          else Rejected (py_str repr (dict_get res "error"))
      end
  end.

(** The assignments to [msg] in either branch. *)
Definition record_outcome (o : SendOutcome) (now : nat) (msg : Message.t) : Message.t :=
  match o with
  | Accepted wa_id => Message.mark_dispatched wa_id now msg
  | Rejected err => Message.mark_failed err msg
  end.

(** [camp.sent_count += 1] or [camp.failed_count += 1]. *)
Definition count_outcome (o : SendOutcome) (camp : Campaign.t) : Campaign.t :=
  match o with
  | Accepted _ => Campaign.incr_sent camp
  | Rejected _ => Campaign.incr_failed camp
  end.

(** One turn of the loop, up to and including its [db.commit()]. *)
Definition send_one (wa : provider) (clock : nat -> nat) (campaign_id : nat)
           (template_name : string) (k : nat) (msg : Message.t) (db : DB) : DB :=
  let o := try_send wa db template_name k msg in
  update_campaign campaign_id (count_outcome o)
    (update_message (Message.id msg) (record_outcome o (clock (S k))) db).

Fixpoint send_loop (wa : provider) (clock : nat -> nat) (campaign_id : nat)
         (template_name : string) (k : nat) (msgs : list Message.t) (db : DB) : DB :=
  match msgs with
  | [] => db
  | msg :: rest =>
      send_loop wa clock campaign_id template_name (S k) rest
        (send_one wa clock campaign_id template_name k msg db)
  end.

(** The rows of [Message.campaign_id == campaign_id AND Message.status == QUEUED]. *)
Definition is_queued_of (campaign_id : nat) (m : Message.t) : bool :=
  (Message.campaign_id m =? campaign_id)%nat
  && MessageStatus_eqb (Message.status m) QUEUED.

Definition send_campaign_messages (wa : provider) (clock : nat -> nat) (db : DB)
           (campaign_id : nat) (access_token phone_number_id : string) : result :=
  match get_campaign db campaign_id with
  | None => Returned db
  | Some camp =>
      let db1 :=
        update_campaign campaign_id
          (fun c => Campaign.set_sent_at (clock 0) (Campaign.set_status "sending" c))
          db in
      match get_whatsapp_client access_token phone_number_id with
      | Err e => Raised e db1
      | Ok _ =>
          let msgs := filter (is_queued_of campaign_id) (messages db1) in
          let db2 := send_loop wa clock campaign_id (Campaign.template_name camp)
                               0 msgs db1 in
          Returned (update_campaign campaign_id (Campaign.set_status "sent") db2)
      end
  end.

(** The states [send_campaign_messages] commits, in order: one per
    [db.commit()]. *)
Fixpoint send_loop_commits (wa : provider) (clock : nat -> nat) (campaign_id : nat)
         (template_name : string) (k : nat) (msgs : list Message.t) (db : DB)
  : list DB :=
  match msgs with
  | [] => []
  | msg :: rest =>
      let db' := send_one wa clock campaign_id template_name k msg db in
      db' :: send_loop_commits wa clock campaign_id template_name (S k) rest db'
  end.

Definition send_campaign_messages_commits (wa : provider) (clock : nat -> nat)
           (db : DB) (campaign_id : nat) (access_token phone_number_id : string)
  : list DB :=
  match get_campaign db campaign_id with
  | None => []
  | Some camp =>
      let db1 :=
        update_campaign campaign_id
          (fun c => Campaign.set_sent_at (clock 0) (Campaign.set_status "sending" c))
          db in
      match get_whatsapp_client access_token phone_number_id with
      | Err e => [db1]
      | Ok _ =>
          let msgs := filter (is_queued_of campaign_id) (messages db1) in
          let steps := send_loop_commits wa clock campaign_id
                         (Campaign.template_name camp) 0 msgs db1 in
          db1 :: steps
            ++ [update_campaign campaign_id (Campaign.set_status "sent")
                  (last steps db1)]
      end
  end.

(** Running a scheduled task ([send_campaign_messages_task]). *)
Definition run_task (wa : provider) (clock : nat -> nat) (db : DB) (t : Task) : result :=
  match t with
  | send_campaign_messages_task campaign_id access_token phone_number_id =>
      send_campaign_messages wa clock db campaign_id access_token phone_number_id
  end.

(** The outcomes of the successive provider calls of one dispatch over the
    snapshot [msgs], numbered from [k] on. *)
Fixpoint outcomes (wa : provider) (db : DB) (template_name : string)
         (k : nat) (msgs : list Message.t) : list SendOutcome :=
  match msgs with
  | [] => []
  | msg :: rest =>
      try_send wa db template_name k msg
      :: outcomes wa db template_name (S k) rest
  end.

(** ** Histories of the engine *)

(** The operations that change the database: the two campaign endpoints'
    effects, the two webhook handlers, and the recipient store's edits
    (create, update, import), which only touch the members table. *)
Inductive op : Type :=
| OpCreateCampaign (now : nat) (request : SendTemplateRequest.t)
| OpDispatch (wa : provider) (clock : nat -> nat) (campaign_id : nat)
             (access_token phone_number_id : string)
| OpStatusEvent (now : nat) (status_data : dict)
| OpInbound (now : nat) (message_data : dict)
| OpMembers (rows : list Member.t).

Definition exec (o : op) (db : DB) : DB :=
  match o with
  | OpCreateCampaign now request => http_db (create_campaign_and_queue now db request)
  | OpDispatch wa clock campaign_id access_token phone_number_id =>
      committed (send_campaign_messages wa clock db campaign_id
                   access_token phone_number_id)
  | OpStatusEvent now status_data => committed (process_status_update now db status_data)
  | OpInbound now message_data => committed (process_incoming_message now db message_data)
  | OpMembers rows => with_members rows db
  end.

Definition run (ops : list op) (db : DB) : DB :=
  fold_left (fun d o => exec o d) ops db.

End Handlers.

Definition empty_db : DB :=
  {| members := []; campaigns := []; messages := [];
     responses := []; optouts := [] |}.


(** A status event that bumps a counter: its status is one of
    [delivered], [read], [failed]. *)
Definition counting_status (status_data : dict) : bool :=
  let status := dict_get status_data "status" in
  eq_str status "delivered" || eq_str status "read" || eq_str status "failed".



(** The message status a recognised webhook status string stands for. *)
Definition event_status (st : string) : option MessageStatus :=
  if String.eqb st "sent" then Some SENT
  else if String.eqb st "delivered" then Some DELIVERED
  else if String.eqb st "read" then Some READ
  else if String.eqb st "failed" then Some FAILED
  else None.

(** The counters after one more event of status [st] was counted: [sent]
    events and unrecognised ones count nothing. *)
Definition counted (st : MessageStatus) (n : Z * Z * Z * Z) : Z * Z * Z * Z :=
  match n with
  | (sent, delivered, read, failed) =>
      match st with
      | DELIVERED => (sent, delivered + 1, read, failed)
      | READ => (sent, delivered, read + 1, failed)
      | FAILED => (sent, delivered, read, failed + 1)
      | _ => (sent, delivered, read, failed)
      end%Z
  end.

(** The row assignment and the counter a recognised status selects. *)
Definition status_assignment (st : MessageStatus) (now : nat) (err : string)
  : Message.t -> Message.t :=
  match st with
  | SENT => Message.mark_sent now
  | DELIVERED => Message.mark_delivered now
  | READ => Message.mark_read now
  | FAILED => Message.mark_failed err
  | QUEUED => fun m => m
  end.

Definition status_counter (st : MessageStatus) : Campaign.t -> Campaign.t :=
  match st with
  | DELIVERED => Campaign.incr_delivered
  | READ => Campaign.incr_read
  | FAILED => Campaign.incr_failed
  | _ => fun c => c
  end.

(** The first error of a status event, as [extract_message_status] picks it. *)
Definition first_error (status_data : dict) : pyval :=
  match dict_get status_data "errors" with
  | PList (e :: _) => e
  | _ => PNone
  end.

Definition is_accepted (o : SendOutcome) : bool :=
  match o with
  | Accepted _ => true
  | Rejected _ => false
  end.

Definition accepted (l : list SendOutcome) : nat :=
  List.length (filter is_accepted l).
Definition rejected (l : list SendOutcome) : nat :=
  List.length (filter (fun o => negb (is_accepted o)) l).

(** [a] more messages sent and [r] more failed. *)
Definition add_counts (a r : nat) (c : Campaign.t) : Campaign.t :=
  Campaign.write (Campaign.sent_count c + Z.of_nat a) (Campaign.delivered_count c)
                 (Campaign.read_count c) (Campaign.failed_count c + Z.of_nat r)
                 (Campaign.status c) (Campaign.sent_at c) c.

(** How many rows of a messages table are queued under a campaign. *)
Definition queued_of (campaign_id : nat) (table : list Message.t) : nat :=
  List.length (filter (is_queued_of campaign_id) table).




(** The request's filter predicate, in the spec's words: the segmentation
    attributes status, plan and city of a recipient are compared with the
    filters the request carries; a filter that is not set accepts every
    recipient. *)
Definition attribute_matches (wanted actual : option string) : bool :=
  match wanted, actual with
  | None, _ => true
  | Some w, Some a => String.eqb a w
  | Some _, None => false
  end.

Definition spec_filter_predicate (request : SendTemplateRequest.t) (m : Member.t) : bool :=
  attribute_matches (SendTemplateRequest.status_filter request) (Member.status m)
  && attribute_matches (SendTemplateRequest.plan_filter request) (Member.plan m)
  && attribute_matches (SendTemplateRequest.city_filter request) (Member.city m).

(** Primary keys are unique, and a message's campaign is a campaign row. *)
Definition member_keys_unique (db : DB) : Prop :=
  NoDup (map Member.id (members db)).
Definition message_keys_unique (db : DB) : Prop :=
  NoDup (map Message.id (messages db)).
Definition messages_have_campaign (db : DB) : Prop :=
  forall msg, In msg (messages db) ->
              In (Message.campaign_id msg) (map Campaign.id (campaigns db)).



(** ** Sample data

    A small recipient store, a request and scripted providers, used to run
    the handlers on concrete inputs. *)

Module Sample.

(** A stand-in for the runtime's [repr]. *)
Definition repr (v : pyval) : string :=
  match v with
  | PNone => "None"
  | PBool true => "True"
  | PBool false => "False"
  | _ => "<object>"
  end.

Definition member (pk : nat) (phone : string) (status : option string)
           (opted_in : bool) : Member.t :=
  {| Member.id := pk; Member.phone_number := phone;
     Member.full_name := None; Member.email := None;
     Member.status := status; Member.city := None; Member.plan := None;
     Member.expiry_date := None; Member.is_opted_in := opted_in |}.

Definition alice : Member.t := member 1 "+15550001" (Some "active") true.
Definition bob : Member.t := member 2 "+15550002" (Some "expired") true.
Definition carol : Member.t := member 3 "+15550003" (Some "active") false.

Definition request (status_filter : option string) : SendTemplateRequest.t :=
  {| SendTemplateRequest.campaign_name := "renewal";
     SendTemplateRequest.template_name := "hello_world";
     SendTemplateRequest.description := None;
     SendTemplateRequest.status_filter := status_filter;
     SendTemplateRequest.plan_filter := None;
     SendTemplateRequest.city_filter := None;
     SendTemplateRequest.expiry_days_filter := None;
     SendTemplateRequest.access_token := "token";
     SendTemplateRequest.phone_number_id := "1001";
     SendTemplateRequest.language_code := "en_US";
     SendTemplateRequest.test_numbers := None;
     SendTemplateRequest.auto_dispatch := false |}.

(** A provider that accepts every message and names it after the phone. *)
Definition accepting : provider :=
  fun _ phone _ => Ok [("success", PBool true); ("message_id", PStr ("wamid." ++ phone))].

(** A provider that accepts the first call and rejects the others. *)
Definition flaky : provider :=
  fun k phone _ =>
    match k with
    | O => Ok [("success", PBool true); ("message_id", PStr ("wamid." ++ phone))]
    | _ => Ok [("success", PBool false); ("error", PStr "rejected")]
    end.

Definition clock (k : nat) : nat := 20 + k.

Definition status_event (wa_id status : string) : dict :=
  [("id", PStr wa_id); ("status", PStr status)].

Definition text_message (phone body : string) : dict :=
  [("from", PStr phone); ("type", PStr "text"); ("text", PDict [("body", PStr body)])].


(** A store of three recipients, no campaign yet. *)
Definition store : DB := with_members [alice; bob; carol] empty_db.

(** [store] after one campaign was created ... *)
Definition created : DB :=
  http_db (create_campaign_and_queue 10 store (request None)).

(** ... and dispatched through [accepting]. *)
Definition dispatched : DB :=
  committed (send_campaign_messages repr accepting clock created 1 "token" "1001").

(** The provider ids of the two messages of [dispatched]. *)
Definition alice_wamid : string := "wamid.+15550001".
Definition bob_wamid : string := "wamid.+15550002".

(** The message row that [created] holds for Alice. *)
Definition alice_message : Message.t :=
  new_message 1 1 (request None) alice 10.

(** The rows that [created] and [dispatched] hold for the campaign and
    for Alice's message. *)
Definition campaign_created : Campaign.t :=
  new_campaign store (request None) [alice; bob] 10.
Definition campaign_dispatched : Campaign.t :=
  Campaign.set_status "sent"
    (add_counts 2 0
       (Campaign.set_sent_at 20 (Campaign.set_status "sending" campaign_created))).
Definition alice_sent : Message.t :=
  Message.mark_dispatched (Some alice_wamid) 21 alice_message.

(** [dispatched] after Alice's message was reported delivered, then read. *)
Definition read_by_alice : DB :=
  run repr [OpStatusEvent 30 (status_event alice_wamid "delivered");
            OpStatusEvent 31 (status_event alice_wamid "read")] dispatched.

Definition alice_read : Message.t :=
  Message.mark_read 31 (Message.mark_delivered 30 alice_sent).
Definition campaign_read : Campaign.t :=
  Campaign.incr_read (Campaign.incr_delivered campaign_dispatched).

(** The answer to the request that made [created]. *)
Definition response_created : SendTemplateResponse.t :=
  {| SendTemplateResponse.campaign_id := 1;
     SendTemplateResponse.message := "Campaign created and queued.";
     SendTemplateResponse.total_recipients := 2;
     SendTemplateResponse.queued_count := 2;
     SendTemplateResponse.dispatch_started := false |}.








End Sample.

(** * The rest of the backend *)

(** ** What a history may do to a row *)

(** A campaign row later in a history: the same campaign, with the same
    target, and no counter smaller than before. *)
Definition campaign_grows (c c' : Campaign.t) : Prop :=
  Campaign.id c' = Campaign.id c
  /\ Campaign.name c' = Campaign.name c
  /\ Campaign.template_name c' = Campaign.template_name c
  /\ Campaign.target_count c' = Campaign.target_count c
  /\ (Campaign.sent_count c <= Campaign.sent_count c'
      /\ Campaign.delivered_count c <= Campaign.delivered_count c'
      /\ Campaign.read_count c <= Campaign.read_count c'
      /\ Campaign.failed_count c <= Campaign.failed_count c')%Z.

(** A campaigns table later in a history: the rows it had, each grown, in
    the same order, followed by the campaigns created since. *)
Definition campaigns_grow (before after : list Campaign.t) : Prop :=
  exists kept created,
    after = (kept ++ created)%list /\ Forall2 campaign_grows before kept.

(** A recipient row later in a history of the engine: as it was, or opted
    out, in the columns of [Member.t]. *)
Definition member_kept (m m' : Member.t) : Prop :=
  m' = m \/ m' = Member.set_is_opted_in false m.

(** The operations of the lifecycle engine: all but the recipient store's
    edits. *)
Definition engine_op (o : op) : bool :=
  match o with
  | OpMembers _ => false
  | _ => true
  end.

(** Queued messages carry no provider id. *)
Definition queued_without_provider_id (db : DB) : Prop :=
  forall m, In m (messages db) -> Message.status m = QUEUED ->
            Message.whatsapp_message_id m = None.

(** The shape every history keeps of the message ledger. *)
Definition ledger_shape (db : DB) : Prop :=
  message_keys_unique db /\ queued_without_provider_id db.

(** ** What a history may do to the ledger *)

(** A message row later in a history: the same message of the same
    campaign, for the same recipient, created at the same time. *)
Definition message_kept (m m' : Message.t) : Prop :=
  Message.id m' = Message.id m
  /\ Message.campaign_id m' = Message.campaign_id m
  /\ Message.member_id m' = Message.member_id m
  /\ Message.template_name m' = Message.template_name m
  /\ Message.created_at m' = Message.created_at m.

(** Nothing was deleted between two states: the messages are the old ones
    in their order, followed by new ones; responses and opt-outs are the
    old rows unchanged, followed by new ones. *)
Definition appended (db db' : DB) : Prop :=
  (exists kept created,
      messages db' = (kept ++ created)%list
      /\ Forall2 message_kept (messages db) kept)
  /\ (exists created, responses db' = (responses db ++ created)%list)
  /\ (exists created, optouts db' = (optouts db ++ created)%list).

(** The rows of other campaigns, and everything but campaigns and
    messages, are the same in two states. *)
Definition same_outside (campaign_id : nat) (db db' : DB) : Prop :=
  filter (fun c => negb (Campaign.id c =? campaign_id)%nat) (campaigns db')
  = filter (fun c => negb (Campaign.id c =? campaign_id)%nat) (campaigns db)
  /\ filter (fun m => negb (Message.campaign_id m =? campaign_id)%nat) (messages db')
     = filter (fun m => negb (Message.campaign_id m =? campaign_id)%nat) (messages db)
  /\ members db' = members db
  /\ responses db' = responses db
  /\ optouts db' = optouts db.

(** The message rows that have the key of [m] belong to the campaign. *)
Definition keyed_within (cid : nat) (db : DB) (m : Message.t) : Prop :=
  forall r, In r (messages db) -> Message.id r = Message.id m ->
            Message.campaign_id r = cid.

(** ** utils.py: phone numbers *)

(** [\d] on a code point below 256: one of the ten ASCII digits.  The
    pattern is compiled without [re.ASCII], so in Python [\d] also matches
    the decimal digits of other scripts; all of those lie above 255, outside
    the strings of this embedding. *)
Definition is_digit (c : ascii) : bool :=
  let n := nat_of_ascii c in ((48 <=? n) && (n <=? 57))%nat.

Definition is_nonzero_digit (c : ascii) : bool :=
  let n := nat_of_ascii c in ((49 <=? n) && (n <=? 57))%nat.

(** [\d*$] against the rest of the subject: the number of digits when the
    rest is digits up to the end, where [$] also matches before a final
    newline. *)
Fixpoint digits_to_end (s : string) : option nat :=
  match s with
  | EmptyString => Some 0
  | String c rest =>
      if is_digit c then option_map S (digits_to_end rest)
      else if Ascii.eqb c "010" && String.eqb rest "" then Some 0
      else None
  end.

(** [[1-9]\d{7,15}$] *)
Definition e164_digits (s : string) : bool :=
  match s with
  | EmptyString => false
  | String c rest =>
      is_nonzero_digit c
      && match digits_to_end rest with
         | Some n => ((7 <=? n) && (n <=? 15))%nat
         | None => false
         end
  end.

(** [E164_RE.match(s)] for [E164_RE = ^\+?[1-9]\d{7,15}$]: a leading plus
    can only be matched by [\+?]. *)
Definition E164_RE_match (s : string) : bool :=
  match s with
  | String "+" rest => e164_digits rest
  | _ => e164_digits s
  end.

Definition validate_phone_number (phone : string) : bool :=
  if String.eqb phone "" then false
  else E164_RE_match (strip phone).

Fixpoint all_digits (s : string) : bool :=
  match s with
  | EmptyString => true
  | String c rest => is_digit c && all_digits rest
  end.

(** A national significant number in the E.164 shape the pattern accepts:
    8 to 16 digits, the first not zero. *)
Definition e164_shape (d : string) : Prop :=
  all_digits d = true
  /\ 8 <= String.length d <= 16
  /\ exists c rest, d = String c rest /\ c <> "0"%char.

(** ** The recipient store: main.py and schemas.py *)

(** What leaves an endpoint of the recipient store instead of an answer: an
    exception of the handler, or the [IntegrityError] of a commit that a
    constraint of models.py refuses. *)
Inductive failure : Type :=
| Raises (e : exn)
| IntegrityError (detail : string).

(** The answer of an endpoint with the state it has committed, or its
    failure with the state left committed. *)
Inductive answer (A : Type) : Type :=
| Answered (a : A) (db : DB)
| Failed (f : failure) (db : DB).
Arguments Answered {A} a db.
Arguments Failed {A} f db.

Definition answer_db {A} (r : answer A) : DB :=
  match r with
  | Answered _ db | Failed _ db => db
  end.

Module MemberCreate.
Record t : Type := {
  phone_number : string;
  status : string;
  city : option string;
  plan : option string;
  is_opted_in : bool;
  expiry_date : option nat
}.
End MemberCreate.

(** [exclude_unset]: a field the request does not carry is [None]; a field it
    carries holds [Some] of its value, which may itself be null. *)
Module MemberUpdate.
Record t : Type := {
  status : option (option string);
  city : option (option string);
  plan : option (option string);
  is_opted_in : option (option bool);
  expiry_date : option (option nat)
}.
End MemberUpdate.

(** [models.Member] built from [member.model_dump()] with the key [pk]. *)
Definition member_of_create (pk : nat) (member : MemberCreate.t) : Member.t :=
  {| Member.id := pk;
     Member.phone_number := MemberCreate.phone_number member;
     Member.full_name := None;
     Member.email := None;
     Member.status := Some (MemberCreate.status member);
     Member.city := MemberCreate.city member;
     Member.plan := MemberCreate.plan member;
     Member.expiry_date := MemberCreate.expiry_date member;
     Member.is_opted_in := MemberCreate.is_opted_in member |}.

(** The phone numbers of the members table. *)
Definition phones (db : DB) : list string := map Member.phone_number (members db).

(** [db.query(Member).filter(Member.phone_number == phone).first()] is not
    [None]. *)
Definition phone_taken (db : DB) (phone : string) : bool :=
  match member_by_phone db (PStr phone) with
  | Some _ => true
  | None => false
  end.

(** [POST /members]; the field constraints of [MemberCreate] are checked by
    the framework before the handler runs. *)
Definition create_member (db : DB) (member : MemberCreate.t) : answer Member.t :=
  if negb (validate_phone_number (MemberCreate.phone_number member)) then
    Failed (Raises (HTTPException 400 "Invalid phone number")) db
  else if phone_taken db (MemberCreate.phone_number member) then
    Failed (Raises (HTTPException 409 "Member exists")) db
  else
    let m := member_of_create (next_id (map Member.id (members db))) member in
    Answered m (with_members (members db ++ [m]) db).

(** A field of the update as [setattr] leaves the column: the value the
    request carries, or the old one when the field is unset. *)
Definition assign {A} (field : option A) (old : A) : A :=
  match field with
  | Some v => v
  | None => old
  end.

(** The request assigns null to [is_opted_in], which models.py declares
    [nullable=False]. *)
Definition nulls_opt_in (update : MemberUpdate.t) : bool :=
  match MemberUpdate.is_opted_in update with
  | Some None => true
  | _ => false
  end.

(** The [setattr] loop over [update.model_dump(exclude_unset=True)], as the
    [UPDATE members SET ... WHERE id = member_id] it is flushed as. *)
Definition set_columns (update : MemberUpdate.t) (m : Member.t) : Member.t :=
  {| Member.id := Member.id m;
     Member.phone_number := Member.phone_number m;
     Member.full_name := Member.full_name m;
     Member.email := Member.email m;
     Member.status := assign (MemberUpdate.status update) (Member.status m);
     Member.city := assign (MemberUpdate.city update) (Member.city m);
     Member.plan := assign (MemberUpdate.plan update) (Member.plan m);
     Member.expiry_date :=
       assign (MemberUpdate.expiry_date update) (Member.expiry_date m);
     Member.is_opted_in :=
       match MemberUpdate.is_opted_in update with
       | Some (Some b) => b
       | _ => Member.is_opted_in m
       end |}.

(** [PUT /members/{member_id}]; the commit of a null [is_opted_in] fails. *)
Definition update_member_endpoint (db : DB) (member_id : nat)
           (update : MemberUpdate.t) : answer Member.t :=
  match get_member db member_id with
  | None => Failed (Raises (HTTPException 404 "Not found")) db
  | Some m =>
      if nulls_opt_in update then
        Failed (IntegrityError "NOT NULL constraint failed: members.is_opted_in") db
      else
        Answered (set_columns update m)
                 (update_member (Member.id m) (set_columns update) db)
  end.

(** [if value:] on an optional query parameter, then
    [q.filter(column == value)]. *)
Definition filter_by {A} (column : A -> option string) (value : option string)
           (table : list A) : list A :=
  match value with
  | Some v =>
      if String.eqb v "" then table
      else filter (fun r => match column r with
                            | Some c => String.eqb c v
                            | None => false
                            end) table
  | None => table
  end.

(** [q.offset(skip).limit(limit).all()] *)
Definition page {A} (skip limit : nat) (rows : list A) : list A :=
  firstn limit (skipn skip rows).

(** The rows [GET /members] selects before it pages them. *)
Definition members_matching (status city plan : option string)
           (opted_in : option bool) (db : DB) : list Member.t :=
  let q := filter_by Member.status status (members db) in
  let q := filter_by Member.city city q in
  let q := filter_by Member.plan plan q in
  match opted_in with
  | Some b => filter (fun m => Bool.eqb (Member.is_opted_in m) b) q
  | None => q
  end.

(** [GET /members] *)
Definition list_members (skip limit : nat) (status city plan : option string)
           (opted_in : option bool) (db : DB) : list Member.t :=
  page skip limit (members_matching status city plan opted_in db).

(** [ORDER BY created_at DESC]: rows of equal age stay in table order.  A
    row is put before the rows of a sorted list that are not newer than it
    is, so that it comes before the rows of its own age, which the table
    holds behind it. *)
Fixpoint insert_newest_first (c : Campaign.t) (l : list Campaign.t) : list Campaign.t :=
  match l with
  | [] => [c]
  | c' :: rest =>
      if (Campaign.created_at c' <=? Campaign.created_at c)%nat
      then c :: l
      else c' :: insert_newest_first c rest
  end.

Definition newest_first (l : list Campaign.t) : list Campaign.t :=
  fold_right insert_newest_first [] l.

(** [GET /campaigns] *)
Definition list_campaigns (skip limit : nat) (status : option string) (db : DB)
  : list Campaign.t :=
  page skip limit
    (newest_first (filter_by (fun c => Some (Campaign.status c)) status
                             (campaigns db))).

(** Not older than: the order of [GET /campaigns]. *)
Definition not_older (a b : Campaign.t) : Prop :=
  Campaign.created_at b <= Campaign.created_at a.

(** ** utils.py and main.py: the CSV import *)

(** A row as [csv.DictReader] yields it: the cell under each column name,
    [None] where the line is shorter than the header. *)
Definition csv_row : Type := list (string * option string).

Fixpoint row_get (row : csv_row) (k : string) : option string :=
  match row with
  | [] => None
  | (k', v) :: rest => if String.eqb k k' then v else row_get rest k
  end.

(** [row.get(k1) or row.get(k2) or ... or ""] *)
Fixpoint first_text (row : csv_row) (keys : list string) : string :=
  match keys with
  | [] => ""
  | k :: rest =>
      match row_get row k with
      | Some v => if String.eqb v "" then first_text row rest else v
      | None => first_text row rest
      end
  end.

(** [text or None] *)
Definition text_or_none (s : string) : option string :=
  if String.eqb s "" then None else Some s.

Module ImportRow.
Record t : Type := {
  phone_number : string;
  full_name : option string;
  email : option string;
  status : option string;
  city : option string;
  plan : option string;
  expiry_date : option nat;
  is_opted_in : bool
}.
End ImportRow.

Section Csv.

(** [datetime.strptime(value, fmt).date()], [None] for its [ValueError]. *)
Variable strptime : string -> string -> option nat.

(** [_parse_date]: the first of three formats that parses. *)
Definition _parse_date (value : string) : option nat :=
  match strptime value "%Y-%m-%d" with
  | Some d => Some d
  | None =>
      match strptime value "%d/%m/%Y" with
      | Some d => Some d
      | None => strptime value "%d-%m-%Y"
      end
  end.

(** One turn of the [for row in reader] loop: the parsed row, or [None] when
    the loop continues without appending. *)
Definition parse_csv_row (row : csv_row) : option ImportRow.t :=
  let phone := strip (first_text row ["phone_number"; "phone"; "msisdn"]) in
  if String.eqb phone "" then None
  else if negb (validate_phone_number phone) then None
  else
    let expiry_raw := strip (first_text row ["expiry_date"; "expiry"]) in
    let expiry_val :=
      if String.eqb expiry_raw "" then None else _parse_date expiry_raw in
    let opted_raw := lower (strip (first_text row ["is_opted_in"; "opted_in"])) in
    let is_opted_in :=
      if String.eqb opted_raw "" then true
      else existsb (String.eqb opted_raw) ["1"; "true"; "yes"; "y"] in
    Some {| ImportRow.phone_number := phone;
            ImportRow.full_name :=
              text_or_none (strip (first_text row ["full_name"; "name"]));
            ImportRow.email := text_or_none (strip (first_text row ["email"]));
            ImportRow.status := text_or_none (strip (first_text row ["status"]));
            ImportRow.city := text_or_none (strip (first_text row ["city"]));
            ImportRow.plan := text_or_none (strip (first_text row ["plan"]));
            ImportRow.expiry_date := expiry_val;
            ImportRow.is_opted_in := is_opted_in |}.

Fixpoint parse_csv_rows (rows : list csv_row) : list ImportRow.t :=
  match rows with
  | [] => []
  | row :: rest =>
      match parse_csv_row row with
      | Some r => r :: parse_csv_rows rest
      | None => parse_csv_rows rest
      end
  end.

(** [parse_csv_members] on what [csv.DictReader] makes of the content: its
    [fieldnames] (empty when there is no header row) and its rows. *)
Definition parse_csv_members (fieldnames : list string) (rows : list csv_row)
  : res (list ImportRow.t) :=
  match fieldnames with
  | [] => Err (ValueError "CSV has no header row")
  | _ => Ok (parse_csv_rows rows)
  end.

End Csv.

(** [models.Member] built from a parsed row, with the key [pk]. *)
Definition member_of_import (pk : nat) (r : ImportRow.t) : Member.t :=
  {| Member.id := pk;
     Member.phone_number := ImportRow.phone_number r;
     Member.full_name := ImportRow.full_name r;
     Member.email := ImportRow.email r;
     Member.status := ImportRow.status r;
     Member.city := ImportRow.city r;
     Member.plan := ImportRow.plan r;
     Member.expiry_date := ImportRow.expiry_date r;
     Member.is_opted_in := ImportRow.is_opted_in r |}.

(** The rows the import adds to the session: those whose number no
    committed member has.  The session does not flush before a query
    (db.py sets [autoflush=False]), so a row added earlier in the same
    import is not seen. *)
Definition rows_to_add (db : DB) (rows : list ImportRow.t) : list ImportRow.t :=
  filter (fun r => negb (phone_taken db (ImportRow.phone_number r))) rows.

(** The pending rows as the commit inserts them, keyed from [pk] on. *)
Fixpoint insert_rows (pk : nat) (rows : list ImportRow.t) : list Member.t :=
  match rows with
  | [] => []
  | r :: rest => member_of_import pk r :: insert_rows (S pk) rest
  end.

Fixpoint has_duplicate (l : list string) : bool :=
  match l with
  | [] => false
  | x :: rest => existsb (String.eqb x) rest || has_duplicate rest
  end.

Record ImportReport : Type := {
  created : nat;
  skipped : nat;
  total : nat
}.

(** The loop and the commit of [import_members]; the column
    [Member.phone_number] is declared [unique=True]. *)
Definition import_rows (db : DB) (rows : list ImportRow.t) : answer ImportReport :=
  let pending := rows_to_add db rows in
  if has_duplicate (map ImportRow.phone_number pending) then
    Failed (IntegrityError "UNIQUE constraint failed: members.phone_number") db
  else
    Answered {| created := List.length pending;
                skipped := List.length rows - List.length pending;
                total := List.length rows |}
             (with_members
                (members db
                   ++ insert_rows (next_id (map Member.id (members db))) pending)
                db).

(** [POST /members/import] *)
Definition import_members (strptime : string -> string -> option nat) (db : DB)
           (fieldnames : list string) (rows : list csv_row) : answer ImportReport :=
  match parse_csv_members strptime fieldnames rows with
  | Err e => Failed (Raises e) db
  | Ok parsed => import_rows db parsed
  end.

(** ** main.py: the webhook endpoint *)

(** Work that [webhook_post] hands to [background_tasks.add_task]. *)
Inductive WebhookTask : Type :=
| process_status_update_task (status_data : pyval)
| process_incoming_message_task (message_data : pyval).

(** The tasks scheduled so far, and the message of the exception that ended
    the scan, if one did. *)
Definition scan : Type := (list WebhookTask * option string)%type.

(** [for x in v]: the items, or the message of the [TypeError]. *)
Definition iterate (v : pyval) : string + list pyval :=
  match v with
  | PList l => inr l
  | PDict d => inr (map (fun kv => PStr (fst kv)) d)
  | PStr s => inr (map (fun c => PStr (String c "")) (list_ascii_of_string s))
  | _ => inl ("'" ++ type_name v ++ "' object is not iterable")
  end.

Fixpoint for_each (xs : list pyval) (body : pyval -> scan) : scan :=
  match xs with
  | [] => ([], None)
  | x :: rest =>
      match body x with
      | (tasks, Some e) => (tasks, Some e)
      | (tasks, None) =>
          let (tasks', e) := for_each rest body in ((tasks ++ tasks')%list, e)
      end
  end.

Definition for_in (v : pyval) (body : pyval -> scan) : scan :=
  match iterate v with
  | inl e => ([], Some e)
  | inr xs => for_each xs body
  end.

(** One statement after another. *)
Definition then_ (a : scan) (b : scan) : scan :=
  match a with
  | (tasks, Some e) => (tasks, Some e)
  | (tasks, None) => let (tasks', e) := b in ((tasks ++ tasks')%list, e)
  end.

Definition no_get (v : pyval) : scan := ([], Some (exn_str (no_attribute v "get"))).

(** The body of [for change in entry.get("changes", [])]. *)
Definition scan_change (change : pyval) : scan :=
  match change with
  | PDict c =>
      match dict_get_default c "value" (PDict []) with
      | PDict value =>
          then_
            (for_in (py_or (dict_get_default value "statuses" (PList [])) (PList []))
                    (fun status => ([process_status_update_task status], None)))
            (for_in (py_or (dict_get_default value "messages" (PList [])) (PList []))
                    (fun message => ([process_incoming_message_task message], None)))
      | value => no_get value
      end
  | _ => no_get change
  end.

(** The body of [for entry in data.get("entry", [])]. *)
Definition scan_entry (entry : pyval) : scan :=
  match entry with
  | PDict e => for_in (dict_get_default e "changes" (PList [])) scan_change
  | _ => no_get entry
  end.

Record Webhook : Type := {
  webhook_response : dict;
  webhook_tasks : list WebhookTask
}.

Definition webhook_ok : dict := [("status", PStr "ok")].
Definition webhook_error (message : string) : dict :=
  [("status", PStr "error"); ("message", PStr message)].

(** [POST /webhook]: the [try] block and its [except Exception]. *)
Definition webhook_post (data : pyval) : Webhook :=
  match data with
  | PDict d =>
      if negb (eq_str (dict_get d "object") "whatsapp_business_account") then
        {| webhook_response := webhook_ok; webhook_tasks := [] |}
      else
        match for_in (dict_get_default d "entry" (PList [])) scan_entry with
        | (tasks, None) =>
            {| webhook_response := webhook_ok; webhook_tasks := tasks |}
        | (tasks, Some e) =>
            {| webhook_response := webhook_error e; webhook_tasks := tasks |}
        end
  | _ =>
      {| webhook_response := webhook_error (exn_str (no_attribute data "get"));
         webhook_tasks := [] |}
  end.

(** A well-formed notification, as the provider sends it: entries of
    changes, each with its status events and its messages. *)
Definition change_of (events : list pyval * list pyval) : pyval :=
  PDict [("field", PStr "messages");
         ("value", PDict [("messaging_product", PStr "whatsapp");
                          ("statuses", PList (fst events));
                          ("messages", PList (snd events))])].

Definition entry_of (changes : list (list pyval * list pyval)) : pyval :=
  PDict [("id", PStr "0"); ("changes", PList (map change_of changes))].

Definition notification (entries : list pyval) : pyval :=
  PDict [("object", PStr "whatsapp_business_account"); ("entry", PList entries)].

Definition tasks_of_change (events : list pyval * list pyval) : list WebhookTask :=
  (map process_status_update_task (fst events)
   ++ map process_incoming_message_task (snd events))%list.

Definition tasks_of_entry (changes : list (list pyval * list pyval))
  : list WebhookTask :=
  flat_map tasks_of_change changes.

(** ** whatsapp_client.py: the call to the provider *)

(** What the client reads of a [requests.Response]; [json] is the result of
    [resp.json()], which raises on a body that is not JSON. *)
Record HttpResponse : Type := {
  status_code : nat;
  content : string;
  text : string;
  json : res pyval
}.

(** [requests.post(url, headers=..., json=..., timeout=...)]: the response, or
    the exception of a failed exchange. *)
Definition requests_post : Type :=
  string -> dict -> pyval -> nat -> res HttpResponse.

Module WhatsAppCloudClient.
Record t : Type := {
  access_token : string;
  phone_number_id : string;
  api_version : string;
  base_url : string
}.
End WhatsAppCloudClient.

(** [WhatsAppCloudClient.__init__] *)
Definition WhatsAppCloudClient_init
           (access_token phone_number_id api_version : string)
  : res WhatsAppCloudClient.t :=
  if String.eqb access_token "" then Err (ValueError "access_token is required")
  else if String.eqb phone_number_id "" then
    Err (ValueError "phone_number_id is required")
  else
    Ok {| WhatsAppCloudClient.access_token := access_token;
          WhatsAppCloudClient.phone_number_id := phone_number_id;
          WhatsAppCloudClient.api_version := api_version;
          WhatsAppCloudClient.base_url :=
            "https://graph.facebook.com/" ++ api_version ++ "/"
              ++ phone_number_id ++ "/messages" |}.

Definition request_headers (self : WhatsAppCloudClient.t) : dict :=
  [("Authorization", PStr ("Bearer " ++ WhatsAppCloudClient.access_token self));
   ("Content-Type", PStr "application/json")].

(** The [components] entry of the template, present when there are
    parameters. *)
Definition template_components (template_params : option (list string)) : dict :=
  match template_params with
  | None | Some [] => []
  | Some params =>
      [("components",
        PList [PDict [("type", PStr "body");
                      ("parameters",
                       PList (map (fun p => PDict [("type", PStr "text");
                                                   ("text", PStr p)])
                                  params))]])]
  end.

Definition template_payload (recipient_phone template_name language_code : string)
           (template_params : option (list string)) : pyval :=
  PDict [("messaging_product", PStr "whatsapp");
         ("to", PStr recipient_phone);
         ("type", PStr "template");
         ("template",
          PDict ([("name", PStr template_name);
                  ("language", PDict [("code", PStr language_code)])]
                   ++ template_components template_params))].

(** [resp.json() if resp.content else {}] *)
Definition response_data (resp : HttpResponse) : res pyval :=
  if String.eqb (content resp) "" then Ok (PDict []) else json resp.

(** The provider's id of the message, read off [{"messages": [{"id": ...}]}];
    [None] where the body has another shape. *)
Definition message_id_of (data : pyval) : res pyval :=
  match data with
  | PDict d =>
      match dict_get d "messages" with
      | PList (first :: _) => py_get first "id" PNone
      | _ => Ok PNone
      end
  | _ => Ok PNone
  end.

Definition send_failed (error : pyval) : dict :=
  [("success", PBool false); ("error", error)].

Definition send_template_message_sync
           (post : requests_post) (self : WhatsAppCloudClient.t)
           (recipient_phone template_name language_code : string)
           (template_params : option (list string)) (timeout : nat) : dict :=
  match post (WhatsAppCloudClient.base_url self) (request_headers self)
             (template_payload recipient_phone template_name language_code
                               template_params)
             timeout with
  | Err e => send_failed (PStr (exn_str e))
  | Ok resp =>
      match response_data resp with
      | Err e => send_failed (PStr (exn_str e))
      | Ok data =>
          if (400 <=? status_code resp)%nat then
            send_failed
              (py_or data
                     (PDict [("status_code", PInt (Z.of_nat (status_code resp)));
                             ("text", PStr (text resp))]))
          else
            match message_id_of data with
            | Err e => send_failed (PStr (exn_str e))
            | Ok msg_id =>
                [("success", PBool true); ("message_id", msg_id); ("raw", data)]
            end
      end
  end.

(** The client as the dispatcher calls it, with the defaults of its
    signature; [post k] is the exchange of the [k]-th call. *)
Definition client_provider (post : nat -> requests_post)
           (self : WhatsAppCloudClient.t) : provider :=
  fun k recipient_phone template_name =>
    Ok (send_template_message_sync (post k) self recipient_phone template_name
                                   "en_US" None 30).

(** The exchange was answered below 400 with a body the client can read, naming
    the message [msg_id]. *)
Definition exchange_accepted (exchange : res HttpResponse) (msg_id : pyval) : Prop :=
  exists resp data,
    exchange = Ok resp /\ status_code resp < 400
    /\ response_data resp = Ok data /\ message_id_of data = Ok msg_id.

(** ** server.py: the event store *)

Definition MAX_EVENTS : nat := 500.

(** [d[k] = v] *)
Fixpoint dict_set (k : string) (v : pyval) (d : dict) : dict :=
  match d with
  | [] => [(k, v)]
  | (k', v') :: rest =>
      if String.eqb k k' then (k, v) :: rest else (k', v') :: dict_set k v rest
  end.

Definition stamp (now : Z) (event : dict) : dict :=
  dict_set "_received_at" (PInt now) event.

(** [l[-n:]] for [n >= 1] and [del l[:n]]. *)
Definition last_n {A} (n : nat) (l : list A) : list A :=
  skipn (List.length l - n) l.

(** [push_event] on the store [EVENTS], at the time [now]. *)
Definition push_event (now : Z) (event : dict) (EVENTS : list dict) : list dict :=
  let EVENTS := (EVENTS ++ [stamp now event])%list in
  if (MAX_EVENTS <? List.length EVENTS)%nat
  then skipn (List.length EVENTS - MAX_EVENTS) EVENTS
  else EVENTS.

(** The store after the events [arrivals], each with its time of arrival,
    were pushed in this order. *)
Definition push_events (arrivals : list (Z * dict)) (EVENTS : list dict) : list dict :=
  fold_left (fun store a => push_event (fst a) (snd a) store) arrivals EVENTS.

(** [GET /events]: the value under ["events"]. *)
Definition get_events (limit : Z) (EVENTS : list dict) : list dict :=
  let limit := Z.max 1 (Z.min limit 200) in
  last_n (Z.to_nat limit) EVENTS.

(** ** More sample data *)

Module Desk.

(** The engine at work on [Sample.store]: a campaign, its dispatch, a
    status event and a stop command. *)
Definition engine_history : list op :=
  [OpCreateCampaign 10 (Sample.request None);
   OpDispatch Sample.flaky Sample.clock 1 "token" "1001";
   OpStatusEvent 30 (Sample.status_event Sample.alice_wamid "delivered");
   OpInbound 31 (Sample.text_message "+15550002" "Stop")].

(** Three recipients and a campaign that is not dispatched yet. *)
Definition queued_history : list op :=
  [OpMembers [Sample.alice; Sample.bob; Sample.carol];
   OpCreateCampaign 10 (Sample.request None)].

(** An inbound message whose [text] is a string, not an object. *)
Definition flat_text (phone body : string) : dict :=
  [("from", PStr phone); ("type", PStr "text"); ("text", PStr body)].

Definition new_member (phone : string) : MemberCreate.t :=
  {| MemberCreate.phone_number := phone;
     MemberCreate.status := "active";
     MemberCreate.city := None;
     MemberCreate.plan := None;
     MemberCreate.is_opted_in := true;
     MemberCreate.expiry_date := None |}.

Definition dave : Member.t := Sample.member 4 "+15550004" (Some "active") true.
Definition dave_padded : Member.t :=
  Sample.member 4 " +15550004 " (Some "active") true.

(** An update that carries [is_opted_in] only. *)
Definition opt (value : option bool) : MemberUpdate.t :=
  {| MemberUpdate.status := None;
     MemberUpdate.city := None;
     MemberUpdate.plan := None;
     MemberUpdate.is_opted_in := Some value;
     MemberUpdate.expiry_date := None |}.

Definition carol_back : Member.t :=
  Sample.member 3 "+15550003" (Some "active") true.

(** [Sample.store] after Alice's stop command, and the campaign made then. *)
Definition after_stop : DB :=
  committed (process_incoming_message Sample.repr 40 Sample.store
               (Sample.text_message "+15550001" "stop")).

Definition bob_message : Message.t :=
  new_message 1 1 (Sample.request None) Sample.bob 50.

Definition response_after_stop : SendTemplateResponse.t :=
  {| SendTemplateResponse.campaign_id := 1;
     SendTemplateResponse.message := "Campaign created and queued.";
     SendTemplateResponse.total_recipients := 1;
     SendTemplateResponse.queued_count := 1;
     SendTemplateResponse.dispatch_started := false |}.

(** A parsed row of an import file. *)
Definition row (phone : string) : ImportRow.t :=
  {| ImportRow.phone_number := phone;
     ImportRow.full_name := None;
     ImportRow.email := None;
     ImportRow.status := None;
     ImportRow.city := None;
     ImportRow.plan := None;
     ImportRow.expiry_date := None;
     ImportRow.is_opted_in := true |}.

Definition imported (pk : nat) (phone : string) : Member.t :=
  Sample.member pk phone None true.

(** [Sample.store] after the numbers [+15550001] (Alice's) and [+15550004]
    were imported. *)
Definition after_import : DB :=
  with_members [Sample.alice; Sample.bob; Sample.carol; imported 4 "+15550004"]
               empty_db.

Definition import_report : ImportReport :=
  {| created := 1; skipped := 1; total := 2 |}.

(** A date parser that knows one date. *)
Definition strptime (value fmt : string) : option nat :=
  if String.eqb value "2026-01-31" && String.eqb fmt "%Y-%m-%d"
  then Some 396 else None.

(** The rows of a file with the header [phone,name,expiry]. *)
Definition csv_rows : list csv_row :=
  [[("phone", Some " +15550004 "); ("name", Some "Dave"); ("expiry", Some "2026-01-31")];
   [("phone", Some "12"); ("name", Some "Eve"); ("expiry", None)]].

Definition after_csv : DB :=
  with_members
    [Sample.alice; Sample.bob; Sample.carol;
     {| Member.id := 4; Member.phone_number := "+15550004";
        Member.full_name := Some "Dave"; Member.email := None;
        Member.status := None; Member.city := None; Member.plan := None;
        Member.expiry_date := Some 396; Member.is_opted_in := true |}]
    empty_db.

(** A provider that answers 200 with a body that names no message. *)
Definition silent : nat -> requests_post :=
  fun _ _ _ _ _ =>
    Ok {| status_code := 200; content := "{}"; text := "{}";
          json := Ok (PDict []) |}.

(** A provider that answers 200 and names the message. *)
Definition naming : nat -> requests_post :=
  fun _ _ _ _ _ =>
    Ok {| status_code := 200; content := "{...}"; text := "{...}";
          json := Ok (PDict [("messages", PList [PDict [("id", PStr "wamid.1")]])]) |}.

Definition client : WhatsAppCloudClient.t :=
  {| WhatsAppCloudClient.access_token := "token";
     WhatsAppCloudClient.phone_number_id := "1001";
     WhatsAppCloudClient.api_version := "v19.0";
     WhatsAppCloudClient.base_url :=
       "https://graph.facebook.com/v19.0/1001/messages" |}.

(** A malformed entry of a notification. *)
Definition sent_event : pyval :=
  PDict (Sample.status_event Sample.alice_wamid "sent").

(** Two campaigns over [Sample.store], neither dispatched. *)
Definition two_campaigns : DB :=
  http_db (create_campaign_and_queue 11 Sample.created (Sample.request None)).

(** Three campaigns over [Sample.store], created at the same clock reading. *)
Definition same_age : DB :=
  http_db (create_campaign_and_queue 10
             (http_db (create_campaign_and_queue 10 Sample.created
                         (Sample.request None)))
             (Sample.request None)).

End Desk.

(** * Properties *)

Section Properties.

Variable repr : pyval -> string.

(** ** Parsing of webhook payloads *)

(** A truthy value is never compared as [IS NULL]. *)
Lemma column_eq_null (v : pyval) : truthy v = true -> column_eq None v = false.
Proof. now destruct v. Qed.

Lemma dict_get_missing (d : dict) (k : string) :
  assoc k d = None -> dict_get d k = PNone.
Proof. unfold dict_get, dict_get_default. now intros ->. Qed.

Lemma extract_message_status_fields (sd : dict) (info : StatusInfo) :
  extract_message_status sd = Some info ->
  whatsapp_message_id_of info = dict_get sd "id"
  /\ status_of info = dict_get sd "status"
  /\ truthy (dict_get sd "id") = true
  /\ truthy (dict_get sd "status") = true.
Proof.
  unfold extract_message_status. destruct sd as [|kv sd']; [discriminate|].
  set (d := kv :: sd').
  destruct (truthy (dict_get d "id")) eqn:Hi; simpl; [|discriminate].
  destruct (truthy (dict_get d "status")) eqn:Hs; simpl; [|discriminate].
  intros [= <-]. simpl. auto.
Qed.

Lemma extract_message_status_falsy (sd : dict) :
  truthy (dict_get sd "id") = false \/ truthy (dict_get sd "status") = false ->
  extract_message_status sd = None.
Proof.
  unfold extract_message_status. destruct sd as [|kv sd']; [reflexivity|].
  intros [-> | ->]; simpl; [reflexivity|].
  now rewrite orb_true_r.
Qed.

Lemma extract_message_status_total (sd : dict) :
  truthy (dict_get sd "id") = true -> truthy (dict_get sd "status") = true ->
  exists info, extract_message_status sd = Some info
               /\ whatsapp_message_id_of info = dict_get sd "id"
               /\ status_of info = dict_get sd "status"
               /\ error_of info =
                    match dict_get sd "errors" with
                    | PList (e :: _) => e
                    | _ => PNone
                    end.
Proof.
  intros Hi Hs. unfold extract_message_status.
  destruct sd as [|kv sd']; [discriminate Hi|].
  rewrite Hi, Hs. simpl. eexists. split; [reflexivity|]. simpl. auto.
Qed.

(** ** Discarded events *)

Lemma status_update_unknown_id (now : nat) (db : DB) (sd : dict) :
  bind_parameter (dict_get sd "id") = Ok tt ->
  message_by_whatsapp_id db (dict_get sd "id") = None ->
  process_status_update repr now db sd = Returned db.
Proof.
  intros Hbind Hnone. unfold process_status_update.
  destruct (extract_message_status sd) as [info|] eqn:E; [|reflexivity].
  apply extract_message_status_fields in E as (Hid & _ & _ & _).
  rewrite Hid, Hbind, Hnone. now destruct (negb _).
Qed.

Lemma status_update_unmatched (now : nat) (db : DB) (sd : dict) :
  message_by_whatsapp_id db (dict_get sd "id") = None ->
  committed (process_status_update repr now db sd) = db.
Proof.
  intros Hnone. unfold process_status_update.
  destruct (extract_message_status sd) as [info|] eqn:E; [|reflexivity].
  apply extract_message_status_fields in E as (Hid & _ & _ & _).
  rewrite Hid, Hnone. destruct (negb _); [reflexivity|].
  now destruct (bind_parameter _).
Qed.

Lemma status_update_falsy_field (now : nat) (db : DB) (sd : dict) :
  truthy (dict_get sd "id") = false \/ truthy (dict_get sd "status") = false ->
  process_status_update repr now db sd = Returned db.
Proof.
  intros H. unfold process_status_update.
  now rewrite (extract_message_status_falsy sd H).
Qed.

Lemma incoming_unknown_sender (now : nat) (db : DB) (md : dict) :
  bind_parameter (dict_get md "from") = Ok tt ->
  member_by_phone db (dict_get md "from") = None ->
  process_incoming_message repr now db md = Returned db.
Proof.
  intros Hbind Hnone. unfold process_incoming_message.
  rewrite Hbind, Hnone. now destruct (negb _).
Qed.

Lemma incoming_unmatched (now : nat) (db : DB) (md : dict) :
  member_by_phone db (dict_get md "from") = None ->
  committed (process_incoming_message repr now db md) = db.
Proof.
  intros Hnone. unfold process_incoming_message.
  rewrite Hnone. destruct (negb _); [reflexivity|].
  now destruct (bind_parameter _).
Qed.

(** C9, as the code has it.  For an event that is a JSON object: a status
    event whose provider message id the driver can bind (a string, a
    64-bit integer, a boolean) and that matches no message, a status event
    without its [id] or [status] field, and an inbound event whose sender
    the driver can bind and that matches no recipient are each discarded:
    the handler returns normally and the committed state is the state it
    started from.  Whatever the event is, object or not, and whatever its id
    or sender, an event that matches no record leaves the committed state
    as it was, also where the handler raises. *)
Theorem unattributable_events_are_discarded
        (now : nat) (db : DB) (status_data message_data : dict)
        (status_event message_event : pyval) :
  (bind_parameter (dict_get status_data "id") = Ok tt ->
   message_by_whatsapp_id db (dict_get status_data "id") = None ->
   process_status_update repr now db status_data = Returned db)
  /\ (assoc "id" status_data = None \/ assoc "status" status_data = None ->
      process_status_update repr now db status_data = Returned db)
  /\ (bind_parameter (dict_get message_data "from") = Ok tt ->
      member_by_phone db (dict_get message_data "from") = None ->
      process_incoming_message repr now db message_data = Returned db)
  /\ ((forall sd, status_event = PDict sd ->
                  message_by_whatsapp_id db (dict_get sd "id") = None) ->
      committed (process_status_update_any repr now db status_event) = db)
  /\ ((forall md, message_event = PDict md ->
                  member_by_phone db (dict_get md "from") = None) ->
      committed (process_incoming_message_any repr now db message_event) = db).
Proof.
  split; [|split; [|split; [|split]]].
  - apply status_update_unknown_id.
  - intros [H | H]; apply status_update_falsy_field;
      rewrite (dict_get_missing _ _ H); auto.
  - apply incoming_unknown_sender.
  - intros H. destruct status_event; simpl; try reflexivity;
      try (now destruct (truthy _)).
    + now destruct b.
    + now destruct (negb _).
    + now destruct (negb _).
    + now destruct l.
    + apply status_update_unmatched. now apply H.
  - intros H. destruct message_event; simpl; try reflexivity.
    apply incoming_unmatched. now apply H.
Qed.

(** ** Dispatch of an unknown campaign *)

(** C10. For a campaign id that matches no campaign row, the dispatch
    endpoint still answers [dispatch_started] and schedules the task, and
    the task returns normally without committing any change. *)
Theorem dispatch_of_unknown_campaign_is_noop
        (wa : provider) (clock : nat -> nat) (db : DB) (campaign_id : nat)
        (access_token phone_number_id : string) :
  get_campaign db campaign_id = None ->
  let h := dispatch_campaign db campaign_id access_token phone_number_id in
  http_response h = Ok [("status", PStr "dispatch_started");
                        ("campaign_id", PInt (Z.of_nat campaign_id))]
  /\ http_db h = db
  /\ http_background h
     = [send_campaign_messages_task campaign_id access_token phone_number_id]
  /\ (forall t, In t (http_background h) -> run_task repr wa clock db t = Returned db)
  /\ send_campaign_messages repr wa clock db campaign_id access_token phone_number_id
     = Returned db
  /\ send_campaign_messages_commits repr wa clock db campaign_id
       access_token phone_number_id = [].
Proof.
  intros Hnone h. subst h. simpl.
  assert (Hrun : send_campaign_messages repr wa clock db campaign_id
                   access_token phone_number_id = Returned db).
  { unfold send_campaign_messages. now rewrite Hnone. }
  repeat split; auto.
  - intros t [<- | []]. exact Hrun.
  - unfold send_campaign_messages_commits. now rewrite Hnone.
Qed.

(** ** Row updates and lookups *)

Lemma find_map_preserve {A} (p : A -> bool) (g : A -> A) (l : list A) :
  (forall r, p (g r) = p r) ->
  find p (map g l) = option_map g (find p l).
Proof.
  intros Hp. induction l as [|a l IH]; simpl; [reflexivity|].
  rewrite Hp. destruct (p a); [reflexivity|exact IH].
Qed.

Lemma get_campaign_update_campaign (db : DB) (pk pk' : nat)
      (f : Campaign.t -> Campaign.t) :
  (forall c, Campaign.id (f c) = Campaign.id c) ->
  get_campaign (update_campaign pk f db) pk'
  = option_map (fun c => if (Campaign.id c =? pk)%nat then f c else c)
               (get_campaign db pk').
Proof.
  intros Hf. unfold get_campaign, update_campaign, update_where. simpl.
  apply find_map_preserve. intros r.
  destruct (Campaign.id r =? pk)%nat; [now rewrite Hf|reflexivity].
Qed.

Lemma get_campaign_update_message (db : DB) (pk pk' : nat)
      (f : Message.t -> Message.t) :
  get_campaign (update_message pk f db) pk' = get_campaign db pk'.
Proof. reflexivity. Qed.

Lemma message_by_whatsapp_id_update_message (db : DB) (pk : nat) (v : pyval)
      (f : Message.t -> Message.t) :
  (forall m, Message.whatsapp_message_id (f m) = Message.whatsapp_message_id m) ->
  message_by_whatsapp_id (update_message pk f db) v
  = option_map (fun m => if (Message.id m =? pk)%nat then f m else m)
               (message_by_whatsapp_id db v).
Proof.
  intros Hf. unfold message_by_whatsapp_id, update_message, update_where. simpl.
  apply find_map_preserve. intros r.
  destruct (Message.id r =? pk)%nat; [now rewrite Hf|reflexivity].
Qed.

Lemma find_some_id {A} (p : A -> bool) (l : list A) (a : A) :
  find p l = Some a -> p a = true.
Proof. intros H. now apply find_some in H. Qed.

Lemma get_campaign_id (db : DB) (pk : nat) (c : Campaign.t) :
  get_campaign db pk = Some c -> Campaign.id c = pk.
Proof.
  intros H. apply find_some_id in H. now apply Nat.eqb_eq in H.
Qed.

(** ** Status events *)

Lemma status_counter_counted (st : MessageStatus) (c : Campaign.t) :
  Campaign.counters (status_counter st c) = counted st (Campaign.counters c).
Proof. destruct st; reflexivity. Qed.

Lemma status_counter_id (st : MessageStatus) (c : Campaign.t) :
  Campaign.id (status_counter st c) = Campaign.id c.
Proof. destruct st; reflexivity. Qed.

Lemma status_assignment_whatsapp_id st now err m :
  Message.whatsapp_message_id (status_assignment st now err m)
  = Message.whatsapp_message_id m.
Proof. destruct st; reflexivity. Qed.

Lemma status_assignment_campaign_id st now err m :
  Message.campaign_id (status_assignment st now err m) = Message.campaign_id m.
Proof. destruct st; reflexivity. Qed.

Lemma event_status_not_queued (s : string) (st : MessageStatus) :
  event_status s = Some st -> st <> QUEUED.
Proof.
  unfold event_status.
  repeat match goal with
         | |- context [String.eqb s ?x] => destruct (String.eqb s x)
         end; intros [= <-]; discriminate.
Qed.

Lemma event_status_nonempty (s : string) (st : MessageStatus) :
  event_status s = Some st -> s <> "".
Proof. intros H ->. discriminate H. Qed.

Lemma update_where_same {A} (key : A -> nat) (pk : nat) (l : list A) :
  update_where key pk (fun r => r) l = l.
Proof.
  unfold update_where. induction l as [|a l IH]; simpl; [reflexivity|].
  rewrite IH. now destruct (key a =? pk)%nat.
Qed.

Lemma update_campaign_same (pk : nat) (db : DB) :
  update_campaign pk (fun c => c) db = db.
Proof.
  unfold update_campaign. rewrite update_where_same. now destruct db.
Qed.

Lemma truthy_nonempty (s : string) : s <> "" -> truthy (PStr s) = true.
Proof.
  intros H. simpl. destruct (String.eqb_spec s ""); [contradiction|reflexivity].
Qed.

Lemma dict_get_present (d : dict) (k : string) (v : pyval) :
  assoc k d = Some v -> dict_get d k = v.
Proof. unfold dict_get, dict_get_default. now intros ->. Qed.

(** What the handler commits for a recognised status on a matched message
    whose campaign row exists: the assignment and the counter of that
    status, whatever the row's current status. *)
Lemma status_update_recognised
      (now : nat) (db : DB) (sd : dict) (wa_id s : string)
      (st : MessageStatus) (msg : Message.t) (camp : Campaign.t) :
  assoc "id" sd = Some (PStr wa_id) -> wa_id <> "" ->
  assoc "status" sd = Some (PStr s) ->
  event_status s = Some st ->
  message_by_whatsapp_id db (PStr wa_id) = Some msg ->
  get_campaign db (Message.campaign_id msg) = Some camp ->
  process_status_update repr now db sd
  = Returned (update_campaign (Message.campaign_id msg) (status_counter st)
                (update_message (Message.id msg)
                   (status_assignment st now (py_str repr (first_error sd))) db)).
Proof.
  intros Hid Hwa Hs Hst Hmsg Hcamp.
  apply dict_get_present in Hid, Hs.
  destruct (extract_message_status_total sd) as (info & E & Ei & Es & Ee).
  { rewrite Hid. now apply truthy_nonempty. }
  { rewrite Hs. apply truthy_nonempty. eapply event_status_nonempty; eauto. }
  unfold process_status_update. rewrite E, Ei, Es, Ee, Hid, Hs.
  rewrite (truthy_nonempty _ Hwa), Hmsg. simpl negb. simpl bind_parameter.
  cbv iota.
  fold (first_error sd).
  pose proof (get_campaign_id _ _ _ Hcamp) as Hcid.
  unfold event_status in Hst. unfold eq_str, bump.
  destruct (String.eqb s "sent").
  { injection Hst as <-. simpl. now rewrite update_campaign_same. }
  destruct (String.eqb s "delivered").
  { injection Hst as <-. now rewrite Hcamp, Hcid. }
  destruct (String.eqb s "read").
  { injection Hst as <-. now rewrite Hcamp, Hcid. }
  destruct (String.eqb s "failed").
  { injection Hst as <-. now rewrite Hcamp, Hcid. }
  discriminate.
Qed.

(** An unrecognised status commits nothing. *)
Lemma status_update_unrecognised (now : nat) (db : DB) (sd : dict) :
  bind_parameter (dict_get sd "id") = Ok tt ->
  eq_str (dict_get sd "status") "sent" = false ->
  counting_status sd = false ->
  process_status_update repr now db sd = Returned db.
Proof.
  intros Hbind Hsent Hcount. unfold counting_status in Hcount.
  apply orb_false_iff in Hcount as [Hcount Hf].
  apply orb_false_iff in Hcount as [Hd Hr].
  unfold process_status_update.
  destruct (extract_message_status sd) as [info|] eqn:E; [|reflexivity].
  apply extract_message_status_fields in E as (Ei & Es & _ & _).
  rewrite Ei, Es, Hbind, Hsent, Hd, Hr, Hf.
  destruct (negb _); [reflexivity|]. now destruct (message_by_whatsapp_id _ _).
Qed.

Lemma status_update_keeps_campaigns (now : nat) (db : DB) (sd : dict) :
  counting_status sd = false ->
  campaigns (committed (process_status_update repr now db sd)) = campaigns db.
Proof.
  intros Hcount. unfold counting_status in Hcount.
  apply orb_false_iff in Hcount as [Hcount Hf].
  apply orb_false_iff in Hcount as [Hd Hr].
  unfold process_status_update.
  destruct (extract_message_status sd) as [info|] eqn:E; [|reflexivity].
  apply extract_message_status_fields in E as (_ & Es & _ & _).
  rewrite Es, Hd, Hr, Hf.
  destruct (negb _); [reflexivity|].
  destruct (bind_parameter _); [|reflexivity].
  destruct (message_by_whatsapp_id _ _); [|reflexivity].
  destruct (eq_str (dict_get sd "status") "sent"); reflexivity.
Qed.

(** The matched row and its campaign after a recognised status was
    committed. *)
Lemma status_update_effect
      (now : nat) (db : DB) (sd : dict) (wa_id s : string)
      (st : MessageStatus) (msg : Message.t) (camp : Campaign.t) :
  assoc "id" sd = Some (PStr wa_id) -> wa_id <> "" ->
  assoc "status" sd = Some (PStr s) ->
  event_status s = Some st ->
  message_by_whatsapp_id db (PStr wa_id) = Some msg ->
  get_campaign db (Message.campaign_id msg) = Some camp ->
  exists db',
    process_status_update repr now db sd = Returned db'
    /\ message_by_whatsapp_id db' (PStr wa_id)
       = Some (status_assignment st now (py_str repr (first_error sd)) msg)
    /\ get_campaign db' (Message.campaign_id msg) = Some (status_counter st camp).
Proof.
  intros Hid Hwa Hs Hst Hmsg Hcamp.
  eexists. split; [eapply status_update_recognised; eauto|]. split.
  - change (message_by_whatsapp_id (update_campaign ?pk ?f ?d) ?v)
      with (message_by_whatsapp_id d v).
    rewrite message_by_whatsapp_id_update_message
      by (intros; apply status_assignment_whatsapp_id).
    rewrite Hmsg. simpl. now rewrite Nat.eqb_refl.
  - rewrite get_campaign_update_campaign by (intros; apply status_counter_id).
    rewrite get_campaign_update_message, Hcamp. simpl.
    rewrite (get_campaign_id _ _ _ Hcamp). now rewrite Nat.eqb_refl.
Qed.

Lemma status_assignment_status st now err m :
  st <> QUEUED -> Message.status (status_assignment st now err m) = st.
Proof. destruct st; simpl; congruence. Qed.

(** C2, as the code has it.  The webhook status handler keeps no transition
    table: for a matched message (whose campaign row exists) every event
    with a recognised status ([sent], [delivered], [read], [failed]) is
    applied whatever the message's current status.  The row takes the
    event's status, with [sent_at], [delivered_at] or [read_at] set to the
    clock reading or [error_message] to the event's first error, and the
    campaign counter of that status (none for [sent]) grows by one.  An
    event with any other status commits nothing. *)
Theorem status_event_applies_in_every_state
        (now : nat) (db : DB) (sd : dict) (wa_id s : string)
        (msg : Message.t) (camp : Campaign.t) :
  assoc "id" sd = Some (PStr wa_id) -> wa_id <> "" ->
  assoc "status" sd = Some (PStr s) ->
  message_by_whatsapp_id db (PStr wa_id) = Some msg ->
  get_campaign db (Message.campaign_id msg) = Some camp ->
  match event_status s with
  | Some st =>
      exists db' msg' camp',
        process_status_update repr now db sd = Returned db'
        /\ message_by_whatsapp_id db' (PStr wa_id) = Some msg'
        /\ get_campaign db' (Message.campaign_id msg) = Some camp'
        /\ Message.status msg' = st
        /\ msg' = status_assignment st now (py_str repr (first_error sd)) msg
        /\ Campaign.counters camp' = counted st (Campaign.counters camp)
  | None => process_status_update repr now db sd = Returned db
  end.
Proof.
  intros Hid Hwa Hs Hmsg Hcamp.
  destruct (event_status s) as [st|] eqn:Hst.
  - destruct (status_update_effect now db sd wa_id s st msg camp)
      as (db' & Hrun & Hm & Hc); auto.
    exists db', (status_assignment st now (py_str repr (first_error sd)) msg),
      (status_counter st camp).
    repeat split; auto.
    + apply status_assignment_status. eapply event_status_not_queued; eauto.
    + apply status_counter_counted.
  - apply dict_get_present in Hs. unfold event_status in Hst.
    destruct (String.eqb s "sent") eqn:E1; [discriminate|].
    destruct (String.eqb s "delivered") eqn:E2; [discriminate|].
    destruct (String.eqb s "read") eqn:E3; [discriminate|].
    destruct (String.eqb s "failed") eqn:E4; [discriminate|].
    apply status_update_unrecognised; unfold counting_status; rewrite ?Hs; simpl.
    + now rewrite (dict_get_present _ _ _ Hid).
    + exact E1.
    + now rewrite E2, E3, E4.
Qed.

(** C3, as the code has it.  Applying the same status event twice leaves
    every campaign's counters as one application does exactly when the event
    counts nothing (its status is [sent] or unrecognised, and then the
    counters are those before the event).  For a matched message each
    application of [delivered], [read] or [failed] adds one to the counter
    of that status, so the second application counts once more: a
    [delivered] event re-applied to a message already delivered raises
    [delivered_count] again. *)
Theorem status_event_applied_twice
        (now1 now2 : nat) (db : DB) (sd : dict) :
  let once := committed (process_status_update repr now1 db sd) in
  let twice := committed (process_status_update repr now2 once sd) in
  (counting_status sd = false ->
   campaigns twice = campaigns once /\ campaigns once = campaigns db)
  /\ (forall wa_id s st msg camp,
        assoc "id" sd = Some (PStr wa_id) -> wa_id <> "" ->
        assoc "status" sd = Some (PStr s) ->
        event_status s = Some st ->
        message_by_whatsapp_id db (PStr wa_id) = Some msg ->
        get_campaign db (Message.campaign_id msg) = Some camp ->
        exists camp1 camp2,
          get_campaign once (Message.campaign_id msg) = Some camp1
          /\ get_campaign twice (Message.campaign_id msg) = Some camp2
          /\ Campaign.counters camp1 = counted st (Campaign.counters camp)
          /\ Campaign.counters camp2 = counted st (Campaign.counters camp1)).
Proof.
  intros once twice. split.
  - intros Hcount. subst once twice.
    now rewrite !status_update_keeps_campaigns.
  - intros wa_id s st msg camp Hid Hwa Hs Hst Hmsg Hcamp.
    destruct (status_update_effect now1 db sd wa_id s st msg camp)
      as (db1 & Hrun1 & Hm1 & Hc1); auto.
    assert (Hcid : Message.campaign_id
                     (status_assignment st now1 (py_str repr (first_error sd)) msg)
                   = Message.campaign_id msg)
      by apply status_assignment_campaign_id.
    destruct (status_update_effect now2 db1 sd wa_id s st _ (status_counter st camp)
                Hid Hwa Hs Hst Hm1)
      as (db2 & Hrun2 & Hm2 & Hc2).
    { rewrite Hcid. exact Hc1. }
    rewrite Hcid in Hc2.
    subst once twice. rewrite Hrun1. simpl. rewrite Hrun2. simpl.
    exists (status_counter st camp), (status_counter st (status_counter st camp)).
    repeat split; auto; apply status_counter_counted.
Qed.

(** ** Inbound messages *)

Lemma is_stop_command_vocabulary (text : string) :
  is_stop_command text = true <-> In (lower (strip text)) stop_vocabulary.
Proof.
  unfold is_stop_command. destruct (String.eqb_spec text "") as [->|Hne].
  - split; [discriminate|]. simpl.
    intros H. repeat destruct H as [H|H]; try discriminate H. contradiction.
  - rewrite existsb_exists. split.
    + intros (x & Hin & Heq). apply String.eqb_eq in Heq. now subst.
    + intros Hin. exists (lower (strip text)). split; [exact Hin|].
      apply String.eqb_refl.
Qed.

Lemma inbound_text_body (md td : dict) (body : string) :
  assoc "text" md = Some (PDict td) ->
  assoc "body" td = Some (PStr body) ->
  body <> "" ->
  inbound_text md = Ok (PStr body).
Proof.
  intros Ht Hb Hne. unfold inbound_text.
  rewrite (dict_get_present _ _ _ Ht).
  assert (Htd : py_or (PDict td) (PDict []) = PDict td).
  { unfold py_or. destruct td; [discriminate Hb|reflexivity]. }
  rewrite Htd. simpl. unfold dict_get_default. rewrite Hb.
  unfold py_or. now rewrite (truthy_nonempty _ Hne).
Qed.

Lemma inbound_text_absent (md : dict) :
  assoc "text" md = None -> inbound_text md = Ok (PStr "").
Proof.
  intros Ht. unfold inbound_text. now rewrite (dict_get_missing _ _ Ht).
Qed.

Lemma member_by_phone_update_member (db : DB) (pk : nat) (v : pyval)
      (f : Member.t -> Member.t) :
  (forall m, Member.phone_number (f m) = Member.phone_number m) ->
  member_by_phone (update_member pk f db) v
  = option_map (fun m => if (Member.id m =? pk)%nat then f m else m)
               (member_by_phone db v).
Proof.
  intros Hf. unfold member_by_phone, update_member, update_where. simpl.
  apply find_map_preserve. intros r.
  destruct (Member.id r =? pk)%nat; [now rewrite Hf|reflexivity].
Qed.

Lemma set_is_opted_in_same (m : Member.t) :
  Member.is_opted_in m = false -> Member.set_is_opted_in false m = m.
Proof. destruct m; simpl. now intros ->. Qed.

(** C6. An inbound message from a known recipient whose text, stripped
    and lowercased, is in the stop vocabulary makes the handler return
    normally with the recipient's opt-in flag false (the recipient's row is
    left as it was when the flag was false already), exactly one opt-out
    row appended, whatever the flag was, and no response row added;
    campaigns and messages are untouched. *)
Theorem stop_command_opts_out
        (now : nat) (db : DB) (md td : dict) (sender body : string)
        (member : Member.t) :
  assoc "from" md = Some (PStr sender) -> sender <> "" ->
  member_by_phone db (PStr sender) = Some member ->
  assoc "text" md = Some (PDict td) ->
  assoc "body" td = Some (PStr body) ->
  In (lower (strip body)) stop_vocabulary ->
  exists db' optout,
    process_incoming_message repr now db md = Returned db'
    /\ member_by_phone db' (PStr sender)
       = Some (Member.set_is_opted_in false member)
    /\ Member.is_opted_in (Member.set_is_opted_in false member) = false
    /\ (Member.is_opted_in member = false ->
        member_by_phone db' (PStr sender) = Some member)
    /\ members db'
       = update_where Member.id (Member.id member)
           (Member.set_is_opted_in false) (members db)
    /\ optouts db' = (optouts db ++ [optout])%list
    /\ OptOut.member_id optout = Some (Member.id member)
    /\ OptOut.phone_number optout = sender
    /\ OptOut.reason optout = Some "stop"
    /\ responses db' = responses db
    /\ campaigns db' = campaigns db
    /\ messages db' = messages db.
Proof.
  intros Hfrom Hsender Hmember Htext Hbody Hstop.
  assert (Hne : body <> "").
  { intros ->. apply is_stop_command_vocabulary in Hstop. discriminate Hstop. }
  apply is_stop_command_vocabulary in Hstop.
  assert (Hlookup : member_by_phone
                      (with_optouts (optouts db ++ [new_optout db member (PStr sender) now])
                         (update_member (Member.id member)
                            (Member.set_is_opted_in false) db)) (PStr sender)
                    = Some (Member.set_is_opted_in false member)).
  { change (member_by_phone (with_optouts ?l ?d) ?v) with (member_by_phone d v).
    rewrite member_by_phone_update_member by reflexivity.
    rewrite Hmember. simpl. now rewrite Nat.eqb_refl. }
  exists (with_optouts (optouts db ++ [new_optout db member (PStr sender) now])
            (update_member (Member.id member) (Member.set_is_opted_in false) db)),
    (new_optout db member (PStr sender) now).
  split.
  { unfold process_incoming_message.
    rewrite (dict_get_present _ _ _ Hfrom), (truthy_nonempty _ Hsender), Hmember.
    rewrite (inbound_text_body md td body Htext Hbody Hne).
    simpl. now rewrite Hstop. }
  split; [exact Hlookup|].
  split; [reflexivity|].
  split.
  { intros Hflag. rewrite Hlookup. now rewrite set_is_opted_in_same. }
  repeat split; reflexivity.
Qed.




End Properties.

(** ** Campaign creation *)

Lemma next_id_fresh (ids : list nat) (x : nat) : In x ids -> x < next_id ids.
Proof.
  unfold next_id. induction ids as [|a ids IH]; simpl; [contradiction|].
  intros [<-|H]; [lia|]. specialize (IH H). lia.
Qed.

Lemma NoDup_map_eq {A} (f : A -> nat) (l : list A) (a b : A) :
  NoDup (map f l) -> In a l -> In b l -> f a = f b -> a = b.
Proof.
  induction l as [|x l IH]; simpl; [contradiction|].
  intros Hnd Ha Hb Heq. inversion Hnd as [|? ? Hnotin Hnd']; subst.
  destruct Ha as [<-|Ha], Hb as [<-|Hb]; auto.
  - exfalso. apply Hnotin. rewrite Heq. now apply in_map.
  - exfalso. apply Hnotin. rewrite <- Heq. now apply in_map.
Qed.


Lemma fan_out_member_ids pk cid request ms now :
  map Message.member_id (fan_out pk cid request ms now) = map Member.id ms.
Proof. revert pk. induction ms; simpl; intros; [reflexivity|now rewrite IHms]. Qed.

Lemma fan_out_ids pk cid request ms now :
  map Message.id (fan_out pk cid request ms now) = seq pk (List.length ms).
Proof. revert pk. induction ms; simpl; intros; [reflexivity|now rewrite IHms]. Qed.

Lemma fan_out_rows pk cid request ms now msg :
  In msg (fan_out pk cid request ms now) ->
  Message.campaign_id msg = cid /\ Message.status msg = QUEUED
  /\ Message.whatsapp_message_id msg = None
  /\ exists m, In m ms /\ Message.member_id msg = Member.id m.
Proof.
  revert pk. induction ms as [|m ms IH]; simpl; intros pk; [contradiction|].
  intros [<-|H].
  - simpl. repeat split. exists m. auto.
  - destruct (IH _ H) as (Hc & Hs & Hw & m' & Hin & Hm).
    repeat split; auto. exists m'. auto.
Qed.

(** What [create_campaign_and_queue] does: it selects the opted-in rows of
    the members table; with none it raises and commits nothing; otherwise
    it commits one campaign row, queued and targeting as many recipients as
    were selected, and one queued message row per selected recipient. *)
Lemma create_campaign_and_queue_spec
      (now : nat) (db : DB) (request : SendTemplateRequest.t) :
  let selected := filter Member.is_opted_in (members db) in
  let h := create_campaign_and_queue now db request in
  (selected = [] ->
   h = {| http_db := db;
          http_response := Err (HTTPException 400 "No opted-in members");
          http_background := [] |})
  /\ (selected <> [] ->
      exists campaign rows r,
        http_response h = Ok r
        /\ http_db h = with_messages (messages db ++ rows)
                         (with_campaigns (campaigns db ++ [campaign]) db)
        /\ SendTemplateResponse.campaign_id r = Campaign.id campaign
        /\ Campaign.id campaign = next_id (map Campaign.id (campaigns db))
        /\ Campaign.status campaign = "queued"
        /\ Campaign.target_count campaign = Z.of_nat (List.length selected)
        /\ Campaign.counters campaign = (0, 0, 0, 0)%Z
        /\ rows = fan_out (next_id (map Message.id (messages db)))
                          (Campaign.id campaign) request selected now
        /\ map Message.member_id rows = map Member.id selected
        /\ (forall msg, In msg rows ->
                        Message.campaign_id msg = Campaign.id campaign
                        /\ Message.status msg = QUEUED)).
Proof.
  intros selected h. subst h. unfold create_campaign_and_queue.
  fold selected. split.
  - now intros ->.
  - intros Hne. destruct selected as [|m rest] eqn:Hsel; [contradiction|].
    rewrite <- Hsel.
    exists (new_campaign db request selected now),
      (fan_out (next_id (map Message.id (messages db)))
               (Campaign.id (new_campaign db request selected now))
               request selected now).
    assert (Hrows : forall msg,
               In msg (fan_out (next_id (map Message.id (messages db)))
                         (Campaign.id (new_campaign db request selected now))
                         request selected now) ->
               Message.campaign_id msg
               = Campaign.id (new_campaign db request selected now)
               /\ Message.status msg = QUEUED).
    { intros msg H. apply fan_out_rows in H. tauto. }
    destruct (SendTemplateRequest.auto_dispatch request);
      eexists; (split; [reflexivity|]); (split; [reflexivity|]);
      (split; [reflexivity|]); (split; [reflexivity|]); (split; [reflexivity|]);
      (split; [reflexivity|]); (split; [reflexivity|]); (split; [reflexivity|]);
      (split; [apply fan_out_member_ids|exact Hrows]).
Qed.

(** C7. When the members' keys are unique and every message row belongs to
    a campaign row, no message of a campaign that [create_campaign_and_queue]
    has just created references a recipient whose opt-in flag was false at
    the call. *)
Theorem opted_out_recipient_is_not_fanned_out
        (now : nat) (db : DB) (request : SendTemplateRequest.t)
        (r : SendTemplateResponse.t) (m : Member.t) (msg : Message.t) :
  member_keys_unique db ->
  messages_have_campaign db ->
  http_response (create_campaign_and_queue now db request) = Ok r ->
  In m (members db) -> Member.is_opted_in m = false ->
  In msg (messages (http_db (create_campaign_and_queue now db request))) ->
  Message.campaign_id msg = SendTemplateResponse.campaign_id r ->
  Message.member_id msg <> Member.id m.
Proof.
  intros Hkeys Hfk Hr Hm Hflag Hmsg Hcid.
  destruct (create_campaign_and_queue_spec now db request) as [Hempty Hsome].
  destruct (filter Member.is_opted_in (members db)) as [|m0 rest] eqn:Hsel.
  { rewrite Hempty in Hr by reflexivity. discriminate Hr. }
  destruct Hsome as (campaign & rows & r' & Hr' & Hdb & Hrid & Hid & _ & _ & _
                     & Hrows & _ & _); [discriminate|].
  rewrite Hr' in Hr. injection Hr as <-.
  rewrite Hdb in Hmsg. simpl in Hmsg. apply in_app_or in Hmsg as [Hold|Hnew].
  - apply Hfk in Hold. apply next_id_fresh in Hold.
    rewrite Hcid, Hrid, Hid in Hold. lia.
  - rewrite Hrows in Hnew. apply fan_out_rows in Hnew as (_ & _ & _ & m' & Hin & Hpk).
    intros Heq. rewrite <- Hsel in Hin. apply filter_In in Hin as [Hin Hopt].
    assert (m' = m).
    { eapply (NoDup_map_eq Member.id); eauto. congruence. }
    subst m'. congruence.
Qed.

(** C4, at a failing input.  The request asks for the recipients whose
    status is [active]; Bob's status is [expired], so the request's filter
    rejects him, yet the campaign targets two recipients and Bob gets a
    message: the handler never reads the request's filters. *)
Theorem create_campaign_ignores_request_filter :
  let request := Sample.request (Some "active") in
  let h := create_campaign_and_queue 10 Sample.store request in
  spec_filter_predicate request Sample.bob = false
  /\ Member.is_opted_in Sample.bob = true
  /\ map Message.member_id (messages (http_db h))
     = [Member.id Sample.alice; Member.id Sample.bob]
  /\ map Campaign.target_count (campaigns (http_db h)) = [2%Z]
  /\ filter (fun m => spec_filter_predicate request m && Member.is_opted_in m)
            (members Sample.store) = [Sample.alice].
Proof. repeat split. Qed.

(** ** Table updates *)

Section UpdateWhere.

Context {A : Type} (key : A -> nat).

Lemma update_where_keys (pk : nat) (f : A -> A) (l : list A) :
  (forall r, key (f r) = key r) ->
  map key (update_where key pk f l) = map key l.
Proof.
  intros Hf. unfold update_where. rewrite map_map. apply map_ext.
  intros r. destruct (key r =? pk)%nat; [apply Hf|reflexivity].
Qed.

Lemma update_where_other (pk : nat) (f : A -> A) (l : list A) (r : A) :
  In r l -> key r <> pk -> In r (update_where key pk f l).
Proof.
  intros Hin Hne. unfold update_where. apply in_map_iff. exists r.
  split; [|exact Hin]. apply Nat.eqb_neq in Hne. now rewrite Hne.
Qed.

Lemma update_where_hit (pk : nat) (f : A -> A) (l : list A) (r : A) :
  In r l -> key r = pk -> In (f r) (update_where key pk f l).
Proof.
  intros Hin Heq. unfold update_where. apply in_map_iff. exists r.
  split; [|exact Hin]. apply Nat.eqb_eq in Heq. now rewrite Heq.
Qed.

Lemma update_where_inv (pk : nat) (f : A -> A) (l : list A) (r' : A) :
  In r' (update_where key pk f l) ->
  exists r, In r l /\ r' = if (key r =? pk)%nat then f r else r.
Proof.
  unfold update_where. intros H. apply in_map_iff in H as (r & Heq & Hin).
  exists r. auto.
Qed.

Lemma update_where_ext (pk : nat) (f g : A -> A) (l : list A) :
  (forall r, f r = g r) -> update_where key pk f l = update_where key pk g l.
Proof.
  intros H. unfold update_where. apply map_ext. intros r. now rewrite H.
Qed.

Lemma update_where_compose (pk : nat) (f g : A -> A) (l : list A) :
  (forall r, key (g r) = key r) ->
  update_where key pk f (update_where key pk g l)
  = update_where key pk (fun r => f (g r)) l.
Proof.
  intros Hg. unfold update_where. rewrite map_map. apply map_ext. intros r.
  destruct (key r =? pk)%nat eqn:E; [rewrite Hg, E|rewrite E]; reflexivity.
Qed.

(** Rows that an update turns away from a predicate do not come back: the
    count of rows satisfying it cannot grow, and drops when a row that
    satisfied it is hit. *)
Lemma update_where_count_le (p : A -> bool) (pk : nat) (f : A -> A) (l : list A) :
  (forall r, p (f r) = true -> p r = true) ->
  List.length (filter p (update_where key pk f l)) <= List.length (filter p l).
Proof.
  intros Hp. induction l as [|a l IH]; simpl; [lia|].
  destruct (key a =? pk)%nat.
  - destruct (p (f a)) eqn:E.
    + rewrite (Hp _ E). simpl. lia.
    + destruct (p a); simpl; lia.
  - destruct (p a); simpl; lia.
Qed.

Lemma update_where_count_lt (p : A -> bool) (pk : nat) (f : A -> A) (l : list A)
      (r : A) :
  (forall r, p (f r) = false) ->
  In r l -> key r = pk -> p r = true ->
  S (List.length (filter p (update_where key pk f l))) <= List.length (filter p l).
Proof.
  intros Hp Hin Hkey Hr. induction l as [|a l IH]; simpl; [contradiction|].
  assert (Hle : List.length (filter p (update_where key pk f l))
                <= List.length (filter p l)).
  { apply update_where_count_le. intros x Hx. rewrite Hp in Hx. discriminate. }
  destruct Hin as [->|Hin].
  - apply Nat.eqb_eq in Hkey. rewrite Hkey, Hp, Hr. simpl. lia.
  - specialize (IH Hin). destruct (key a =? pk)%nat.
    + rewrite Hp. destruct (p a); simpl; lia.
    + destruct (p a); simpl; lia.
Qed.

Lemma last_cons {B} (a d : B) (l : list B) : last (a :: l) d = last l a.
Proof.
  revert a d. induction l as [|b l IH]; intros a d; [reflexivity|].
  change (last (a :: b :: l) d) with (last (b :: l) d).
  now rewrite (IH b d), (IH b a).
Qed.

Lemma NoDup_map_filter (p : A -> bool) (l : list A) :
  NoDup (map key l) -> NoDup (map key (filter p l)).
Proof.
  induction l as [|a l IH]; simpl; intros Hnd; [constructor|].
  inversion Hnd as [|? ? Hnotin Hnd']; subst.
  destruct (p a); simpl; [|now apply IH].
  constructor; [|now apply IH].
  intros Hin. apply Hnotin. apply in_map_iff in Hin as (x & Hx & Hin).
  apply filter_In in Hin as [Hin _]. apply in_map_iff. eauto.
Qed.

End UpdateWhere.

(** ** The dispatch loop *)

Section Dispatch.

Variable repr : pyval -> string.
Variable wa : provider.
Variable clock : nat -> nat.
Variable campaign_id : nat.
Variable template_name : string.

(** The loop, its turns and its provider calls under the fixed
    parameters of one dispatch. *)
Let turn := send_one repr wa clock campaign_id template_name.
Let loop := send_loop repr wa clock campaign_id template_name.
Let commits := send_loop_commits repr wa clock campaign_id template_name.
Let call := fun db => try_send repr wa db template_name.
Let calls := fun db => outcomes repr wa db template_name.

Lemma record_outcome_id o now m :
  Message.id (record_outcome o now m) = Message.id m.
Proof. now destruct o. Qed.

Lemma record_outcome_campaign_id o now m :
  Message.campaign_id (record_outcome o now m) = Message.campaign_id m.
Proof. now destruct o. Qed.

Lemma record_outcome_not_queued o now m cid :
  is_queued_of cid (record_outcome o now m) = false.
Proof. unfold is_queued_of. destruct o; simpl; apply andb_false_r. Qed.

Lemma count_outcome_id o c : Campaign.id (count_outcome o c) = Campaign.id c.
Proof. now destruct o. Qed.

Lemma try_send_members (db db' : DB) k msg :
  members db' = members db -> call db' k msg = call db k msg.
Proof.
  intros H. unfold call, try_send, get_member. now rewrite H.
Qed.

Lemma outcomes_members (db db' : DB) k msgs :
  members db' = members db -> calls db' k msgs = calls db k msgs.
Proof.
  intros H. revert k. induction msgs as [|m msgs IH]; intros k; simpl;
    [reflexivity|].
  unfold calls in *. simpl. f_equal; [now apply try_send_members|apply IH].
Qed.

Lemma outcomes_length db k msgs : List.length (calls db k msgs) = List.length msgs.
Proof.
  unfold calls. revert k. induction msgs; simpl; intros; [reflexivity|].
  now rewrite IHmsgs.
Qed.

Lemma accepted_rejected (l : list SendOutcome) :
  accepted l + rejected l = List.length l.
Proof.
  unfold accepted, rejected. induction l as [|o l IH]; simpl; [reflexivity|].
  destruct (is_accepted o); simpl; lia.
Qed.

Lemma send_loop_members k msgs db : members (loop k msgs db) = members db.
Proof.
  revert k db. induction msgs as [|m msgs IH]; intros k db; simpl; [reflexivity|].
  unfold loop in *. simpl. now rewrite IH.
Qed.

Lemma send_loop_other_tables k msgs db :
  responses (loop k msgs db) = responses db
  /\ optouts (loop k msgs db) = optouts db.
Proof.
  revert k db. induction msgs as [|m msgs IH]; intros k db; simpl; [auto|].
  unfold loop in *. simpl. now rewrite (proj1 (IH _ _)), (proj2 (IH _ _)).
Qed.

Lemma send_loop_keys k msgs db :
  map Message.id (messages (loop k msgs db)) = map Message.id (messages db).
Proof.
  revert k db. induction msgs as [|m msgs IH]; intros k db; simpl; [reflexivity|].
  unfold loop in *. simpl. rewrite IH. simpl.
  apply update_where_keys. intros r. apply record_outcome_id.
Qed.

Lemma add_counts_zero c : add_counts 0 0 c = c.
Proof.
  destruct c. unfold add_counts, Campaign.write. simpl.
  now rewrite !Z.add_0_r.
Qed.

Lemma add_counts_step o os c :
  add_counts (accepted os) (rejected os) (count_outcome o c)
  = add_counts (accepted (o :: os)) (rejected (o :: os)) c.
Proof.
  destruct c, o; unfold add_counts, accepted, rejected, Campaign.write; simpl;
    f_equal; lia.
Qed.

(** The loop adds to the campaign's row what its provider calls returned. *)
Lemma send_loop_campaigns k msgs db :
  campaigns (loop k msgs db)
  = update_where Campaign.id campaign_id
      (add_counts (accepted (calls db k msgs)) (rejected (calls db k msgs)))
      (campaigns db).
Proof.
  revert k db. induction msgs as [|m msgs IH]; intros k db.
  - simpl. symmetry. erewrite update_where_ext; [apply update_where_same|].
    intros r. apply add_counts_zero.
  - unfold loop in *. simpl. rewrite IH. simpl.
    rewrite update_where_compose by (intros; apply count_outcome_id).
    apply update_where_ext. intros r.
    rewrite (outcomes_members db) by reflexivity.
    apply add_counts_step.
Qed.

(** A row whose key is not in the snapshot is left as it is. *)
Lemma send_loop_untouched k msgs db r :
  In r (messages db) ->
  (forall m, In m msgs -> Message.id m <> Message.id r) ->
  In r (messages (loop k msgs db)).
Proof.
  revert k db. induction msgs as [|m msgs IH]; intros k db Hin Hne; simpl;
    [exact Hin|].
  unfold loop in *. simpl. apply IH.
  - simpl. apply update_where_other; [exact Hin|].
    intros Heq. apply (Hne m); [now left|congruence].
  - intros m' Hm'. apply Hne. now right.
Qed.

(** The [j]-th row of the snapshot ends as the [j]-th provider call left it. *)
Lemma send_loop_recorded k msgs db j m :
  NoDup (map Message.id msgs) ->
  (forall m', In m' msgs -> In m' (messages db)) ->
  nth_error msgs j = Some m ->
  In (record_outcome (call db (k + j) m) (clock (S (k + j))) m)
     (messages (loop k msgs db)).
Proof.
  revert k db j. induction msgs as [|m0 msgs IH]; intros k db j Hnd Hin Hj.
  - destruct j; discriminate Hj.
  - inversion Hnd as [|? ? Hnotin Hnd']; subst.
    unfold loop in *. simpl.
    assert (Hrest : forall m', In m' msgs ->
                               In m' (messages (turn k m0 db))).
    { intros m' Hm'. simpl. apply update_where_other; [apply Hin; now right|].
      intros Heq. apply Hnotin. rewrite <- Heq. now apply in_map. }
    destruct j as [|j]; simpl in Hj.
    + injection Hj as <-. rewrite Nat.add_0_r.
      apply send_loop_untouched.
      * simpl. apply update_where_hit; [apply Hin; now left|reflexivity].
      * intros m' Hm' Heq. rewrite record_outcome_id in Heq.
        apply Hnotin. rewrite <- Heq. now apply in_map.
    + replace (k + S j) with (S k + j) by lia.
      rewrite <- (try_send_members db (turn k m0 db)) by reflexivity.
      apply IH; auto.
Qed.

(** Every row of the snapshot leaves the queued rows of the campaign. *)
Lemma send_loop_queued k msgs db :
  NoDup (map Message.id msgs) ->
  (forall m, In m msgs -> In m (messages db) /\ is_queued_of campaign_id m = true) ->
  queued_of campaign_id (messages (loop k msgs db)) + List.length msgs
  <= queued_of campaign_id (messages db).
Proof.
  revert k db. induction msgs as [|m msgs IH]; intros k db Hnd Hmsgs.
  - unfold loop. simpl. lia.
  - inversion Hnd as [|? ? Hnotin Hnd']; subst.
    destruct (Hmsgs m (or_introl eq_refl)) as [Hin Hq].
    assert (Hstep : S (queued_of campaign_id (messages (turn k m db)))
                    <= queued_of campaign_id (messages db)).
    { simpl. apply (update_where_count_lt Message.id (is_queued_of campaign_id)
                      _ _ _ m); auto.
      intros r. apply record_outcome_not_queued. }
    assert (Hrest : forall m', In m' msgs ->
                               In m' (messages (turn k m db))
                               /\ is_queued_of campaign_id m' = true).
    { intros m' Hm'. destruct (Hmsgs m' (or_intror Hm')) as [Hin' Hq'].
      split; [|exact Hq']. simpl. apply update_where_other; [exact Hin'|].
      intros Heq. apply Hnotin. rewrite <- Heq. now apply in_map. }
    specialize (IH (S k) (turn k m db) Hnd' Hrest).
    unfold loop in *. simpl in *. unfold turn in *. lia.
Qed.

(** The commits of the loop: one per row of the snapshot, the [j]-th being
    the state after the first [j + 1] rows were processed. *)
Lemma send_loop_commits_length k msgs db :
  List.length (commits k msgs db) = List.length msgs.
Proof.
  revert k db. induction msgs as [|m msgs IH]; intros k db; simpl; [reflexivity|].
  unfold commits in *. simpl. now rewrite IH.
Qed.

Lemma send_loop_commits_nth k msgs db j :
  j < List.length msgs ->
  nth_error (commits k msgs db) j
  = Some (loop k (firstn (S j) msgs) db).
Proof.
  revert k db j. induction msgs as [|m msgs IH]; intros k db j Hj; simpl in Hj;
    [lia|].
  unfold commits, loop in *. destruct j as [|j].
  - reflexivity.
  - simpl. rewrite IH by lia. reflexivity.
Qed.

Lemma send_loop_commits_last k msgs db :
  last (commits k msgs db) db = loop k msgs db.
Proof.
  revert k db. induction msgs as [|m msgs IH]; intros k db; [reflexivity|].
  unfold commits, loop in *.
  cbn [send_loop_commits send_loop].
  rewrite last_cons. apply IH.
Qed.

End Dispatch.

(** ** The dispatch handler *)

Lemma prefix_keys_differ {A} (key : A -> nat) (l : list A) (n j : nat) (m m' : A) :
  NoDup (map key l) -> nth_error l j = Some m -> n <= j ->
  In m' (firstn n l) -> key m' <> key m.
Proof.
  revert n j. induction l as [|a l IH]; intros n j Hnd Hj Hle Hin.
  - destruct n; contradiction.
  - inversion Hnd as [|? ? Hnotin Hnd']; subst.
    destruct n as [|n]; [contradiction|].
    destruct j as [|j]; [lia|]. simpl in Hj, Hin.
    destruct Hin as [<-|Hin].
    + intros Heq. apply Hnotin. rewrite Heq. apply in_map.
      eapply nth_error_In; eauto.
    + apply (IH n j); auto. lia.
Qed.

Lemma NoDup_map_firstn {A} (key : A -> nat) (l : list A) (n : nat) :
  NoDup (map key l) -> NoDup (map key (firstn n l)).
Proof.
  intros Hnd. rewrite <- (firstn_skipn n l), map_app in Hnd.
  now apply NoDup_app_remove_r in Hnd.
Qed.

Lemma In_firstn {A} (l : list A) (n : nat) (x : A) : In x (firstn n l) -> In x l.
Proof.
  intros H. rewrite <- (firstn_skipn n l). apply in_or_app. now left.
Qed.

Lemma get_campaign_updated (db db' : DB) (pk : nat) (f : Campaign.t -> Campaign.t)
      (c : Campaign.t) :
  campaigns db' = update_where Campaign.id pk f (campaigns db) ->
  (forall c, Campaign.id (f c) = Campaign.id c) ->
  get_campaign db pk = Some c ->
  get_campaign db' pk = Some (f c).
Proof.
  intros Hc Hf Hget. unfold get_campaign in *. rewrite Hc. unfold update_where.
  rewrite find_map_preserve.
  - rewrite Hget. simpl. apply find_some_id in Hget. now rewrite Hget.
  - intros r. destruct (Campaign.id r =? pk)%nat eqn:E; [|exact E].
    now rewrite Hf.
Qed.

Lemma get_whatsapp_client_ok (access_token phone_number_id : string) :
  access_token <> "" -> phone_number_id <> "" ->
  get_whatsapp_client access_token phone_number_id = Ok tt.
Proof.
  intros Ha Hp. unfold get_whatsapp_client.
  destruct (String.eqb_spec access_token ""); [contradiction|].
  destruct (String.eqb_spec phone_number_id ""); [contradiction|reflexivity].
Qed.

Lemma get_whatsapp_client_empty (access_token phone_number_id : string) :
  access_token = "" \/ phone_number_id = "" ->
  exists e, get_whatsapp_client access_token phone_number_id = Err e.
Proof.
  unfold get_whatsapp_client. intros [-> | ->].
  - eexists. reflexivity.
  - destruct (String.eqb access_token ""); eexists; reflexivity.
Qed.

(** The row a provider call leaves: sent with the provider's id, or failed
    with the error detail. *)
Lemma record_outcome_row (o : SendOutcome) (now : nat) (m : Message.t) :
  match o with
  | Accepted wa_id =>
      Message.status (record_outcome o now m) = SENT
      /\ Message.whatsapp_message_id (record_outcome o now m) = wa_id
      /\ Message.sent_at (record_outcome o now m) = Some now
  | Rejected err =>
      Message.status (record_outcome o now m) = FAILED
      /\ Message.error_message (record_outcome o now m) = Some err
  end.
Proof. destruct o; simpl; auto. Qed.

Section DispatchHandler.

Variable repr : pyval -> string.

(** C5, as the code has it.  For an existing campaign, called with a
    non-empty access token and phone number id (and with unique message
    keys), [send_campaign_messages] first commits the campaign as
    [sending]; then it takes the messages of the campaign that are queued
    at that point and, for each in turn, calls the provider and commits the
    outcome on its own: on success the message is [SENT] with the provider's
    message id and [sent_count] is one more, on failure or exception it is
    [FAILED] with the error detail and [failed_count] is one more, the
    messages after it in the snapshot still being as they were; messages
    that were not queued are never touched, and none of the campaign's
    messages is left queued, so that a second dispatch finds nothing to
    send; the last commit sets the campaign's status to [sent], and the
    handler returns normally. *)
Theorem dispatch_processes_queued_snapshot
        (wa : provider) (clock : nat -> nat) (db : DB) (campaign_id : nat)
        (access_token phone_number_id : string) (camp : Campaign.t) :
  message_keys_unique db ->
  get_campaign db campaign_id = Some camp ->
  access_token <> "" -> phone_number_id <> "" ->
  let snapshot := filter (is_queued_of campaign_id) (messages db) in
  let call := try_send repr wa db (Campaign.template_name camp) in
  let results := outcomes repr wa db (Campaign.template_name camp) 0 snapshot in
  exists db1 steps db_end camp_end,
    send_campaign_messages_commits repr wa clock db campaign_id
      access_token phone_number_id = db1 :: (steps ++ [db_end])%list
    /\ send_campaign_messages repr wa clock db campaign_id
         access_token phone_number_id = Returned db_end
    /\ get_campaign db1 campaign_id
       = Some (Campaign.set_sent_at (clock 0) (Campaign.set_status "sending" camp))
    /\ messages db1 = messages db
    /\ List.length steps = List.length snapshot
    /\ (forall k dbk,
          nth_error steps k = Some dbk ->
          (forall j m, j <= k -> nth_error snapshot j = Some m ->
                       In (record_outcome (call j m) (clock (S j)) m) (messages dbk))
          /\ (forall j m, k < j -> nth_error snapshot j = Some m ->
                          In m (messages dbk))
          /\ exists ck,
               get_campaign dbk campaign_id = Some ck
               /\ (Campaign.sent_count ck + Campaign.failed_count ck
                   = Campaign.sent_count camp + Campaign.failed_count camp
                     + Z.of_nat (S k))%Z)
    /\ (forall k m,
          nth_error snapshot k = Some m ->
          exists row,
            In row (messages db_end)
            /\ Message.id row = Message.id m
            /\ match call k m with
               | Accepted wa_id =>
                   Message.status row = SENT
                   /\ Message.whatsapp_message_id row = wa_id
               | Rejected err =>
                   Message.status row = FAILED
                   /\ Message.error_message row = Some err
               end)
    /\ (forall m, In m (messages db) -> is_queued_of campaign_id m = false ->
                  In m (messages db_end))
    /\ map Message.id (messages db_end) = map Message.id (messages db)
    /\ queued_of campaign_id (messages db_end) = 0
    /\ get_campaign db_end campaign_id = Some camp_end
    /\ Campaign.status camp_end = "sent"
    /\ Campaign.sent_count camp_end
       = (Campaign.sent_count camp + Z.of_nat (accepted results))%Z
    /\ Campaign.failed_count camp_end
       = (Campaign.failed_count camp + Z.of_nat (rejected results))%Z
    /\ accepted results + rejected results = List.length snapshot
    /\ Campaign.delivered_count camp_end = Campaign.delivered_count camp
    /\ Campaign.read_count camp_end = Campaign.read_count camp
    /\ Campaign.target_count camp_end = Campaign.target_count camp.
Proof.
  intros Hkeys Hcamp Htok Hpn snapshot call results.
  set (sending := fun c => Campaign.set_sent_at (clock 0)
                             (Campaign.set_status "sending" c)).
  set (db1 := update_campaign campaign_id sending db).
  set (template := Campaign.template_name camp).
  set (loop := send_loop repr wa clock campaign_id template).
  assert (Hcamp1 : get_campaign db1 campaign_id = Some (sending camp)).
  { apply (get_campaign_updated db db1 campaign_id sending camp); auto. }
  assert (Hsnap_nd : NoDup (map Message.id snapshot)).
  { apply NoDup_map_filter. exact Hkeys. }
  assert (Hsnap_in : forall m, In m snapshot -> In m (messages db1)).
  { intros m Hm. apply filter_In in Hm. tauto. }
  assert (Hcall : forall d k m, members d = members db ->
                                try_send repr wa d template k m = call k m).
  { intros d k m Hd. now apply try_send_members. }
  assert (Hcounts : forall n d,
             campaigns d = update_where Campaign.id campaign_id
                             (add_counts (accepted (outcomes repr wa db1 template 0
                                                      (firstn n snapshot)))
                                         (rejected (outcomes repr wa db1 template 0
                                                      (firstn n snapshot))))
                             (campaigns db1) ->
             exists c, get_campaign d campaign_id = Some c
                       /\ (Campaign.sent_count c + Campaign.failed_count c
                           = Campaign.sent_count camp + Campaign.failed_count camp
                             + Z.of_nat (List.length (firstn n snapshot)))%Z).
  { intros n d Hd. eexists. split.
    - eapply get_campaign_updated; [exact Hd|reflexivity|exact Hcamp1].
    - simpl.
      pose proof (accepted_rejected
                    (outcomes repr wa db1 template 0 (firstn n snapshot))) as Har.
      rewrite outcomes_length in Har. lia. }
  exists db1, (send_loop_commits repr wa clock campaign_id template 0 snapshot db1),
    (update_campaign campaign_id (Campaign.set_status "sent") (loop 0 snapshot db1)),
    (Campaign.set_status "sent"
       (add_counts (accepted results) (rejected results) (sending camp))).
  split.
  { unfold send_campaign_messages_commits.
    rewrite Hcamp, (get_whatsapp_client_ok _ _ Htok Hpn).
    now rewrite send_loop_commits_last. }
  split.
  { unfold send_campaign_messages.
    now rewrite Hcamp, (get_whatsapp_client_ok _ _ Htok Hpn). }
  split; [exact Hcamp1|]. split; [reflexivity|].
  split; [apply send_loop_commits_length|].
  split.
  { intros k dbk Hk.
    assert (Hlt : k < List.length snapshot).
    { rewrite <- (send_loop_commits_length repr wa clock campaign_id template 0
                    snapshot db1).
      apply nth_error_Some. now rewrite Hk. }
    rewrite send_loop_commits_nth in Hk by exact Hlt. injection Hk as <-.
    split; [|split].
    - intros j m Hj Hm.
      rewrite <- (Hcall db1 j m eq_refl).
      apply (send_loop_recorded repr wa clock campaign_id template 0
               (firstn (S k) snapshot) db1 j m).
      + now apply NoDup_map_firstn.
      + intros m' Hm'. apply Hsnap_in. eapply In_firstn; eauto.
      + rewrite nth_error_firstn.
        destruct (Nat.ltb_spec j (S k)); [exact Hm|lia].
    - intros j m Hj Hm. apply send_loop_untouched.
      + apply Hsnap_in. eapply nth_error_In; eauto.
      + intros m' Hm'. eapply prefix_keys_differ; eauto.
    - destruct (Hcounts (S k) (send_loop repr wa clock campaign_id template 0
                                 (firstn (S k) snapshot) db1))
        as (c & Hc & Hsum); [apply send_loop_campaigns|].
      exists c. split; [exact Hc|].
      rewrite Hsum, firstn_length_le by lia. reflexivity. }
  split.
  { intros k m Hm. exists (record_outcome (call k m) (clock (S k)) m).
    split; [|split].
    - rewrite <- (Hcall db1 k m eq_refl).
      change (messages (update_campaign ?pk ?f ?d)) with (messages d).
      now apply (send_loop_recorded repr wa clock campaign_id template 0
                   snapshot db1 k m).
    - apply record_outcome_id.
    - destruct (call k m); simpl; auto. }
  split.
  { intros m Hin Hq.
    change (messages (update_campaign ?pk ?f ?d)) with (messages d).
    apply send_loop_untouched; [exact Hin|].
    intros m' Hm' Heq. apply filter_In in Hm' as [Hin' Hq'].
    assert (m' = m)
      by exact (NoDup_map_eq Message.id (messages db) m' m Hkeys Hin' Hin Heq).
    subst m'. congruence. }
  split.
  { change (messages (update_campaign ?pk ?f ?d)) with (messages d).
    unfold loop. now rewrite send_loop_keys. }
  split.
  { change (messages (update_campaign ?pk ?f ?d)) with (messages d).
    pose proof (send_loop_queued repr wa clock campaign_id template 0 snapshot
                  db1 Hsnap_nd) as Hq.
    assert (Hall : forall m, In m snapshot ->
                             In m (messages db1)
                             /\ is_queued_of campaign_id m = true).
    { intros m Hm. apply filter_In in Hm. exact Hm. }
    specialize (Hq Hall). unfold loop.
    change (queued_of campaign_id (messages db1)) with (List.length snapshot) in Hq.
    lia. }
  assert (Hresults : outcomes repr wa db1 template 0 snapshot = results).
  { now apply outcomes_members. }
  split.
  { apply (get_campaign_updated (loop 0 snapshot db1)); [reflexivity|reflexivity|].
    eapply get_campaign_updated; [|reflexivity|exact Hcamp1].
    unfold loop. rewrite send_loop_campaigns. now rewrite Hresults. }
  split; [reflexivity|]. split; [reflexivity|]. split; [reflexivity|].
  split.
  { unfold results. rewrite accepted_rejected. apply outcomes_length. }
  repeat split.
Qed.

(** Without credentials the client constructor raises once the campaign
    is committed as [sending]: that commit is the only one. *)
Lemma dispatch_without_credentials
      (wa : provider) (clock : nat -> nat) (db : DB) (campaign_id : nat)
      (access_token phone_number_id : string) (camp : Campaign.t) :
  get_campaign db campaign_id = Some camp ->
  access_token = "" \/ phone_number_id = "" ->
  let db1 :=
    update_campaign campaign_id
      (fun c => Campaign.set_sent_at (clock 0) (Campaign.set_status "sending" c))
      db in
  exists e,
    send_campaign_messages repr wa clock db campaign_id
      access_token phone_number_id = Raised e db1
    /\ send_campaign_messages_commits repr wa clock db campaign_id
         access_token phone_number_id = [db1]
    /\ messages db1 = messages db.
Proof.
  intros Hcamp Hempty db1.
  destruct (get_whatsapp_client_empty _ _ Hempty) as [e He].
  exists e. unfold send_campaign_messages, send_campaign_messages_commits.
  rewrite Hcamp, He. auto.
Qed.

End DispatchHandler.

(** ** The accounting invariant *)

















Section Accounting.

Variable repr : pyval -> string.








Lemma incoming_keeps_ledger (now : nat) (db : DB) (md : dict) :
  campaigns (committed (process_incoming_message repr now db md)) = campaigns db
  /\ messages (committed (process_incoming_message repr now db md)) = messages db.
Proof.
  unfold process_incoming_message.
  destruct (negb _); [auto|].
  destruct (bind_parameter _); [|auto].
  destruct (member_by_phone _ _) as [member|]; [|auto].
  destruct (bind _ _) as [[|]|]; [auto| |auto].
  destruct (extract_button_payload repr md) as [[payload|]|]; [|auto|auto].
  destruct (last_message_of _ _); auto.
Qed.




End Accounting.

(** * Concrete runs *)

(** Facts about the sample data are settled by evaluation. *)
Ltac evaluate := vm_compute; reflexivity.

(** ** Counters against their bounds *)




(** ** Status events *)

(** C2 fails on the code: a [delivered] event for a message that is already
    [READ] takes it back to [DELIVERED] and is counted, and a [read] event
    for a message that was never delivered makes it [READ] and is counted. *)
Lemma status_event_is_applied_in_terminal_and_early_states :
  let late := Sample.status_event Sample.alice_wamid "delivered" in
  let early := Sample.status_event Sample.bob_wamid "read" in
  let db := Sample.read_by_alice in
  let db_late := committed (process_status_update Sample.repr 32 db late) in
  let db_early := committed (process_status_update Sample.repr 32 db early) in
  map Message.status (messages db) = [READ; SENT]
  /\ map Campaign.counters (campaigns db) = [(2, 1, 1, 0)%Z]
  /\ map Message.status (messages db_late) = [DELIVERED; SENT]
  /\ map Message.delivered_at (messages db_late) = [Some 32; None]
  /\ map Campaign.counters (campaigns db_late) = [(2, 2, 1, 0)%Z]
  /\ map Message.status (messages db_early) = [READ; READ]
  /\ map Campaign.counters (campaigns db_early) = [(2, 1, 2, 0)%Z].
Proof. vm_compute. repeat split. Qed.

Lemma status_event_applies_in_every_state_witness :
  Message.status Sample.alice_read = READ
  /\ exists db' msg' camp',
       process_status_update Sample.repr 32 Sample.read_by_alice
         (Sample.status_event Sample.alice_wamid "delivered") = Returned db'
       /\ message_by_whatsapp_id db' (PStr Sample.alice_wamid) = Some msg'
       /\ get_campaign db' 1 = Some camp'
       /\ Message.status msg' = DELIVERED
       /\ Campaign.counters camp'
          = counted DELIVERED (Campaign.counters Sample.campaign_read).
Proof.
  assert (Hmsg : message_by_whatsapp_id Sample.read_by_alice
                   (PStr Sample.alice_wamid) = Some Sample.alice_read)
    by evaluate.
  assert (Hcamp : get_campaign Sample.read_by_alice
                    (Message.campaign_id Sample.alice_read)
                  = Some Sample.campaign_read)
    by evaluate.
  assert (Hwa : Sample.alice_wamid <> "") by discriminate.
  split; [reflexivity|].
  destruct (status_event_applies_in_every_state Sample.repr 32
              Sample.read_by_alice
              (Sample.status_event Sample.alice_wamid "delivered")
              Sample.alice_wamid "delivered" Sample.alice_read
              Sample.campaign_read eq_refl Hwa eq_refl Hmsg Hcamp)
    as (db' & msg' & camp' & Hrun & Hm & Hc & Hst & _ & Hcount).
  exists db', msg', camp'. repeat split; assumption.
Defined.

(** C3 fails on the code: the same [delivered] event applied twice leaves
    other counters than applied once. *)
Lemma duplicate_delivered_event_is_counted_twice :
  let event := Sample.status_event Sample.alice_wamid "delivered" in
  let once := committed (process_status_update Sample.repr 30 Sample.dispatched event) in
  let twice := committed (process_status_update Sample.repr 31 once event) in
  map Message.status (messages once) = [DELIVERED; SENT]
  /\ map Campaign.counters (campaigns once) = [(2, 1, 0, 0)%Z]
  /\ map Campaign.counters (campaigns twice) = [(2, 2, 0, 0)%Z]
  /\ map Campaign.counters (campaigns twice) <> map Campaign.counters (campaigns once).
Proof. vm_compute. repeat split. discriminate. Qed.

Lemma status_event_applied_twice_witness :
  (let event := Sample.status_event Sample.alice_wamid "sent" in
   let once := committed (process_status_update Sample.repr 30 Sample.dispatched event) in
   let twice := committed (process_status_update Sample.repr 31 once event) in
   counting_status event = false /\ campaigns twice = campaigns once)
  /\ (let event := Sample.status_event Sample.alice_wamid "delivered" in
      let once := committed (process_status_update Sample.repr 30 Sample.dispatched event) in
      let twice := committed (process_status_update Sample.repr 31 once event) in
      exists camp1 camp2,
        get_campaign once (Message.campaign_id Sample.alice_sent) = Some camp1
        /\ get_campaign twice (Message.campaign_id Sample.alice_sent) = Some camp2
        /\ Campaign.counters camp1
           = counted DELIVERED (Campaign.counters Sample.campaign_dispatched)
        /\ Campaign.counters camp2 = counted DELIVERED (Campaign.counters camp1)).
Proof.
  assert (Hquiet : counting_status (Sample.status_event Sample.alice_wamid "sent")
                   = false) by evaluate.
  assert (Hmsg : message_by_whatsapp_id Sample.dispatched (PStr Sample.alice_wamid)
                 = Some Sample.alice_sent) by evaluate.
  assert (Hcamp : get_campaign Sample.dispatched
                    (Message.campaign_id Sample.alice_sent)
                  = Some Sample.campaign_dispatched) by evaluate.
  assert (Hwa : Sample.alice_wamid <> "") by discriminate.
  split.
  - split; [exact Hquiet|].
    exact (proj1 (proj1 (status_event_applied_twice Sample.repr 30 31
                           Sample.dispatched
                           (Sample.status_event Sample.alice_wamid "sent"))
                    Hquiet)).
  - exact (proj2 (status_event_applied_twice Sample.repr 30 31
                    Sample.dispatched
                    (Sample.status_event Sample.alice_wamid "delivered"))
             Sample.alice_wamid "delivered" DELIVERED Sample.alice_sent
             Sample.campaign_dispatched eq_refl Hwa eq_refl eq_refl Hmsg Hcamp).
Defined.

(** ** Dispatch *)

(** C5 fails on the code when the access token is empty: the campaign is
    committed as [sending], then the client constructor raises; no provider
    call is made, the queued messages stay queued and the campaign never
    becomes [sent]. *)
Lemma dispatch_with_empty_token_stops_after_sending :
  exists db1,
    get_campaign Sample.created 1 <> None
    /\ send_campaign_messages Sample.repr Sample.accepting Sample.clock
         Sample.created 1 "" "1001"
       = Raised (ValueError "access_token is required") db1
    /\ map Campaign.status (campaigns db1) = ["sending"]
    /\ map Campaign.counters (campaigns db1) = [(0, 0, 0, 0)%Z]
    /\ map Message.status (messages Sample.created) = [QUEUED; QUEUED]
    /\ map Message.status (messages db1) = [QUEUED; QUEUED].
Proof.
  exists (update_campaign 1
            (fun c => Campaign.set_sent_at 20 (Campaign.set_status "sending" c))
            Sample.created).
  vm_compute. repeat split. discriminate.
Qed.

Lemma dispatch_processes_queued_snapshot_witness :
  message_keys_unique Sample.created
  /\ get_campaign Sample.created 1 = Some Sample.campaign_created
  /\ exists db_end camp_end,
       send_campaign_messages Sample.repr Sample.flaky Sample.clock
         Sample.created 1 "token" "1001" = Returned db_end
       /\ get_campaign db_end 1 = Some camp_end
       /\ Campaign.status camp_end = "sent"
       /\ map Message.id (messages db_end) = map Message.id (messages Sample.created).
Proof.
  assert (Hkeys : message_keys_unique Sample.created).
  { unfold message_keys_unique. vm_compute.
    repeat constructor; simpl; intuition discriminate. }
  assert (Hcamp : get_campaign Sample.created 1 = Some Sample.campaign_created)
    by evaluate.
  assert (Htok : "token" <> "") by discriminate.
  assert (Hpn : "1001" <> "") by discriminate.
  split; [exact Hkeys|]. split; [exact Hcamp|].
  destruct (dispatch_processes_queued_snapshot Sample.repr Sample.flaky
              Sample.clock Sample.created 1 "token" "1001"
              Sample.campaign_created Hkeys Hcamp Htok Hpn)
    as (db1 & steps & db_end & camp_end & _ & Hrun & _ & _ & _ & _ & _ & _
        & Hids & _ & Hget & Hstatus & _).
  exists db_end, camp_end. repeat split; assumption.
Defined.

(** ** Inbound messages *)

Lemma stop_command_opts_out_witness :
  In (lower (strip " STOP ")) stop_vocabulary
  /\ exists db',
       process_incoming_message Sample.repr 40 Sample.dispatched
         (Sample.text_message "+15550001" " STOP ") = Returned db'
       /\ member_by_phone db' (PStr "+15550001")
          = Some (Member.set_is_opted_in false Sample.alice)
       /\ (exists optout,
             optouts db' = (optouts Sample.dispatched ++ [optout])%list)
       /\ responses db' = responses Sample.dispatched.
Proof.
  assert (Hmember : member_by_phone Sample.dispatched (PStr "+15550001")
                    = Some Sample.alice) by evaluate.
  assert (Hstop : In (lower (strip " STOP ")) stop_vocabulary)
    by (vm_compute; auto).
  assert (Hsender : "+15550001" <> "") by discriminate.
  split; [exact Hstop|].
  destruct (stop_command_opts_out Sample.repr 40 Sample.dispatched
              (Sample.text_message "+15550001" " STOP ")
              [("body", PStr " STOP ")] "+15550001" " STOP " Sample.alice
              eq_refl Hsender Hmember eq_refl eq_refl Hstop)
    as (db' & optout & Hrun & Hflag & _ & _ & _ & Hopt & _ & _ & _ & Hresp & _).
  exists db'. split; [exact Hrun|]. split; [exact Hflag|].
  split; [exists optout; exact Hopt|exact Hresp].
Defined.


(** ** Campaign creation *)

Lemma opted_out_recipient_is_not_fanned_out_witness :
  member_keys_unique Sample.store
  /\ messages_have_campaign Sample.store
  /\ Member.is_opted_in Sample.carol = false
  /\ In Sample.alice_message
        (messages (http_db (create_campaign_and_queue 10 Sample.store
                              (Sample.request None))))
  /\ Message.member_id Sample.alice_message <> Member.id Sample.carol.
Proof.
  assert (Hkeys : member_keys_unique Sample.store).
  { unfold member_keys_unique. vm_compute.
    repeat constructor; simpl; intuition discriminate. }
  assert (Hfk : messages_have_campaign Sample.store).
  { intros msg []. }
  assert (Hresponse : http_response (create_campaign_and_queue 10 Sample.store
                                       (Sample.request None))
                      = Ok Sample.response_created) by evaluate.
  assert (Hcarol : In Sample.carol (members Sample.store))
    by (vm_compute; auto).
  assert (Hin : In Sample.alice_message
                   (messages (http_db (create_campaign_and_queue 10 Sample.store
                                         (Sample.request None)))))
    by (vm_compute; auto).
  repeat split; auto.
  exact (opted_out_recipient_is_not_fanned_out 10 Sample.store
           (Sample.request None) Sample.response_created
           Sample.carol Sample.alice_message Hkeys Hfk Hresponse Hcarol
           eq_refl Hin eq_refl).
Defined.

(** ** Discarded events and unknown campaigns *)

(** C9 fails on the code.  A status event whose [id] is a JSON array
    matches no message, yet the handler raises where it looks the message
    up; so does the inbound handler for a sender that is a JSON object; and
    a status event that is a bare string, with neither [id] nor [status],
    raises for want of [get].  None of them changes the state. *)
Lemma unattributable_events_can_raise :
  let by_array := [("id", PList [PStr "wamid.unknown"]); ("status", PStr "delivered")] in
  let from_object := [("from", PDict [("wa_id", PStr "+19990000")])] in
  message_by_whatsapp_id Sample.dispatched (dict_get by_array "id") = None
  /\ process_status_update Sample.repr 30 Sample.dispatched by_array
     = Raised (ProgrammingError
                 "Error binding parameter 1: type 'list' is not supported")
              Sample.dispatched
  /\ member_by_phone Sample.dispatched (dict_get from_object "from") = None
  /\ process_incoming_message Sample.repr 30 Sample.dispatched from_object
     = Raised (ProgrammingError
                 "Error binding parameter 1: type 'dict' is not supported")
              Sample.dispatched
  /\ process_status_update_any Sample.repr 30 Sample.dispatched (PStr "delivered")
     = Raised (AttributeError "'str' object has no attribute 'get'")
              Sample.dispatched.
Proof. vm_compute. repeat split. Qed.

Lemma unattributable_events_are_discarded_witness :
  process_status_update Sample.repr 30 Sample.dispatched
    (Sample.status_event "wamid.unknown" "delivered") = Returned Sample.dispatched
  /\ process_status_update Sample.repr 30 Sample.dispatched
       [("id", PInt 42); ("status", PStr "delivered")] = Returned Sample.dispatched
  /\ process_status_update Sample.repr 30 Sample.dispatched
       [("id", PStr Sample.alice_wamid)] = Returned Sample.dispatched
  /\ process_incoming_message Sample.repr 30 Sample.dispatched
       (Sample.text_message "+19990000" "stop") = Returned Sample.dispatched
  /\ committed (process_status_update_any Sample.repr 30 Sample.dispatched
                  (PList [PStr "delivered"])) = Sample.dispatched
  /\ committed (process_incoming_message_any Sample.repr 30 Sample.dispatched
                  (PDict [("from", PList [PStr "+15550001"])])) = Sample.dispatched.
Proof.
  assert (Hid : message_by_whatsapp_id Sample.dispatched
                  (dict_get (Sample.status_event "wamid.unknown" "delivered") "id")
                = None) by evaluate.
  assert (Hnum : message_by_whatsapp_id Sample.dispatched
                   (dict_get [("id", PInt 42); ("status", PStr "delivered")] "id")
                 = None) by evaluate.
  assert (Hfrom : member_by_phone Sample.dispatched
                    (dict_get (Sample.text_message "+19990000" "stop") "from")
                  = None) by evaluate.
  assert (Hlist : forall md,
             PDict [("from", PList [PStr "+15550001"])] = PDict md ->
             member_by_phone Sample.dispatched (dict_get md "from") = None).
  { intros md [= <-]. evaluate. }
  assert (Hany : forall sd,
             PList [PStr "delivered"] = PDict sd ->
             message_by_whatsapp_id Sample.dispatched (dict_get sd "id") = None)
    by discriminate.
  split; [|split; [|split; [|split; [|split]]]].
  - exact (proj1 (unattributable_events_are_discarded Sample.repr 30
                    Sample.dispatched
                    (Sample.status_event "wamid.unknown" "delivered") []
                    PNone PNone)
             eq_refl Hid).
  - exact (proj1 (unattributable_events_are_discarded Sample.repr 30
                    Sample.dispatched
                    [("id", PInt 42); ("status", PStr "delivered")] []
                    PNone PNone)
             eq_refl Hnum).
  - exact (proj1 (proj2 (unattributable_events_are_discarded Sample.repr 30
                           Sample.dispatched [("id", PStr Sample.alice_wamid)] []
                           PNone PNone))
             (or_intror eq_refl)).
  - exact (proj1 (proj2 (proj2 (unattributable_events_are_discarded Sample.repr 30
                                  Sample.dispatched []
                                  (Sample.text_message "+19990000" "stop")
                                  PNone PNone)))
             eq_refl Hfrom).
  - exact (proj1 (proj2 (proj2 (proj2
             (unattributable_events_are_discarded Sample.repr 30
                Sample.dispatched [] [] (PList [PStr "delivered"]) PNone))))
             Hany).
  - exact (proj2 (proj2 (proj2 (proj2
             (unattributable_events_are_discarded Sample.repr 30
                Sample.dispatched [] [] PNone
                (PDict [("from", PList [PStr "+15550001"])])))))
             Hlist).
Defined.

Lemma dispatch_of_unknown_campaign_is_noop_witness :
  get_campaign Sample.created 7 = None
  /\ http_response (dispatch_campaign Sample.created 7 "token" "1001")
     = Ok [("status", PStr "dispatch_started");
           ("campaign_id", PInt (Z.of_nat 7))]
  /\ send_campaign_messages Sample.repr Sample.accepting Sample.clock
       Sample.created 7 "token" "1001" = Returned Sample.created.
Proof.
  assert (Hnone : get_campaign Sample.created 7 = None) by evaluate.
  split; [exact Hnone|].
  destruct (dispatch_of_unknown_campaign_is_noop Sample.repr Sample.accepting
              Sample.clock Sample.created 7 "token" "1001" Hnone)
    as (Hresp & _ & _ & _ & Hrun & _).
  split; [exact Hresp|exact Hrun].
Defined.

(** * Further properties of the engine *)

(** ** Rows along a history *)

Lemma Forall2_same {A} (R : A -> A -> Prop) (l : list A) :
  (forall a, R a a) -> Forall2 R l l.
Proof. intros H. induction l; constructor; auto. Qed.

Lemma Forall2_compose {A} (R : A -> A -> Prop) (l1 l2 l3 : list A) :
  (forall a b c, R a b -> R b c -> R a c) ->
  Forall2 R l1 l2 -> Forall2 R l2 l3 -> Forall2 R l1 l3.
Proof.
  intros Ht H12. revert l3. induction H12; intros l3 H23; inversion H23; subst;
    constructor; eauto.
Qed.

Lemma Forall2_update_where {A} (R : A -> A -> Prop) (key : A -> nat) (pk : nat)
      (f : A -> A) (l : list A) :
  (forall a, R a a) -> (forall a, R a (f a)) ->
  Forall2 R l (update_where key pk f l).
Proof.
  intros Hr Hf. induction l as [|a l IH]; simpl; constructor; [|exact IH].
  destruct (key a =? pk)%nat; auto.
Qed.

Lemma campaign_grows_refl (c : Campaign.t) : campaign_grows c c.
Proof. unfold campaign_grows. repeat split; lia. Qed.

Lemma campaign_grows_trans (a b c : Campaign.t) :
  campaign_grows a b -> campaign_grows b c -> campaign_grows a c.
Proof. unfold campaign_grows. intuition (try congruence; try lia). Qed.

Lemma campaigns_grow_refl (l : list Campaign.t) : campaigns_grow l l.
Proof.
  exists l, []. split; [now rewrite app_nil_r|].
  apply Forall2_same, campaign_grows_refl.
Qed.

Lemma campaigns_grow_trans (l1 l2 l3 : list Campaign.t) :
  campaigns_grow l1 l2 -> campaigns_grow l2 l3 -> campaigns_grow l1 l3.
Proof.
  intros (k1 & c1 & -> & H1) (k2 & c2 & -> & H2).
  apply Forall2_app_inv_l in H2 as (k2a & k2b & Ha & Hb & ->).
  exists k2a, (k2b ++ c2)%list. split; [now rewrite app_assoc|].
  eapply Forall2_compose; eauto using campaign_grows_trans.
Qed.

Lemma campaigns_grow_update (pk : nat) (f : Campaign.t -> Campaign.t)
      (l : list Campaign.t) :
  (forall c, campaign_grows c (f c)) ->
  campaigns_grow l (update_where Campaign.id pk f l).
Proof.
  intros Hf. exists (update_where Campaign.id pk f l), [].
  split; [now rewrite app_nil_r|].
  apply Forall2_update_where; [apply campaign_grows_refl|exact Hf].
Qed.

Lemma add_counts_grows (a r : nat) (c : Campaign.t) :
  campaign_grows c (add_counts a r c).
Proof. unfold campaign_grows. simpl. repeat split; lia. Qed.

Section Growth.

Variable repr : pyval -> string.

Lemma create_campaign_grows (now : nat) (db : DB) (request : SendTemplateRequest.t) :
  campaigns_grow (campaigns db)
    (campaigns (http_db (create_campaign_and_queue now db request))).
Proof.
  destruct (create_campaign_and_queue_spec now db request) as [Hempty Hsome].
  destruct (filter Member.is_opted_in (members db)) as [|m0 rest] eqn:Hsel.
  - rewrite Hempty by reflexivity. apply campaigns_grow_refl.
  - destruct Hsome as (campaign & rows & r & _ & Hdb & _); [discriminate|].
    rewrite Hdb. simpl. exists (campaigns db), [campaign].
    split; [reflexivity|]. apply Forall2_same, campaign_grows_refl.
Qed.

Lemma dispatch_grows (wa : provider) (clock : nat -> nat) (db : DB) (cid : nat)
      (access_token phone_number_id : string) :
  campaigns_grow (campaigns db)
    (campaigns (committed (send_campaign_messages repr wa clock db cid
                             access_token phone_number_id))).
Proof.
  unfold send_campaign_messages.
  destruct (get_campaign db cid) as [camp|]; [|apply campaigns_grow_refl].
  set (db1 := update_campaign cid _ db).
  assert (H1 : campaigns_grow (campaigns db) (campaigns db1)).
  { apply campaigns_grow_update. intros c. unfold campaign_grows. simpl.
    repeat split; lia. }
  destruct (get_whatsapp_client access_token phone_number_id); [|exact H1].
  set (msgs := filter (is_queued_of cid) (messages db1)).
  set (db2 := send_loop repr wa clock cid (Campaign.template_name camp) 0 msgs db1).
  apply campaigns_grow_trans with (campaigns db1); [exact H1|].
  apply campaigns_grow_trans with (campaigns db2).
  - unfold db2. rewrite send_loop_campaigns. apply campaigns_grow_update.
    intros c. apply add_counts_grows.
  - apply campaigns_grow_update. intros c. unfold campaign_grows. simpl.
    repeat split; lia.
Qed.

Lemma status_update_grows (now : nat) (db : DB) (sd : dict) :
  campaigns_grow (campaigns db)
    (campaigns (committed (process_status_update repr now db sd))).
Proof.
  unfold process_status_update.
  destruct (extract_message_status sd) as [info|]; [|apply campaigns_grow_refl].
  destruct (negb _); [apply campaigns_grow_refl|].
  destruct (bind_parameter _); [|apply campaigns_grow_refl].
  destruct (message_by_whatsapp_id _ _) as [msg|]; [|apply campaigns_grow_refl].
  assert (Hbump : forall f counter count,
             (forall c, campaign_grows c (count c)) ->
             campaigns_grow (campaigns db)
               (campaigns (committed (bump db msg f counter count)))).
  { intros f counter count Hcount. unfold bump.
    destruct (get_campaign db (Message.campaign_id msg));
      [|apply campaigns_grow_refl].
    simpl. now apply campaigns_grow_update. }
  destruct (eq_str _ "sent"); [apply campaigns_grow_refl|].
  destruct (eq_str _ "delivered").
  { apply Hbump. intros c. unfold campaign_grows. simpl. repeat split; lia. }
  destruct (eq_str _ "read").
  { apply Hbump. intros c. unfold campaign_grows. simpl. repeat split; lia. }
  destruct (eq_str _ "failed").
  { apply Hbump. intros c. unfold campaign_grows. simpl. repeat split; lia. }
  apply campaigns_grow_refl.
Qed.

Lemma exec_grows (o : op) (db : DB) :
  campaigns_grow (campaigns db) (campaigns (exec repr o db)).
Proof.
  destruct o; simpl.
  - apply create_campaign_grows.
  - apply dispatch_grows.
  - apply status_update_grows.
  - rewrite (proj1 (incoming_keeps_ledger repr now db message_data)).
    apply campaigns_grow_refl.
  - apply campaigns_grow_refl.
Qed.

(** X1.  Over any history, from any state, campaigns are never deleted or
    reordered, a campaign keeps its key, name, template and target count,
    and none of its four counters ever decreases. *)
Theorem counters_never_decrease (ops : list op) (db : DB) :
  campaigns_grow (campaigns db) (campaigns (run repr ops db)).
Proof.
  revert db. induction ops as [|o ops IH]; intros db; simpl.
  - apply campaigns_grow_refl.
  - eapply campaigns_grow_trans; [apply exec_grows|apply IH].
Qed.

End Growth.

(** ** Recipients along a history of the engine *)

Lemma member_kept_refl (m : Member.t) : member_kept m m.
Proof. now left. Qed.

Lemma member_kept_trans (a b c : Member.t) :
  member_kept a b -> member_kept b c -> member_kept a c.
Proof.
  unfold member_kept. intros [->| ->] [->| ->]; auto.
Qed.

Section Recipients.

Variable repr : pyval -> string.

Lemma dispatch_keeps_members (wa : provider) (clock : nat -> nat) (db : DB)
      (cid : nat) (access_token phone_number_id : string) :
  members (committed (send_campaign_messages repr wa clock db cid
                        access_token phone_number_id)) = members db.
Proof.
  unfold send_campaign_messages.
  destruct (get_campaign db cid); [|reflexivity].
  destruct (get_whatsapp_client access_token phone_number_id); [|reflexivity].
  simpl. now rewrite send_loop_members.
Qed.

Lemma status_update_keeps_members (now : nat) (db : DB) (sd : dict) :
  members (committed (process_status_update repr now db sd)) = members db.
Proof.
  unfold process_status_update, bump.
  destruct (extract_message_status sd); [|reflexivity].
  destruct (negb _); [reflexivity|].
  destruct (bind_parameter _); [|reflexivity].
  destruct (message_by_whatsapp_id _ _) as [msg|]; [|reflexivity].
  destruct (get_campaign db (Message.campaign_id msg));
    repeat (destruct (eq_str _ _); [reflexivity|]); reflexivity.
Qed.

Lemma create_campaign_keeps_members (now : nat) (db : DB)
      (request : SendTemplateRequest.t) :
  members (http_db (create_campaign_and_queue now db request)) = members db.
Proof.
  unfold create_campaign_and_queue.
  destruct (filter Member.is_opted_in (members db)); [reflexivity|].
  destruct (SendTemplateRequest.auto_dispatch request); reflexivity.
Qed.

Lemma incoming_keeps_or_opts_out (now : nat) (db : DB) (md : dict) :
  Forall2 member_kept (members db)
    (members (committed (process_incoming_message repr now db md))).
Proof.
  assert (Hsame : Forall2 member_kept (members db) (members db))
    by apply Forall2_same, member_kept_refl.
  unfold process_incoming_message.
  destruct (negb _); [exact Hsame|].
  destruct (bind_parameter _); [|exact Hsame].
  destruct (member_by_phone _ _) as [member|]; [|exact Hsame].
  destruct (bind _ _) as [[|]|]; [| |exact Hsame].
  - simpl. apply Forall2_update_where; [apply member_kept_refl|].
    intros m. now right.
  - destruct (extract_button_payload repr md) as [[payload|]|]; try exact Hsame.
    destruct (last_message_of _ _); exact Hsame.
Qed.

Lemma exec_keeps_members (o : op) (db : DB) :
  engine_op o = true ->
  Forall2 member_kept (members db) (members (exec repr o db)).
Proof.
  intros Ho. destruct o; simpl; try discriminate Ho.
  - rewrite create_campaign_keeps_members. apply Forall2_same, member_kept_refl.
  - rewrite dispatch_keeps_members. apply Forall2_same, member_kept_refl.
  - rewrite status_update_keeps_members. apply Forall2_same, member_kept_refl.
  - apply incoming_keeps_or_opts_out.
Qed.

(** X2.  Over any history of campaign creations, dispatches, status events
    and inbound messages, from any state, the engine neither adds nor
    removes a recipient, never changes a recipient's key, phone number,
    name, email, status, city, plan or expiry date, and changes the opt-in
    flag only by setting it to false: a recipient who has opted out stays
    opted out until the recipient store edits the row.  (The timestamp
    [updated_at], which the ORM rewrites along with the flag, is not a
    column of [Member.t].) *)
Theorem engine_only_opts_out (ops : list op) (db : DB) :
  Forall (fun o => engine_op o = true) ops ->
  Forall2 member_kept (members db) (members (run repr ops db)).
Proof.
  revert db. induction ops as [|o ops IH]; intros db Hops; simpl.
  - apply Forall2_same, member_kept_refl.
  - inversion Hops; subst.
    eapply Forall2_compose; [apply member_kept_trans| |apply IH; assumption].
    now apply exec_keeps_members.
Qed.

End Recipients.

(** ** The ledger along a history *)

Section Ledger.

Variable repr : pyval -> string.

Lemma ledger_shape_empty : ledger_shape empty_db.
Proof. split; [constructor|intros m []]. Qed.

Lemma ledger_shape_ext (db db' : DB) :
  messages db' = messages db -> ledger_shape db -> ledger_shape db'.
Proof.
  unfold ledger_shape, message_keys_unique, queued_without_provider_id.
  now intros ->.
Qed.

(** Rows rewritten into a status other than queued keep the shape. *)
Lemma ledger_shape_update_message (pk : nat) (f : Message.t -> Message.t) (db : DB) :
  (forall m, Message.id (f m) = Message.id m /\ Message.status (f m) <> QUEUED) ->
  ledger_shape db -> ledger_shape (update_message pk f db).
Proof.
  intros Hf [Hkeys Hq]. split.
  - unfold message_keys_unique. simpl.
    rewrite update_where_keys by (intros; apply Hf). exact Hkeys.
  - intros m' Hm' Hst. simpl in Hm'.
    apply update_where_inv in Hm' as (m & Hm & ->).
    destruct (Message.id m =? pk)%nat; [|now apply Hq].
    now apply Hf in Hst.
Qed.

Lemma ledger_shape_create (now : nat) (db : DB) (request : SendTemplateRequest.t) :
  ledger_shape db ->
  ledger_shape (http_db (create_campaign_and_queue now db request)).
Proof.
  intros [Hkeys Hq].
  destruct (create_campaign_and_queue_spec now db request) as [Hempty Hsome].
  destruct (filter Member.is_opted_in (members db)) as [|m0 rest] eqn:Hsel.
  { rewrite Hempty by reflexivity. now split. }
  destruct Hsome as (campaign & rows & r & _ & Hdb & _ & _ & _ & _ & _ & Hrows & _);
    [discriminate|].
  rewrite Hdb. split.
  - unfold message_keys_unique. simpl. rewrite map_app. apply NoDup_app.
    + exact Hkeys.
    + rewrite Hrows, fan_out_ids. apply seq_NoDup.
    + intros a Ha Hb. rewrite Hrows, fan_out_ids in Hb.
      apply in_seq in Hb. apply next_id_fresh in Ha. lia.
  - intros m Hm Hst. simpl in Hm. apply in_app_or in Hm as [Hm|Hm].
    + now apply Hq.
    + rewrite Hrows in Hm. now apply fan_out_rows in Hm.
Qed.

Lemma ledger_shape_send_loop (wa : provider) (clock : nat -> nat) (cid : nat)
      (template : string) (k : nat) (msgs : list Message.t) (db : DB) :
  ledger_shape db ->
  ledger_shape (send_loop repr wa clock cid template k msgs db).
Proof.
  revert k db. induction msgs as [|m msgs IH]; intros k db Hshape; [exact Hshape|].
  simpl. apply IH. unfold send_one.
  apply (ledger_shape_ext (update_message (Message.id m)
                             (record_outcome (try_send repr wa db template k m)
                                (clock (S k))) db)); [reflexivity|].
  apply ledger_shape_update_message; [|exact Hshape].
  intros r. split; [apply record_outcome_id|].
  destruct (try_send repr wa db template k m); discriminate.
Qed.

Lemma ledger_shape_dispatch (wa : provider) (clock : nat -> nat) (db : DB)
      (cid : nat) (access_token phone_number_id : string) :
  ledger_shape db ->
  ledger_shape (committed (send_campaign_messages repr wa clock db cid
                             access_token phone_number_id)).
Proof.
  intros Hshape. unfold send_campaign_messages.
  destruct (get_campaign db cid) as [camp|]; [|exact Hshape].
  destruct (get_whatsapp_client access_token phone_number_id).
  - simpl. eapply ledger_shape_ext; [reflexivity|].
    apply ledger_shape_send_loop. eapply ledger_shape_ext; [|exact Hshape].
    reflexivity.
  - eapply ledger_shape_ext; [|exact Hshape]. reflexivity.
Qed.

Lemma ledger_shape_status_update (now : nat) (db : DB) (sd : dict) :
  ledger_shape db ->
  ledger_shape (committed (process_status_update repr now db sd)).
Proof.
  intros Hshape. unfold process_status_update.
  destruct (extract_message_status sd) as [info|]; [|exact Hshape].
  destruct (negb _); [exact Hshape|].
  destruct (bind_parameter _); [|exact Hshape].
  destruct (message_by_whatsapp_id _ _) as [msg|]; [|exact Hshape].
  assert (Hbump : forall f counter count,
             (forall m, Message.id (f m) = Message.id m
                        /\ Message.status (f m) <> QUEUED) ->
             ledger_shape (committed (bump db msg f counter count))).
  { intros f counter count Hf. unfold bump.
    destruct (get_campaign db (Message.campaign_id msg)); [|exact Hshape].
    simpl. eapply ledger_shape_ext; [reflexivity|].
    now apply ledger_shape_update_message. }
  destruct (eq_str _ "sent").
  { simpl. apply ledger_shape_update_message; [|exact Hshape].
    intros m. split; [reflexivity|discriminate]. }
  destruct (eq_str _ "delivered");
    [apply Hbump; intros m; split; [reflexivity|discriminate]|].
  destruct (eq_str _ "read");
    [apply Hbump; intros m; split; [reflexivity|discriminate]|].
  destruct (eq_str _ "failed");
    [apply Hbump; intros m; split; [reflexivity|discriminate]|].
  exact Hshape.
Qed.

Lemma ledger_shape_exec (o : op) (db : DB) :
  ledger_shape db -> ledger_shape (exec repr o db).
Proof.
  intros Hshape. destruct o; simpl.
  - now apply ledger_shape_create.
  - now apply ledger_shape_dispatch.
  - now apply ledger_shape_status_update.
  - eapply ledger_shape_ext; [|exact Hshape].
    apply (proj2 (incoming_keeps_ledger repr now db message_data)).
  - eapply ledger_shape_ext; [|exact Hshape]. reflexivity.
Qed.

Lemma ledger_shape_run (ops : list op) (db : DB) :
  ledger_shape db -> ledger_shape (run repr ops db).
Proof.
  revert db. induction ops as [|o ops IH]; intros db Hshape; [exact Hshape|].
  simpl. apply IH. now apply ledger_shape_exec.
Qed.

(** With unique keys and no provider id on queued rows, a status event
    leaves every queued message as it is. *)
Lemma status_update_skips_queued (now : nat) (db : DB) (sd : dict) (m : Message.t) :
  ledger_shape db ->
  In m (messages db) -> Message.status m = QUEUED ->
  In m (messages (committed (process_status_update repr now db sd))).
Proof.
  intros [Hkeys Hq] Hin Hst. unfold process_status_update.
  destruct (extract_message_status sd) as [info|]; [|exact Hin].
  destruct (negb _) eqn:Htruthy; [exact Hin|]. apply negb_false_iff in Htruthy.
  destruct (bind_parameter _); [|exact Hin].
  destruct (message_by_whatsapp_id _ _) as [msg|] eqn:Hmsg; [|exact Hin].
  assert (Hne : Message.id m <> Message.id msg).
  { intros Heq. unfold message_by_whatsapp_id in Hmsg.
    apply find_some in Hmsg as [Hmsg Hcol].
    assert (m = msg) by exact (NoDup_map_eq Message.id _ m msg Hkeys Hin Hmsg Heq).
    subst msg. rewrite (Hq m Hin Hst) in Hcol.
    rewrite (column_eq_null _ Htruthy) in Hcol. discriminate Hcol. }
  assert (Hupd : forall f, In m (messages (update_message (Message.id msg) f db))).
  { intros f. simpl. now apply update_where_other. }
  assert (Hbump : forall f counter count,
             In m (messages (committed (bump db msg f counter count)))).
  { intros f counter count. unfold bump.
    destruct (get_campaign db (Message.campaign_id msg)); [|exact Hin].
    apply Hupd. }
  destruct (eq_str _ "sent"); [apply Hupd|].
  destruct (eq_str _ "delivered"); [apply Hbump|].
  destruct (eq_str _ "read"); [apply Hbump|].
  destruct (eq_str _ "failed"); [apply Hbump|].
  exact Hin.
Qed.

(** X3.  In every state reached from the empty database by any history, message
    keys are unique and a queued message carries no provider id; so no
    status event, whatever id and status it names, changes a message that
    is still queued: only the dispatcher moves a message out of [QUEUED]. *)
Theorem status_events_never_touch_queued_messages
        (ops : list op) (now : nat) (sd : dict) (m : Message.t) :
  let db := run repr ops empty_db in
  In m (messages db) -> Message.status m = QUEUED ->
  Message.whatsapp_message_id m = None
  /\ In m (messages (committed (process_status_update repr now db sd))).
Proof.
  intros db Hin Hst.
  assert (Hshape : ledger_shape db)
    by (apply ledger_shape_run, ledger_shape_empty).
  split; [now apply Hshape|now apply status_update_skips_queued].
Qed.

End Ledger.

(** ** Dispatching again *)

Lemma map_update_where {A B} (key : A -> nat) (g : A -> B) (pk : nat)
      (f : A -> A) (l : list A) :
  (forall r, g (f r) = g r) -> map g (update_where key pk f l) = map g l.
Proof.
  intros Hf. unfold update_where. rewrite map_map. apply map_ext.
  intros r. destruct (key r =? pk)%nat; [apply Hf|reflexivity].
Qed.

Section Redispatch.

Variable repr : pyval -> string.

(** A dispatch that finds no queued message of the campaign calls no
    provider and changes neither a message nor a counter. *)
Lemma dispatch_of_drained_campaign
      (wa : provider) (clock : nat -> nat) (db : DB) (cid : nat)
      (access_token phone_number_id : string) :
  filter (is_queued_of cid) (messages db) = [] ->
  let db' := committed (send_campaign_messages repr wa clock db cid
                          access_token phone_number_id) in
  messages db' = messages db
  /\ map Campaign.counters (campaigns db') = map Campaign.counters (campaigns db).
Proof.
  intros Hnone db'. subst db'. unfold send_campaign_messages.
  destruct (get_campaign db cid) as [camp|]; [|auto].
  destruct (get_whatsapp_client access_token phone_number_id).
  - change (messages (update_campaign cid
                        (fun c => Campaign.set_sent_at (clock 0)
                                    (Campaign.set_status "sending" c)) db))
      with (messages db).
    rewrite Hnone. simpl. split; [reflexivity|].
    now rewrite !map_update_where by reflexivity.
  - simpl. split; [reflexivity|]. now rewrite map_update_where by reflexivity.
Qed.

(** X4.  After a dispatch that ran to its end no message of the campaign is
    queued, so dispatching the campaign again, with whatever provider and
    credentials, sends nothing: the messages and the counters of all
    campaigns stay as the first dispatch left them. *)
Theorem second_dispatch_sends_nothing
        (wa wa' : provider) (clock clock' : nat -> nat) (db : DB) (cid : nat)
        (access_token phone_number_id access_token' phone_number_id' : string)
        (camp : Campaign.t) :
  message_keys_unique db ->
  get_campaign db cid = Some camp ->
  access_token <> "" -> phone_number_id <> "" ->
  let db1 := committed (send_campaign_messages repr wa clock db cid
                          access_token phone_number_id) in
  let db2 := committed (send_campaign_messages repr wa' clock' db1 cid
                          access_token' phone_number_id') in
  filter (is_queued_of cid) (messages db1) = []
  /\ messages db2 = messages db1
  /\ map Campaign.counters (campaigns db2) = map Campaign.counters (campaigns db1).
Proof.
  intros Hkeys Hcamp Htok Hpn db1 db2.
  assert (Hdrained : filter (is_queued_of cid) (messages db1) = []).
  { subst db1. unfold send_campaign_messages.
    rewrite Hcamp, (get_whatsapp_client_ok _ _ Htok Hpn). simpl.
    set (d := update_campaign cid _ db).
    set (snapshot := filter (is_queued_of cid) (messages d)).
    pose proof (send_loop_queued repr wa clock cid (Campaign.template_name camp)
                  0 snapshot d) as Hq.
    assert (Hnd : NoDup (map Message.id snapshot))
      by (apply NoDup_map_filter; exact Hkeys).
    assert (Hall : forall m, In m snapshot ->
                             In m (messages d) /\ is_queued_of cid m = true).
    { intros m Hm. now apply filter_In in Hm. }
    specialize (Hq Hnd Hall).
    change (queued_of cid (messages d)) with (List.length snapshot) in Hq.
    unfold queued_of in Hq.
    destruct (filter (is_queued_of cid) (messages (send_loop _ _ _ _ _ _ _ _)));
      [reflexivity|simpl in Hq; lia]. }
  split; [exact Hdrained|].
  now apply dispatch_of_drained_campaign.
Qed.

End Redispatch.

(** ** Inbound messages that are neither a stop command nor a reply *)

Section InboundEdges.

Variable repr : pyval -> string.

(** X5.  An inbound message whose sender the driver can bind (a string, a
    64-bit integer, a boolean, or no sender at all), whose text is not a
    stop command and which carries neither an [interactive] nor a [button]
    object is discarded, whether the sender is a known recipient or not: the
    handler returns and commits nothing. *)
Theorem plain_text_is_discarded
        (now : nat) (db : DB) (md : dict) (body : string) :
  bind_parameter (dict_get md "from") = Ok tt ->
  inbound_text md = Ok (PStr body) ->
  is_stop_command body = false ->
  assoc "interactive" md = None -> assoc "button" md = None ->
  process_incoming_message repr now db md = Returned db.
Proof.
  intros Hbind Htext Hstop Hi Hb. unfold process_incoming_message.
  rewrite Hbind.
  destruct (negb _); [reflexivity|].
  destruct (member_by_phone _ _); [|reflexivity].
  rewrite Htext. simpl. rewrite Hstop.
  unfold extract_button_payload, legacy_button.
  rewrite (dict_get_missing _ _ Hi), (dict_get_missing _ _ Hb).
  now destruct md.
Qed.

(** X6.  An inbound message from a known recipient whose [text] is present but
    not an object (a bare string, say) makes the handler raise
    [AttributeError] before anything is committed, even when the message
    carries a button reply. *)
Theorem text_that_is_not_an_object_raises
        (now : nat) (db : DB) (md : dict) (sender : string) (member : Member.t)
        (text : pyval) :
  assoc "from" md = Some (PStr sender) -> sender <> "" ->
  member_by_phone db (PStr sender) = Some member ->
  assoc "text" md = Some text -> truthy text = true ->
  (forall d, text <> PDict d) ->
  process_incoming_message repr now db md
  = Raised (no_attribute text "get") db.
Proof.
  intros Hfrom Hsender Hmember Htext Htruthy Hshape.
  unfold process_incoming_message.
  rewrite (dict_get_present _ _ _ Hfrom), (truthy_nonempty _ Hsender), Hmember.
  unfold inbound_text. rewrite (dict_get_present _ _ _ Htext).
  unfold py_or. rewrite Htruthy.
  destruct text; try reflexivity. now elim (Hshape d).
Qed.

End InboundEdges.

(** ** Trimming and lowercasing *)

Lemma lstrip_idempotent (s : string) : lstrip (lstrip s) = lstrip s.
Proof.
  induction s as [|c s IH]; simpl; [reflexivity|].
  destruct (is_space c) eqn:E; [exact IH|]. simpl. now rewrite E.
Qed.

Lemma rstrip_idempotent (s : string) : rstrip (rstrip s) = rstrip s.
Proof.
  induction s as [|c s IH]; simpl; [reflexivity|].
  destruct (rstrip s) as [|b r] eqn:E.
  - destruct (is_space c) eqn:Ec; [reflexivity|]. simpl. now rewrite Ec.
  - change (rstrip (String c (String b r)))
      with (match rstrip (String b r) with
            | EmptyString => if is_space c then EmptyString else String c EmptyString
            | String x y => String c (String x y)
            end).
    now rewrite IH.
Qed.

(** Trimming the right end leaves a left end that is already trim. *)
Lemma lstrip_rstrip (s : string) : lstrip s = s -> lstrip (rstrip s) = rstrip s.
Proof.
  destruct s as [|c s]; [reflexivity|]. simpl.
  destruct (is_space c) eqn:Ec.
  - intros H. exfalso.
    assert (Hlen : String.length (lstrip s) <= String.length s).
    { clear. induction s as [|a s IH]; simpl; [lia|].
      destruct (is_space a); simpl; lia. }
    rewrite H in Hlen. simpl in Hlen. lia.
  - intros _. destruct (rstrip s); simpl; now rewrite Ec.
Qed.

Lemma strip_idempotent (s : string) : strip (strip s) = strip s.
Proof.
  unfold strip.
  rewrite (lstrip_rstrip (lstrip s)) by apply lstrip_idempotent.
  apply rstrip_idempotent.
Qed.

Lemma rstrip_no_trailing_space (s pre : string) (c : ascii) :
  is_space c = true -> rstrip s <> pre ++ String c "".
Proof.
  intros Hc. revert pre. induction s as [|a s IH]; intros pre; simpl.
  - destruct pre; discriminate.
  - destruct (rstrip s) as [|b r] eqn:E.
    + destruct (is_space a) eqn:Ea.
      * destruct pre; discriminate.
      * destruct pre as [|x pre]; simpl.
        -- intros [= ->]. congruence.
        -- intros [= _ H]. destruct pre; discriminate.
    + destruct pre as [|x pre]; simpl.
      * discriminate.
      * intros [= _ H]. now apply (IH pre).
Qed.

Lemma strip_no_trailing_space (s pre : string) (c : ascii) :
  is_space c = true -> strip s <> pre ++ String c "".
Proof. intros Hc. unfold strip. now apply rstrip_no_trailing_space. Qed.

Lemma is_space_lower_char (c : ascii) : is_space (lower_char c) = is_space c.
Proof. destruct c as [[] [] [] [] [] [] [] []]; reflexivity. Qed.

Lemma lower_char_idempotent (c : ascii) : lower_char (lower_char c) = lower_char c.
Proof. destruct c as [[] [] [] [] [] [] [] []]; reflexivity. Qed.

Lemma lower_idempotent (s : string) : lower (lower s) = lower s.
Proof.
  induction s as [|c s IH]; simpl; [reflexivity|].
  now rewrite lower_char_idempotent, IH.
Qed.

Lemma lstrip_lower (s : string) : lstrip (lower s) = lower (lstrip s).
Proof.
  induction s as [|c s IH]; simpl; [reflexivity|].
  rewrite is_space_lower_char. now destruct (is_space c).
Qed.

Lemma rstrip_lower (s : string) : rstrip (lower s) = lower (rstrip s).
Proof.
  induction s as [|c s IH]; simpl; [reflexivity|].
  rewrite IH, is_space_lower_char.
  destruct (rstrip s); simpl; [now destruct (is_space c)|reflexivity].
Qed.

Lemma strip_lower (s : string) : strip (lower s) = lower (strip s).
Proof. unfold strip. now rewrite lstrip_lower, rstrip_lower. Qed.

(** X7.  [is_stop_command] looks through case and surrounding whitespace: the
    lowercased text and the trimmed text are stop commands exactly when the
    text is. *)
Theorem is_stop_command_ignores_case_and_padding (text : string) :
  is_stop_command (lower text) = is_stop_command text
  /\ is_stop_command (strip text) = is_stop_command text.
Proof.
  unfold is_stop_command. split.
  - destruct text as [|c s]; [reflexivity|].
    change (String.eqb (lower (String c s)) "") with false. cbv iota.
    change (String.eqb (String c s) "") with false. cbv iota.
    now rewrite strip_lower, lower_idempotent.
  - destruct (String.eqb_spec text "") as [->|Hne]; [reflexivity|].
    rewrite strip_idempotent.
    destruct (String.eqb_spec (strip text) "") as [->|_]; reflexivity.
Qed.

(** ** Phone numbers *)

Lemma is_digit_not_space (c : ascii) : is_digit c = true -> is_space c = false.
Proof. destruct c as [[] [] [] [] [] [] [] []]; try discriminate; reflexivity. Qed.

Lemma is_nonzero_digit_spec (c : ascii) :
  is_nonzero_digit c = true <-> is_digit c = true /\ c <> "0"%char.
Proof.
  destruct c as [[] [] [] [] [] [] [] []]; vm_compute; split;
    try discriminate; try (intros [? ?]; discriminate); try (intros _; split);
    try reflexivity; try discriminate.
  intros [_ H]. now elim H.
Qed.

Lemma E164_RE_match_digit (c : ascii) (rest : string) :
  is_digit c = true ->
  E164_RE_match (String c rest) = e164_digits (String c rest).
Proof. destruct c as [[] [] [] [] [] [] [] []]; try discriminate; reflexivity. Qed.

Lemma E164_RE_match_other (c : ascii) (rest : string) :
  c <> "+"%char -> E164_RE_match (String c rest) = e164_digits (String c rest).
Proof.
  destruct c as [[] [] [] [] [] [] [] []]; try reflexivity. intros H. now elim H.
Qed.

Lemma digits_to_end_all_digits (s : string) :
  all_digits s = true -> digits_to_end s = Some (String.length s).
Proof.
  induction s as [|c s IH]; simpl; [reflexivity|].
  intros H. apply andb_true_iff in H as [Hc Hs]. now rewrite Hc, IH.
Qed.

(** Digits up to [$]: all digits, or digits and the final newline. *)
Lemma digits_to_end_inv (s : string) (n : nat) :
  digits_to_end s = Some n ->
  (all_digits s = true /\ String.length s = n)
  \/ exists pre, s = pre ++ String "010" "".
Proof.
  revert n. induction s as [|c s IH]; simpl; intros n.
  - intros [= <-]. now left.
  - destruct (is_digit c) eqn:Hc.
    + destruct (digits_to_end s) as [k|]; [|discriminate]. simpl.
      intros [= <-]. destruct (IH k eq_refl) as [[Hall Hlen]|[pre ->]].
      * left. now rewrite Hall, Hlen.
      * right. now exists (String c pre).
    + destruct (Ascii.eqb_spec c "010") as [->|]; [|discriminate].
      destruct (String.eqb_spec s "") as [->|]; [|discriminate].
      intros _. right. now exists "".
Qed.

Lemma newline_is_space : is_space "010" = true.
Proof. reflexivity. Qed.

(** On a trimmed subject the pattern accepts exactly the E.164 shapes, with
    or without the plus. *)
Lemma e164_digits_trimmed (p d : string) :
  (strip p = d \/ strip p = String "+" d) ->
  (e164_digits d = true <-> e164_shape d).
Proof.
  intros Hstrip. unfold e164_digits, e164_shape.
  destruct d as [|c rest].
  { split; [discriminate|]. intros (_ & Hlen & _). simpl in Hlen. lia. }
  split.
  - intros H. apply andb_true_iff in H as [Hc Hrest].
    apply is_nonzero_digit_spec in Hc as [Hdigit Hzero].
    destruct (digits_to_end rest) as [n|] eqn:E; [|discriminate].
    apply andb_true_iff in Hrest as [Hlo Hhi].
    apply Nat.leb_le in Hlo, Hhi.
    destruct (digits_to_end_inv rest n E) as [[Hall Hlen]|[pre ->]].
    + simpl. rewrite Hdigit, Hall. repeat split; try lia. now exists c, rest.
    + exfalso. destruct Hstrip as [Hs|Hs].
      * apply (strip_no_trailing_space p (String c pre) "010" newline_is_space).
        exact Hs.
      * apply (strip_no_trailing_space p (String "+" (String c pre)) "010"
                 newline_is_space).
        exact Hs.
  - intros (Hall & Hlen & c' & rest' & [= <- <-] & Hzero).
    simpl in Hall, Hlen. apply andb_true_iff in Hall as [Hdigit Hall].
    apply andb_true_iff. split.
    + apply is_nonzero_digit_spec. now split.
    + rewrite (digits_to_end_all_digits rest Hall).
      apply andb_true_iff. split; apply Nat.leb_le; lia.
Qed.

(** X8.  On a text of code points below 256, [validate_phone_number]
    accepts exactly when the text, once trimmed, is 8 to 16 ASCII digits
    that do not start with zero, optionally preceded by one plus sign.
    (Beyond that range the code also accepts the decimal digits of other
    scripts in the place of ASCII digits; the embedding does not reach
    there.) *)
Theorem validate_phone_number_accepts_e164 (phone : string) :
  validate_phone_number phone = true
  <-> exists d, (strip phone = d \/ strip phone = String "+" d) /\ e164_shape d.
Proof.
  unfold validate_phone_number.
  destruct (String.eqb_spec phone "") as [->|Hne].
  { split; [discriminate|]. intros (d & [Hs|Hs] & Hshape).
    - vm_compute in Hs. subst d. destruct Hshape as (_ & Hlen & _).
      simpl in Hlen. lia.
    - vm_compute in Hs. discriminate Hs. }
  destruct (strip phone) as [|c rest] eqn:Hstrip.
  { split; [discriminate|]. intros (d & [Hs|Hs] & Hshape); [|discriminate].
    subst d. destruct Hshape as (_ & Hlen & _). simpl in Hlen. lia. }
  destruct (Ascii.eqb_spec c "+") as [->|Hplus].
  - change (E164_RE_match (String "+" rest)) with (e164_digits rest).
    rewrite (e164_digits_trimmed phone rest) by (right; exact Hstrip).
    split.
    + intros Hshape. exists rest. auto.
    + intros (d & [Hs|Hs] & Hshape).
      * subst d. destruct Hshape as (Hall & _). discriminate Hall.
      * injection Hs as <-. exact Hshape.
  - rewrite (E164_RE_match_other c rest Hplus).
    rewrite (e164_digits_trimmed phone (String c rest)) by (left; exact Hstrip).
    split.
    + intros Hshape. exists (String c rest). auto.
    + intros (d & [Hs|Hs] & Hshape).
      * now subst d.
      * injection Hs as Hc _. now elim Hplus.
Qed.

(** X9.  Padding does not change the verdict: a text is a valid phone number
    exactly when its trimmed form is. *)
Theorem validate_phone_number_ignores_padding (phone : string) :
  validate_phone_number (strip phone) = validate_phone_number phone.
Proof.
  unfold validate_phone_number.
  destruct (String.eqb_spec phone "") as [->|Hne]; [reflexivity|].
  rewrite strip_idempotent.
  destruct (String.eqb_spec (strip phone) "") as [->|_]; reflexivity.
Qed.

(** ** The recipient store *)

Lemma find_over_app {A} (p : A -> bool) (l r : list A) :
  find p (l ++ r) = match find p l with
                    | Some x => Some x
                    | None => find p r
                    end.
Proof.
  induction l as [|a l IH]; simpl; [reflexivity|].
  destruct (p a); [reflexivity|exact IH].
Qed.

Lemma member_by_phone_none (db : DB) (phone : string) :
  member_by_phone db (PStr phone) = None <-> ~ In phone (phones db).
Proof.
  unfold member_by_phone, phones. split.
  - intros Hnone Hin. apply in_map_iff in Hin as (m & <- & Hm).
    pose proof (find_none _ _ Hnone m Hm) as H. simpl in H.
    now rewrite String.eqb_refl in H.
  - intros Hnot. destruct (find _ (members db)) as [m|] eqn:E; [|reflexivity].
    exfalso. apply find_some in E as [Hm Heq]. simpl in Heq.
    apply String.eqb_eq in Heq. apply Hnot. rewrite <- Heq. now apply in_map.
Qed.

Lemma member_by_phone_app (db : DB) (rows : list Member.t) (v : pyval) :
  member_by_phone (with_members (members db ++ rows) db) v
  = match member_by_phone db v with
    | Some m => Some m
    | None => find (fun m => column_eq (Some (Member.phone_number m)) v) rows
    end.
Proof.
  unfold member_by_phone. simpl. apply find_over_app.
Qed.

(** A valid number that no member has is stored. *)
Lemma create_member_new (db : DB) (member : MemberCreate.t) :
  let phone := MemberCreate.phone_number member in
  validate_phone_number phone = true -> ~ In phone (phones db) ->
  exists m db',
    create_member db member = Answered m db'
    /\ members db' = (members db ++ [m])%list
    /\ Member.phone_number m = phone
    /\ ~ In (Member.id m) (map Member.id (members db))
    /\ member_by_phone db' (PStr phone) = Some m
    /\ (forall other, other <> phone ->
                      member_by_phone db' (PStr other)
                      = member_by_phone db (PStr other))
    /\ campaigns db' = campaigns db /\ messages db' = messages db
    /\ responses db' = responses db /\ optouts db' = optouts db.
Proof.
  intros phone Hvalid Hnew. unfold create_member. fold phone.
  rewrite Hvalid. simpl. unfold phone_taken.
  apply member_by_phone_none in Hnew. rewrite Hnew.
  eexists. eexists. split; [reflexivity|].
  repeat split.
  - intros Hin. apply next_id_fresh in Hin. simpl in Hin. lia.
  - rewrite member_by_phone_app, Hnew. simpl.
    unfold phone. now rewrite String.eqb_refl.
  - intros other Hother. rewrite member_by_phone_app.
    destruct (member_by_phone db (PStr other)); [reflexivity|]. simpl.
    destruct (String.eqb_spec (MemberCreate.phone_number member) other);
      [|reflexivity].
    now elim Hother.
Qed.

(** X10.  [POST /members] answers exactly for a valid number that no member has:
    it then commits one new row with a fresh key, holding the number as it
    was sent, which a lookup by that number finds, while lookups by other
    numbers answer as before.  An invalid number is refused with 400, a
    number that is taken with 409, and a refusal commits nothing. *)
Theorem create_member_outcomes (db : DB) (member : MemberCreate.t) :
  let phone := MemberCreate.phone_number member in
  (validate_phone_number phone = false ->
   create_member db member
   = Failed (Raises (HTTPException 400 "Invalid phone number")) db)
  /\ (validate_phone_number phone = true -> In phone (phones db) ->
      create_member db member
      = Failed (Raises (HTTPException 409 "Member exists")) db)
  /\ (validate_phone_number phone = true -> ~ In phone (phones db) ->
      exists m db',
        create_member db member = Answered m db'
        /\ members db' = (members db ++ [m])%list
        /\ Member.phone_number m = phone
        /\ ~ In (Member.id m) (map Member.id (members db))
        /\ member_by_phone db' (PStr phone) = Some m
        /\ (forall other, other <> phone ->
                          member_by_phone db' (PStr other)
                          = member_by_phone db (PStr other))
        /\ campaigns db' = campaigns db /\ messages db' = messages db
        /\ responses db' = responses db /\ optouts db' = optouts db).
Proof.
  intros phone. split; [|split].
  - unfold create_member. fold phone. now intros ->.
  - unfold create_member. fold phone. intros -> Hin. simpl. unfold phone_taken.
    destruct (member_by_phone db (PStr phone)) eqn:E; [reflexivity|].
    apply member_by_phone_none in E. contradiction.
  - apply create_member_new.
Qed.

(** X11.  [POST /members] keeps keys and phone numbers unique, whatever it
    answers. *)
Theorem create_member_keeps_uniqueness (db : DB) (member : MemberCreate.t) :
  member_keys_unique db -> NoDup (phones db) ->
  member_keys_unique (answer_db (create_member db member))
  /\ NoDup (phones (answer_db (create_member db member))).
Proof.
  intros Hkeys Hphones. unfold create_member.
  destruct (negb _); [now split|].
  unfold phone_taken.
  destruct (member_by_phone db _) eqn:E; [now split|].
  apply member_by_phone_none in E. simpl.
  unfold member_keys_unique, phones. simpl. rewrite !map_app. simpl. split.
  - apply NoDup_app; [exact Hkeys|repeat constructor; intros []|].
    intros a Ha [<-|[]]. apply next_id_fresh in Ha. lia.
  - apply NoDup_app; [exact Hphones|repeat constructor; intros []|].
    intros a Ha [<-|[]]. now apply E.
Qed.

(** X12.  [POST /members] stores the number as it was sent, not as it was
    validated: a padded number is accepted and stored with its padding, so
    that a lookup by the trimmed number, the form a webhook sender has,
    still finds no member. *)
Theorem create_member_stores_padding (db : DB) (member : MemberCreate.t) :
  let phone := MemberCreate.phone_number member in
  validate_phone_number phone = true ->
  strip phone <> phone ->
  ~ In phone (phones db) -> ~ In (strip phone) (phones db) ->
  exists m db',
    create_member db member = Answered m db'
    /\ Member.phone_number m = phone
    /\ member_by_phone db' (PStr (strip phone)) = None.
Proof.
  intros phone Hvalid Hpad Hnew Hnew'.
  destruct (create_member_new db member Hvalid Hnew)
    as (m & db' & Hrun & _ & Hphone & _ & _ & Hother & _).
  exists m, db'. repeat split; auto.
  rewrite (Hother (strip phone) Hpad). now apply member_by_phone_none.
Qed.

Lemma get_member_in (db : DB) (pk : nat) (m : Member.t) :
  get_member db pk = Some m -> In m (members db) /\ Member.id m = pk.
Proof.
  unfold get_member. intros H. apply find_some in H as [Hin Hpk].
  now apply Nat.eqb_eq in Hpk.
Qed.

(** X13.  [PUT /members/{member_id}] answers 404 for an unknown key and fails on a
    null [is_opted_in], committing nothing in either case; whatever it
    answers, no member is added or removed, no key and no phone number
    changes, and the campaigns, messages, responses and opt-outs are left
    alone. *)
Theorem update_member_keeps_identity
        (db : DB) (member_id : nat) (update : MemberUpdate.t) :
  let r := update_member_endpoint db member_id update in
  (get_member db member_id = None ->
   r = Failed (Raises (HTTPException 404 "Not found")) db)
  /\ (MemberUpdate.is_opted_in update = Some None -> answer_db r = db)
  /\ map Member.id (members (answer_db r)) = map Member.id (members db)
  /\ phones (answer_db r) = phones db
  /\ campaigns (answer_db r) = campaigns db
  /\ messages (answer_db r) = messages db
  /\ responses (answer_db r) = responses db
  /\ optouts (answer_db r) = optouts db
  /\ (forall m, get_member db member_id = Some m ->
                MemberUpdate.is_opted_in update = Some None ->
                r = Failed (IntegrityError
                              "NOT NULL constraint failed: members.is_opted_in") db).
Proof.
  intros r. subst r. unfold update_member_endpoint, nulls_opt_in.
  split; [now intros ->|]. split.
  { intros ->. now destruct (get_member db member_id). }
  destruct (get_member db member_id) as [m|];
    [|repeat split; discriminate].
  destruct (MemberUpdate.is_opted_in update) as [[b|]|]; simpl;
    repeat split; try discriminate;
    try (apply update_where_keys; reflexivity);
    unfold phones; simpl;
    apply (map_update_where Member.id Member.phone_number); reflexivity.
Qed.

(** ** Opting out, and back in *)

Lemma fan_out_covers pk cid request ms now m :
  In m ms ->
  exists msg, In msg (fan_out pk cid request ms now)
              /\ Message.member_id msg = Member.id m
              /\ Message.campaign_id msg = cid
              /\ Message.status msg = QUEUED.
Proof.
  revert pk. induction ms as [|a ms IH]; intros pk; [intros []|].
  intros [->|Hin].
  - eexists. split; [left; reflexivity|]. simpl. auto.
  - destruct (IH (S pk) Hin) as (msg & Hmsg & H). exists msg.
    split; [right; exact Hmsg|exact H].
Qed.

(** The messages a campaign creation adds for its campaign reference
    exactly the keys of the opted-in rows. *)
Lemma created_messages_reference (now : nat) (db : DB)
      (request : SendTemplateRequest.t) (r : SendTemplateResponse.t) :
  messages_have_campaign db ->
  http_response (create_campaign_and_queue now db request) = Ok r ->
  forall pk,
    (exists msg,
        In msg (messages (http_db (create_campaign_and_queue now db request)))
        /\ Message.campaign_id msg = SendTemplateResponse.campaign_id r
        /\ Message.member_id msg = pk)
    <-> (exists m, In m (members db) /\ Member.is_opted_in m = true
                   /\ Member.id m = pk).
Proof.
  intros Hfk Hr pk.
  destruct (create_campaign_and_queue_spec now db request) as [Hempty Hsome].
  destruct (filter Member.is_opted_in (members db)) as [|m0 rest] eqn:Hsel.
  { rewrite Hempty in Hr by reflexivity. discriminate Hr. }
  destruct Hsome as (campaign & rows & r' & Hr' & Hdb & Hrid & Hid & _ & _ & _
                     & Hrows & _ & _); [discriminate|].
  rewrite Hr' in Hr. injection Hr as <-. rewrite Hdb. simpl. split.
  - intros (msg & Hmsg & Hcid & Hpk). apply in_app_or in Hmsg as [Hold|Hnew].
    + apply Hfk, next_id_fresh in Hold. rewrite Hcid, Hrid, Hid in Hold. lia.
    + rewrite Hrows in Hnew.
      apply fan_out_rows in Hnew as (_ & _ & _ & m & Hin & Hm).
      rewrite <- Hsel in Hin. apply filter_In in Hin as [Hin Hopt].
      exists m. repeat split; auto. congruence.
  - intros (m & Hin & Hopt & Hpk).
    assert (Hsel' : In m (m0 :: rest)).
    { rewrite <- Hsel. apply filter_In. now split. }
    destruct (fan_out_covers (next_id (map Message.id (messages db)))
                (Campaign.id campaign) request (m0 :: rest) now m Hsel')
      as (msg & Hmsg & Hmid & Hcid & _).
    exists msg. split; [apply in_or_app; right; now rewrite Hrows|].
    split; congruence.
Qed.

Section OptOutAndBack.

Variable repr : pyval -> string.

(** X14.  After a stop command from a known recipient, the next campaign that is
    created holds no message for that recipient.  *)
Theorem campaign_after_stop_skips_the_recipient
        (now now' : nat) (db : DB) (md td : dict) (sender body : string)
        (member : Member.t) (request : SendTemplateRequest.t)
        (r : SendTemplateResponse.t) (msg : Message.t) :
  messages_have_campaign db ->
  assoc "from" md = Some (PStr sender) -> sender <> "" ->
  member_by_phone db (PStr sender) = Some member ->
  assoc "text" md = Some (PDict td) ->
  assoc "body" td = Some (PStr body) ->
  is_stop_command body = true ->
  let db1 := committed (process_incoming_message repr now db md) in
  http_response (create_campaign_and_queue now' db1 request) = Ok r ->
  In msg (messages (http_db (create_campaign_and_queue now' db1 request))) ->
  Message.campaign_id msg = SendTemplateResponse.campaign_id r ->
  Message.member_id msg <> Member.id member.
Proof.
  intros Hfk Hfrom Hsender Hmember Htext Hbody Hstop db1 Hr Hmsg Hcid Heq.
  assert (Hne : body <> "") by (intros ->; discriminate Hstop).
  assert (Hdb1 : db1 = with_optouts
                         (optouts db ++ [new_optout db member (PStr sender) now])
                         (update_member (Member.id member)
                            (Member.set_is_opted_in false) db)).
  { unfold db1, process_incoming_message.
    rewrite (dict_get_present _ _ _ Hfrom), (truthy_nonempty _ Hsender), Hmember.
    rewrite (inbound_text_body md td body Htext Hbody Hne).
    simpl. now rewrite Hstop. }
  assert (Hfk1 : messages_have_campaign db1) by (rewrite Hdb1; exact Hfk).
  destruct (proj1 (created_messages_reference now' db1 request r Hfk1 Hr
                     (Message.member_id msg)))
    as (m' & Hin & Hopt & Hpk); [now exists msg|].
  rewrite Hdb1 in Hin. simpl in Hin.
  apply update_where_inv in Hin as (m & _ & ->).
  destruct (Nat.eqb_spec (Member.id m) (Member.id member)) as [_|Hdiff].
  - discriminate Hopt.
  - congruence.
Qed.

(** X15.  Once the recipient store sets the opt-in flag of a recipient to true
    again, the next campaign that is created holds a queued message for that
    recipient. *)
Theorem campaign_after_opt_in_reaches_the_recipient
        (now : nat) (db : DB) (member_id : nat) (update : MemberUpdate.t)
        (m : Member.t) (db1 : DB) (request : SendTemplateRequest.t) :
  messages_have_campaign db ->
  MemberUpdate.is_opted_in update = Some (Some true) ->
  update_member_endpoint db member_id update = Answered m db1 ->
  exists r msg,
    http_response (create_campaign_and_queue now db1 request) = Ok r
    /\ In msg (messages (http_db (create_campaign_and_queue now db1 request)))
    /\ Message.campaign_id msg = SendTemplateResponse.campaign_id r
    /\ Message.member_id msg = member_id.
Proof.
  intros Hfk Hflag Hrun. unfold update_member_endpoint, nulls_opt_in in Hrun.
  destruct (get_member db member_id) as [m0|] eqn:Hget; [|discriminate].
  rewrite Hflag in Hrun. injection Hrun as <- <-.
  apply get_member_in in Hget as [Hin Hpk].
  set (db1 := update_member (Member.id m0) (set_columns update) db).
  assert (Hrow : In (set_columns update m0) (members db1)).
  { simpl. now apply (update_where_hit Member.id). }
  assert (Hopt : Member.is_opted_in (set_columns update m0) = true).
  { simpl. now rewrite Hflag. }
  assert (Hsel : filter Member.is_opted_in (members db1) <> []).
  { intros Hnil.
    assert (H : In (set_columns update m0)
                   (filter Member.is_opted_in (members db1)))
      by (apply filter_In; now split).
    now rewrite Hnil in H. }
  destruct (create_campaign_and_queue_spec now db1 request) as [_ Hsome].
  destruct (Hsome Hsel) as (campaign & rows & r & Hr & _).
  exists r.
  destruct (proj2 (created_messages_reference now db1 request r Hfk Hr member_id))
    as (msg & Hmsg & Hcid & Hmid).
  { exists (set_columns update m0). repeat split; auto. }
  exists msg. auto.
Qed.

End OptOutAndBack.

(** ** Listings *)

Lemma filter_by_sound {A} (column : A -> option string) (value : option string)
      (table : list A) (r : A) :
  In r (filter_by column value table) ->
  In r table
  /\ forall v, value = Some v -> v <> "" -> column r = Some v.
Proof.
  unfold filter_by. destruct value as [v|].
  - destruct (String.eqb_spec v "") as [->|Hne].
    + intros Hin. split; [exact Hin|]. intros v [= <-] H. now elim H.
    + intros Hin. apply filter_In in Hin as [Hin Hcol]. split; [exact Hin|].
      intros v' [= <-] _. destruct (column r) as [c|]; [|discriminate].
      apply String.eqb_eq in Hcol. now subst.
  - intros Hin. split; [exact Hin|]. discriminate.
Qed.

Lemma page_in {A} (skip limit : nat) (rows : list A) (r : A) :
  In r (page skip limit rows) -> In r rows.
Proof.
  unfold page. intros H. apply In_firstn in H.
  rewrite <- (firstn_skipn skip rows). apply in_or_app. now right.
Qed.

Lemma page_length {A} (skip limit : nat) (rows : list A) :
  List.length (page skip limit rows) <= limit.
Proof. unfold page. apply firstn_le_length. Qed.

Lemma page_append {A} (skip l1 l2 : nat) (rows : list A) :
  (page skip l1 rows ++ page (skip + l1) l2 rows)%list = page skip (l1 + l2) rows.
Proof.
  unfold page. rewrite Nat.add_comm, <- skipn_skipn.
  generalize (skipn skip rows) as t. clear. intros t. revert t.
  induction l1 as [|n IH]; intros t; [reflexivity|].
  destruct t as [|a t]; simpl.
  - now rewrite firstn_nil.
  - now rewrite IH.
Qed.

(** X16.  [GET /members] lists members of the table only, each of which has every
    attribute the request filters on (a filter that is absent or empty
    filters nothing) and the requested opt-in flag, and never more than
    [limit] of them. *)
Theorem list_members_sound
        (skip limit : nat) (status city plan : option string)
        (opted_in : option bool) (db : DB) (m : Member.t) :
  In m (list_members skip limit status city plan opted_in db) ->
  In m (members db)
  /\ (forall v, status = Some v -> v <> "" -> Member.status m = Some v)
  /\ (forall v, city = Some v -> v <> "" -> Member.city m = Some v)
  /\ (forall v, plan = Some v -> v <> "" -> Member.plan m = Some v)
  /\ (forall b, opted_in = Some b -> Member.is_opted_in m = b)
  /\ List.length (list_members skip limit status city plan opted_in db) <= limit.
Proof.
  intros Hin. unfold list_members in *.
  apply page_in in Hin. unfold members_matching in Hin.
  assert (H : In m (filter_by Member.plan plan
                      (filter_by Member.city city
                         (filter_by Member.status status (members db))))
              /\ forall b, opted_in = Some b -> Member.is_opted_in m = b).
  { destruct opted_in as [b|].
    - apply filter_In in Hin as [Hin Hb]. split; [exact Hin|].
      intros b' [= <-]. now apply Bool.eqb_prop in Hb.
    - split; [exact Hin|discriminate]. }
  destruct H as [H Hflag].
  apply filter_by_sound in H as [H Hplan].
  apply filter_by_sound in H as [H Hcity].
  apply filter_by_sound in H as [H Hstatus].
  repeat split; auto. apply page_length.
Qed.

(** X17.  Pages of [GET /members] join up: a page of [l1] rows followed by the
    next page of [l2] rows is the page of [l1 + l2] rows, so that paging
    through a listing neither repeats nor skips a member. *)
Theorem list_members_pages_join
        (skip l1 l2 : nat) (status city plan : option string)
        (opted_in : option bool) (db : DB) :
  (list_members skip l1 status city plan opted_in db
   ++ list_members (skip + l1) l2 status city plan opted_in db)%list
  = list_members skip (l1 + l2) status city plan opted_in db.
Proof. unfold list_members. apply page_append. Qed.

Lemma insert_newest_first_in (c x : Campaign.t) (l : list Campaign.t) :
  In x (insert_newest_first c l) <-> x = c \/ In x l.
Proof.
  induction l as [|a l IH]; simpl.
  - intuition.
  - destruct (Campaign.created_at a <=? Campaign.created_at c)%nat; simpl.
    + intuition.
    + rewrite IH. intuition.
Qed.

Lemma newest_first_in (x : Campaign.t) (l : list Campaign.t) :
  In x (newest_first l) <-> In x l.
Proof.
  unfold newest_first. induction l as [|a l IH]; simpl; [reflexivity|].
  rewrite insert_newest_first_in, IH. intuition.
Qed.

Lemma insert_newest_first_sorted (c : Campaign.t) (l : list Campaign.t) :
  StronglySorted not_older l -> StronglySorted not_older (insert_newest_first c l).
Proof.
  induction l as [|a l IH]; simpl; intros Hs.
  - repeat constructor.
  - inversion Hs as [|? ? Hl Ha]; subst.
    destruct (Nat.leb_spec (Campaign.created_at a) (Campaign.created_at c)).
    + constructor; [exact Hs|]. constructor; [unfold not_older; lia|].
      eapply Forall_impl; [|exact Ha]. unfold not_older. intros; lia.
    + constructor; [now apply IH|].
      apply Forall_forall. intros x Hx. apply insert_newest_first_in in Hx.
      destruct Hx as [->|Hx]; [unfold not_older; lia|].
      rewrite Forall_forall in Ha. now apply Ha.
Qed.

Lemma newest_first_sorted (l : list Campaign.t) :
  StronglySorted not_older (newest_first l).
Proof.
  unfold newest_first. induction l as [|a l IH]; simpl; [constructor|].
  now apply insert_newest_first_sorted.
Qed.

(** Rows that are in this order already stay as they are: rows of equal
    age are listed in table order. *)
Lemma newest_first_of_sorted (l : list Campaign.t) :
  StronglySorted not_older l -> newest_first l = l.
Proof.
  unfold newest_first. induction l as [|a l IH]; simpl; intros Hs;
    [reflexivity|].
  inversion Hs as [|? ? Hl Ha]; subst. rewrite (IH Hl).
  destruct l as [|b l]; [reflexivity|]. simpl.
  inversion Ha as [|? ? Hb _]; subst. unfold not_older in Hb.
  apply Nat.leb_le in Hb. now rewrite Hb.
Qed.

Lemma StronglySorted_skipn {A} (R : A -> A -> Prop) (n : nat) (l : list A) :
  StronglySorted R l -> StronglySorted R (skipn n l).
Proof.
  revert l. induction n as [|n IH]; intros l Hs; [exact Hs|].
  destruct l as [|a l]; [constructor|]. simpl. apply IH.
  now inversion Hs.
Qed.

Lemma StronglySorted_firstn {A} (R : A -> A -> Prop) (n : nat) (l : list A) :
  StronglySorted R l -> StronglySorted R (firstn n l).
Proof.
  revert l. induction n as [|n IH]; intros l Hs; [constructor|].
  destruct l as [|a l]; [constructor|]. simpl.
  inversion Hs as [|? ? Hl Ha]; subst. constructor; [now apply IH|].
  apply Forall_forall. intros x Hx. apply In_firstn in Hx.
  rewrite Forall_forall in Ha. now apply Ha.
Qed.

Lemma StronglySorted_total {A} (R : A -> A -> Prop) (l : list A) :
  (forall a b, In a l -> In b l -> R a b) -> StronglySorted R l.
Proof.
  induction l as [|a l IH]; intros H; constructor.
  - apply IH. intros x y Hx Hy. apply H; now right.
  - apply Forall_forall. intros x Hx. apply H; [now left|now right].
Qed.

(** X18.  [GET /campaigns] lists campaigns of the table only, newest first,
    each with the requested status when one is given (an empty status
    filters nothing), and never more than [limit] of them; campaigns of the
    same age are listed in table order. *)
Theorem list_campaigns_newest_first
        (skip limit : nat) (status : option string) (db : DB) :
  StronglySorted not_older (list_campaigns skip limit status db)
  /\ List.length (list_campaigns skip limit status db) <= limit
  /\ (forall c, In c (list_campaigns skip limit status db) ->
                In c (campaigns db)
                /\ forall v, status = Some v -> v <> "" -> Campaign.status c = v)
  /\ ((forall a b, In a (campaigns db) -> In b (campaigns db) ->
                   Campaign.created_at a = Campaign.created_at b) ->
      list_campaigns skip limit status db
      = page skip limit
          (filter_by (fun c => Some (Campaign.status c)) status (campaigns db))).
Proof.
  unfold list_campaigns. split; [|split; [|split]].
  - unfold page. apply StronglySorted_firstn, StronglySorted_skipn,
      newest_first_sorted.
  - apply page_length.
  - intros c Hc. apply page_in, newest_first_in, filter_by_sound in Hc as [Hin Hst].
    split; [exact Hin|]. intros v Hv Hne. specialize (Hst v Hv Hne). congruence.
  - intros Hage. f_equal. apply newest_first_of_sorted, StronglySorted_total.
    intros a b Ha Hb. apply filter_by_sound in Ha as [Ha _].
    apply filter_by_sound in Hb as [Hb _].
    unfold not_older. rewrite (Hage a b Ha Hb). lia.
Qed.

(** ** The CSV import *)

Lemma has_duplicate_NoDup (l : list string) :
  has_duplicate l = false <-> NoDup l.
Proof.
  induction l as [|x l IH]; simpl.
  - split; [constructor|reflexivity].
  - rewrite orb_false_iff, IH. split.
    + intros [Hx Hl]. constructor; [|exact Hl].
      intros Hin. assert (existsb (String.eqb x) l = true) as E.
      { apply existsb_exists. exists x. split; [exact Hin|apply String.eqb_refl]. }
      congruence.
    + intros H. inversion H as [|? ? Hx Hl]; subst. split; [|exact Hl].
      destruct (existsb (String.eqb x) l) eqn:E; [|reflexivity].
      apply existsb_exists in E as (y & Hy & Heq).
      apply String.eqb_eq in Heq. subst y. contradiction.
Qed.

Lemma insert_rows_phones (pk : nat) (rows : list ImportRow.t) :
  map Member.phone_number (insert_rows pk rows) = map ImportRow.phone_number rows.
Proof.
  revert pk. induction rows as [|r rows IH]; intros pk; simpl;
    [reflexivity|now rewrite IH].
Qed.

Lemma insert_rows_ids (pk : nat) (rows : list ImportRow.t) :
  map Member.id (insert_rows pk rows) = seq pk (List.length rows).
Proof.
  revert pk. induction rows as [|r rows IH]; intros pk; simpl;
    [reflexivity|now rewrite IH].
Qed.

Lemma insert_rows_length (pk : nat) (rows : list ImportRow.t) :
  List.length (insert_rows pk rows) = List.length rows.
Proof.
  rewrite <- (length_map Member.id), insert_rows_ids. apply length_seq.
Qed.

Lemma insert_rows_in (pk : nat) (rows : list ImportRow.t) (m : Member.t) :
  In m (insert_rows pk rows) ->
  exists r, In r rows /\ m = member_of_import (Member.id m) r.
Proof.
  revert pk. induction rows as [|r rows IH]; intros pk; simpl; [contradiction|].
  intros [<-|H].
  - exists r. split; [now left|reflexivity].
  - destruct (IH _ H) as (r' & Hr' & Hm). exists r'. split; [now right|exact Hm].
Qed.

Lemma phone_taken_spec (db : DB) (phone : string) :
  phone_taken db phone = true <-> In phone (phones db).
Proof.
  unfold phone_taken. destruct (member_by_phone db (PStr phone)) eqn:E.
  - split; [intros _|reflexivity].
    destruct (in_dec string_dec phone (phones db)) as [H|H]; [exact H|].
    apply member_by_phone_none in H. congruence.
  - apply member_by_phone_none in E. split; [discriminate|contradiction].
Qed.

Lemma rows_to_add_in (db : DB) (rows : list ImportRow.t) (r : ImportRow.t) :
  In r (rows_to_add db rows)
  <-> In r rows /\ ~ In (ImportRow.phone_number r) (phones db).
Proof.
  unfold rows_to_add. rewrite filter_In, negb_true_iff.
  rewrite <- phone_taken_spec. destruct (phone_taken db _); intuition congruence.
Qed.

Lemma import_rows_answer (db : DB) (rows : list ImportRow.t)
      (report : ImportReport) (db' : DB) :
  import_rows db rows = Answered report db' ->
  NoDup (map ImportRow.phone_number (rows_to_add db rows))
  /\ report = {| created := List.length (rows_to_add db rows);
                 skipped := List.length rows - List.length (rows_to_add db rows);
                 total := List.length rows |}
  /\ db' = with_members
             (members db
                ++ insert_rows (next_id (map Member.id (members db)))
                     (rows_to_add db rows)) db.
Proof.
  unfold import_rows.
  destruct (has_duplicate _) eqn:E; [discriminate|].
  intros [= <- <-]. apply has_duplicate_NoDup in E. auto.
Qed.

(** X19.  A completed import accounts for every row: it was created or skipped.
    The members added are the rows whose number no member had, in file
    order behind the existing rows, which are left as they were; afterwards
    every row's number belongs to a member, and keys and numbers are still
    unique. *)
Theorem import_rows_report (db : DB) (rows : list ImportRow.t)
        (report : ImportReport) (db' : DB) :
  member_keys_unique db -> NoDup (phones db) ->
  import_rows db rows = Answered report db' ->
  created report + skipped report = total report
  /\ total report = List.length rows
  /\ (exists new,
         members db' = (members db ++ new)%list
         /\ List.length new = created report
         /\ forall m, In m new ->
                      exists r, In r rows
                                /\ m = member_of_import (Member.id m) r
                                /\ ~ In (ImportRow.phone_number r) (phones db))
  /\ (forall r, In r rows -> In (ImportRow.phone_number r) (phones db'))
  /\ member_keys_unique db' /\ NoDup (phones db')
  /\ campaigns db' = campaigns db /\ messages db' = messages db
  /\ responses db' = responses db /\ optouts db' = optouts db.
Proof.
  intros Hkeys Hphones Hrun.
  apply import_rows_answer in Hrun as (Hnew & -> & ->). simpl.
  assert (List.length (rows_to_add db rows) <= List.length rows) as Hle
      by apply filter_length_le.
  split; [lia|]. split; [reflexivity|]. split; [|split; [|split; [|split]]].
  - eexists. split; [reflexivity|]. split; [apply insert_rows_length|].
    intros m Hm.
    assert (exists r, In r (rows_to_add db rows)
                      /\ m = member_of_import (Member.id m) r) as (r & Hr & Heq).
    { apply insert_rows_in in Hm. exact Hm. }
    apply rows_to_add_in in Hr as [Hr Hfree]. now exists r.
  - intros r Hr. unfold phones. simpl. rewrite map_app, insert_rows_phones.
    apply in_or_app.
    destruct (in_dec string_dec (ImportRow.phone_number r) (phones db)) as [H|H];
      [now left|right].
    apply in_map. now apply rows_to_add_in.
  - unfold member_keys_unique. simpl. rewrite map_app, insert_rows_ids.
    apply NoDup_app; [exact Hkeys|apply seq_NoDup|].
    intros a Ha Hseq. apply next_id_fresh in Ha. apply in_seq in Hseq. lia.
  - unfold phones. simpl. rewrite map_app, insert_rows_phones.
    apply NoDup_app; [exact Hphones|exact Hnew|].
    intros a Ha Hin. apply in_map_iff in Hin as (r & <- & Hr).
    apply rows_to_add_in in Hr as [_ Hfree]. now apply Hfree.
  - auto.
Qed.

(** X20.  A number that no member has and that two rows of the file carry makes
    the import fail at its commit: the second row is not recognised as
    known, since the first is still pending, and the unique column refuses
    it.  Nothing of the file is imported then. *)
Theorem import_rows_repeated_number_fails
        (db : DB) (before between after : list ImportRow.t) (r1 r2 : ImportRow.t) :
  ImportRow.phone_number r1 = ImportRow.phone_number r2 ->
  ~ In (ImportRow.phone_number r1) (phones db) ->
  import_rows db (before ++ r1 :: between ++ r2 :: after)
  = Failed (IntegrityError "UNIQUE constraint failed: members.phone_number") db.
Proof.
  intros Hsame Hfree. unfold import_rows.
  destruct (has_duplicate _) eqn:E; [reflexivity|].
  exfalso. apply has_duplicate_NoDup in E.
  assert (phone_taken db (ImportRow.phone_number r1) = false) as H1.
  { destruct (phone_taken db _) eqn:T; [|reflexivity].
    apply phone_taken_spec in T. contradiction. }
  assert (phone_taken db (ImportRow.phone_number r2) = false) as H2
      by now rewrite <- Hsame.
  unfold rows_to_add in E. rewrite filter_app in E. simpl in E.
  rewrite H1 in E. simpl in E. rewrite filter_app in E. simpl in E.
  rewrite H2 in E. simpl in E.
  rewrite map_app in E. simpl in E. rewrite map_app in E. simpl in E.
  apply NoDup_remove_2 in E. apply E.
  apply in_or_app. right. apply in_or_app. right. left. now symmetry.
Qed.

(** X21.  Importing a file a second time creates nothing and skips every row. *)
Theorem import_rows_again (db : DB) (rows : list ImportRow.t)
        (report : ImportReport) (db' : DB) :
  import_rows db rows = Answered report db' ->
  import_rows db' rows
  = Answered {| created := 0; skipped := List.length rows;
                total := List.length rows |} db'.
Proof.
  intros Hrun.
  assert (forall r, In r rows -> In (ImportRow.phone_number r) (phones db'))
    as Hknown.
  { apply import_rows_answer in Hrun as (_ & _ & ->).
    intros r Hr. unfold phones. simpl. rewrite map_app, insert_rows_phones.
    apply in_or_app.
    destruct (in_dec string_dec (ImportRow.phone_number r) (phones db)) as [H|H];
      [now left|right].
    apply in_map. now apply rows_to_add_in. }
  assert (rows_to_add db' rows = []) as Hnone.
  { unfold rows_to_add.
    clear Hrun. induction rows as [|r rows IH]; simpl; [reflexivity|].
    assert (phone_taken db' (ImportRow.phone_number r) = true) as ->
        by (apply phone_taken_spec, Hknown; now left).
    simpl. apply IH. intros r' Hr'. apply Hknown. now right. }
  unfold import_rows. rewrite Hnone. simpl. rewrite Nat.sub_0_r, app_nil_r.
  destruct db'. reflexivity.
Qed.

Lemma text_or_none_nonempty (s v : string) : text_or_none s = Some v -> v <> "".
Proof.
  unfold text_or_none. destruct (String.eqb_spec s ""); [discriminate|].
  now intros [= <-].
Qed.

Lemma parse_csv_row_valid strptime (row : csv_row) (r : ImportRow.t) :
  parse_csv_row strptime row = Some r ->
  validate_phone_number (ImportRow.phone_number r) = true
  /\ strip (ImportRow.phone_number r) = ImportRow.phone_number r
  /\ ImportRow.phone_number r <> "".
Proof.
  unfold parse_csv_row.
  destruct (String.eqb_spec (strip (first_text row ["phone_number"; "phone"; "msisdn"])) "")
    as [|Hne]; [discriminate|].
  destruct (validate_phone_number _) eqn:V; simpl; [|discriminate].
  intros [= <-]. simpl. split; [exact V|]. split; [apply strip_idempotent|exact Hne].
Qed.

Lemma parse_csv_rows_in strptime (rows : list csv_row) (r : ImportRow.t) :
  In r (parse_csv_rows strptime rows) ->
  exists row, In row rows /\ parse_csv_row strptime row = Some r.
Proof.
  induction rows as [|row rows IH]; simpl; [contradiction|].
  destruct (parse_csv_row strptime row) as [r0|] eqn:E.
  - intros [<-|H].
    + exists row. split; [now left|exact E].
    + destruct (IH H) as (row' & Hin & Hp). exists row'. split; [now right|exact Hp].
  - intros H. destruct (IH H) as (row' & Hin & Hp).
    exists row'. split; [now right|exact Hp].
Qed.

(** X22.  Every member a CSV import adds has a valid number stored without
    padding, which no member had before; the members that existed are kept
    as they were, so an import never changes an opt-out. *)
Theorem import_members_adds_valid_numbers
        (strptime : string -> string -> option nat) (db : DB)
        (fieldnames : list string) (rows : list csv_row)
        (report : ImportReport) (db' : DB) :
  import_members strptime db fieldnames rows = Answered report db' ->
  exists new,
    members db' = (members db ++ new)%list
    /\ total report <= List.length rows
    /\ forall m, In m new ->
         validate_phone_number (Member.phone_number m) = true
         /\ strip (Member.phone_number m) = Member.phone_number m
         /\ ~ In (Member.phone_number m) (phones db).
Proof.
  unfold import_members, parse_csv_members.
  destruct fieldnames as [|f fs]; [discriminate|].
  intros Hrun. apply import_rows_answer in Hrun as (_ & -> & ->). simpl.
  eexists. split; [reflexivity|]. split.
  - clear. induction rows as [|row rows IH]; simpl; [lia|].
    destruct (parse_csv_row strptime row); simpl; lia.
  - intros m Hm. apply insert_rows_in in Hm as (r & Hr & ->). simpl.
    apply rows_to_add_in in Hr as [Hr Hfree].
    apply parse_csv_rows_in in Hr as (row & _ & Hp).
    apply parse_csv_row_valid in Hp as (Hv & Hs & _). auto.
Qed.

(** ** The webhook endpoint *)

Lemma for_each_all (body : pyval -> scan) (f : pyval -> list WebhookTask)
      (xs : list pyval) :
  (forall x, In x xs -> body x = (f x, None)) ->
  for_each xs body = (flat_map f xs, None).
Proof.
  induction xs as [|x xs IH]; intros H; simpl; [reflexivity|].
  rewrite (H x (or_introl eq_refl)), IH; [reflexivity|].
  intros y Hy. apply H. now right.
Qed.

Lemma for_each_stops (body : pyval -> scan) (f : pyval -> list WebhookTask)
      (good rest : list pyval) (bad : pyval) (tasks : list WebhookTask) (e : string) :
  (forall x, In x good -> body x = (f x, None)) ->
  body bad = (tasks, Some e) ->
  for_each (good ++ bad :: rest) body = ((flat_map f good ++ tasks)%list, Some e).
Proof.
  intros Hgood Hbad. induction good as [|x good IH]; simpl.
  - now rewrite Hbad.
  - rewrite (Hgood x (or_introl eq_refl)), IH; [now rewrite app_assoc|].
    intros y Hy. apply Hgood. now right.
Qed.

Lemma for_in_items (items : list pyval) (task : pyval -> WebhookTask) :
  for_in (py_or (PList items) (PList [])) (fun x => ([task x], None))
  = (map task items, None).
Proof.
  assert (py_or (PList items) (PList []) = PList items) as ->
      by (destruct items; reflexivity).
  unfold for_in. simpl.
  induction items as [|x items IH]; simpl; [reflexivity|now rewrite IH].
Qed.

Lemma scan_change_of (events : list pyval * list pyval) :
  scan_change (change_of events) = (tasks_of_change events, None).
Proof.
  unfold scan_change, change_of, dict_get_default. simpl.
  rewrite !for_in_items. reflexivity.
Qed.

Lemma flat_map_scanned {A} (encode : A -> pyval) (body : pyval -> scan)
      (tasks : A -> list WebhookTask) (l : list A) :
  (forall a, body (encode a) = (tasks a, None)) ->
  flat_map (fun x => fst (body x)) (map encode l) = flat_map tasks l.
Proof.
  intros H. induction l as [|a l IH]; [reflexivity|].
  cbn [map flat_map]. now rewrite H, IH.
Qed.

Lemma for_each_encoded {A} (encode : A -> pyval) (body : pyval -> scan)
      (tasks : A -> list WebhookTask) (l : list A) :
  (forall a, body (encode a) = (tasks a, None)) ->
  for_each (map encode l) body = (flat_map tasks l, None).
Proof.
  intros H. rewrite (for_each_all _ (fun x => fst (body x))).
  - f_equal. now apply flat_map_scanned.
  - intros x Hx. apply in_map_iff in Hx as (a & <- & _). now rewrite H.
Qed.

Lemma scan_entry_of (changes : list (list pyval * list pyval)) :
  scan_entry (entry_of changes) = (tasks_of_entry changes, None).
Proof.
  unfold scan_entry, entry_of.
  change (dict_get_default _ "changes" (PList []))
    with (PList (map change_of changes)).
  unfold for_in, iterate. apply for_each_encoded, scan_change_of.
Qed.

Lemma notification_entries (entries : list pyval) :
  webhook_post (notification entries)
  = match for_each entries scan_entry with
    | (tasks, None) =>
        {| webhook_response := webhook_ok; webhook_tasks := tasks |}
    | (tasks, Some e) =>
        {| webhook_response := webhook_error e; webhook_tasks := tasks |}
    end.
Proof. reflexivity. Qed.

(** X23.  A well-formed notification is answered with [ok] and schedules one task
    per status event and per message, in document order: entry by entry,
    change by change, the status events of a change before its messages. *)
Theorem webhook_post_schedules_in_document_order
        (entries : list (list (list pyval * list pyval))) :
  webhook_post (notification (map entry_of entries))
  = {| webhook_response := webhook_ok;
       webhook_tasks := flat_map tasks_of_entry entries |}.
Proof.
  rewrite notification_entries.
  now rewrite (for_each_encoded entry_of scan_entry tasks_of_entry entries scan_entry_of).
Qed.

(** X24.  An entry that is not an object ends the scan: the tasks of the entries
    before it stay scheduled, the entries after it are never looked at, and
    the answer is an [error] naming the missing [get]. *)
Theorem webhook_post_stops_at_malformed_entry
        (good : list (list (list pyval * list pyval)))
        (bad : pyval) (rest : list pyval) :
  (forall d, bad <> PDict d) ->
  webhook_post (notification (map entry_of good ++ bad :: rest))
  = {| webhook_response := webhook_error (exn_str (no_attribute bad "get"));
       webhook_tasks := flat_map tasks_of_entry good |}.
Proof.
  intros Hbad. rewrite notification_entries.
  rewrite (for_each_stops _ (fun e => fst (scan_entry e)) _ _ _ []
                          (exn_str (no_attribute bad "get"))).
  - rewrite app_nil_r.
    now rewrite (flat_map_scanned entry_of scan_entry tasks_of_entry good scan_entry_of).
  - intros x Hx. apply in_map_iff in Hx as (e & <- & _).
    now rewrite scan_entry_of.
  - destruct bad; try reflexivity. now elim (Hbad d).
Qed.

(** ** The call to the provider *)

Section Client.

Variable repr : pyval -> string.

Lemma send_template_message_sync_success
      (post : requests_post) (self : WhatsAppCloudClient.t)
      (phone template language : string) (params : option (list string))
      (timeout : nat) :
  let exchange := post (WhatsAppCloudClient.base_url self) (request_headers self)
                       (template_payload phone template language params) timeout in
  let answer := send_template_message_sync post self phone template language
                                           params timeout in
  (forall msg_id, exchange_accepted exchange msg_id ->
                  dict_get answer "success" = PBool true
                  /\ dict_get answer "message_id" = msg_id)
  /\ ((forall msg_id, ~ exchange_accepted exchange msg_id) ->
      dict_get answer "success" = PBool false).
Proof.
  intros exchange answer. subst answer. unfold send_template_message_sync.
  fold exchange. split.
  - intros msg_id (resp & data & -> & Hlt & -> & ->).
    apply Nat.leb_gt in Hlt. rewrite Hlt. split; reflexivity.
  - intros Hnot. destruct exchange as [resp|e]; [|reflexivity].
    destruct (response_data resp) as [data|e] eqn:Hd; [|reflexivity].
    destruct (400 <=? status_code resp)%nat eqn:Hs; [reflexivity|].
    destruct (message_id_of data) as [msg_id|e] eqn:Hm; [|reflexivity].
    exfalso. apply (Hnot msg_id). exists resp, data.
    apply Nat.leb_gt in Hs. auto.
Qed.

Lemma try_send_through_client
      (post : nat -> requests_post) (self : WhatsAppCloudClient.t)
      (db : DB) (template_name : string) (k : nat)
      (msg : Message.t) (member : Member.t) :
  get_member db (Message.member_id msg) = Some member ->
  let exchange :=
    post k (WhatsAppCloudClient.base_url self) (request_headers self)
         (template_payload (Member.phone_number member) template_name "en_US" None)
         30 in
  let outcome := try_send repr (client_provider post self) db template_name k msg in
  (forall msg_id, exchange_accepted exchange msg_id ->
                  outcome = Accepted (text_column repr msg_id))
  /\ ((forall msg_id, ~ exchange_accepted exchange msg_id) ->
      is_accepted outcome = false).
Proof.
  intros Hmember exchange outcome. subst outcome. unfold try_send.
  rewrite Hmember. unfold client_provider.
  destruct (send_template_message_sync_success
              (post k) self (Member.phone_number member) template_name
              "en_US" None 30) as [Hyes Hno].
  fold exchange in Hyes, Hno. split.
  - intros msg_id Hacc. destruct (Hyes msg_id Hacc) as [-> ->]. reflexivity.
  - intros Hnot. rewrite (Hno Hnot). reflexivity.
Qed.

(** X25.  Through the client, the dispatcher takes a message for sent exactly
    when the request it posted for the recipient (the campaign's template in
    [en_US], no parameters, to the client's URL with its bearer token) was
    answered below 400 with a readable body; the provider id it records is
    the one of that body. *)
Theorem message_is_accepted_iff_exchange_is
        (post : nat -> requests_post) (self : WhatsAppCloudClient.t)
        (db : DB) (template_name : string) (k : nat)
        (msg : Message.t) (member : Member.t) :
  get_member db (Message.member_id msg) = Some member ->
  let exchange :=
    post k (WhatsAppCloudClient.base_url self) (request_headers self)
         (template_payload (Member.phone_number member) template_name "en_US" None)
         30 in
  let outcome := try_send repr (client_provider post self) db template_name k msg in
  (forall msg_id, exchange_accepted exchange msg_id ->
                  outcome = Accepted (text_column repr msg_id))
  /\ ((forall msg_id, ~ exchange_accepted exchange msg_id) ->
      is_accepted outcome = false).
Proof. apply try_send_through_client. Qed.

Lemma status_update_skips_unidentified
      (now : nat) (db : DB) (sd : dict) (m : Message.t) :
  message_keys_unique db ->
  In m (messages db) -> Message.whatsapp_message_id m = None ->
  In m (messages (committed (process_status_update repr now db sd))).
Proof.
  intros Hkeys Hin Hnone. unfold process_status_update.
  destruct (extract_message_status sd) as [info|]; [|exact Hin].
  destruct (negb _) eqn:Htruthy; [exact Hin|]. apply negb_false_iff in Htruthy.
  destruct (bind_parameter _); [|exact Hin].
  destruct (message_by_whatsapp_id _ _) as [msg|] eqn:Hmsg; [|exact Hin].
  assert (Hne : Message.id m <> Message.id msg).
  { intros Heq. unfold message_by_whatsapp_id in Hmsg.
    apply find_some in Hmsg as [Hmsg Hcol].
    assert (m = msg) by exact (NoDup_map_eq Message.id _ m msg Hkeys Hin Hmsg Heq).
    subst msg. rewrite Hnone in Hcol.
    rewrite (column_eq_null _ Htruthy) in Hcol. discriminate Hcol. }
  assert (Hupd : forall f, In m (messages (update_message (Message.id msg) f db))).
  { intros f. simpl. now apply update_where_other. }
  assert (Hbump : forall f counter count,
             In m (messages (committed (bump db msg f counter count)))).
  { intros f counter count. unfold bump.
    destruct (get_campaign db (Message.campaign_id msg)); [|exact Hin].
    apply Hupd. }
  destruct (eq_str _ "sent"); [apply Hupd|].
  destruct (eq_str _ "delivered"); [apply Hbump|].
  destruct (eq_str _ "read"); [apply Hbump|].
  destruct (eq_str _ "failed"); [apply Hbump|].
  exact Hin.
Qed.

(** X26.  When the provider accepts a request but its body names no message id,
    the dispatcher records the message as sent without a provider id; no
    status event, whatever it names, matches such a row, so the message can
    never be confirmed as delivered or read, nor be failed. *)
Theorem acceptance_without_id_is_never_confirmed
        (post : nat -> requests_post) (self : WhatsAppCloudClient.t)
        (clock : nat -> nat) (db : DB) (campaign_id : nat)
        (template_name : string) (k : nat)
        (msg : Message.t) (member : Member.t) :
  message_keys_unique db -> In msg (messages db) ->
  get_member db (Message.member_id msg) = Some member ->
  exchange_accepted
    (post k (WhatsAppCloudClient.base_url self) (request_headers self)
          (template_payload (Member.phone_number member) template_name "en_US" None)
          30) PNone ->
  let db' := send_one repr (client_provider post self) clock campaign_id
                      template_name k msg db in
  let row := Message.mark_dispatched None (clock (S k)) msg in
  In row (messages db')
  /\ Message.status row = SENT /\ Message.whatsapp_message_id row = None
  /\ forall now sd,
       In row (messages (committed (process_status_update repr now db' sd))).
Proof.
  intros Hkeys Hin Hmember Hacc db' row.
  assert (try_send repr (client_provider post self) db template_name k msg
          = Accepted None) as Hout.
  { destruct (try_send_through_client post self db template_name
                                                     k msg member Hmember)
      as [Hyes _].
    exact (Hyes PNone Hacc). }
  assert (In row (messages db')) as Hrow.
  { subst db' row. unfold send_one. rewrite Hout. simpl.
    now apply (update_where_hit Message.id). }
  split; [exact Hrow|]. split; [reflexivity|]. split; [reflexivity|].
  intros now sd. apply status_update_skips_unidentified; [|exact Hrow|reflexivity].
  subst db'. unfold send_one, message_keys_unique. rewrite Hout. simpl.
  rewrite update_where_keys; [exact Hkeys|reflexivity].
Qed.

End Client.

(** ** The event store *)

Lemma last_n_all {A} (n : nat) (l : list A) :
  List.length l <= n -> last_n n l = l.
Proof.
  intros H. unfold last_n. replace (List.length l - n) with 0 by lia. reflexivity.
Qed.

Lemma last_n_length {A} (n : nat) (l : list A) :
  List.length (last_n n l) = Nat.min n (List.length l).
Proof. unfold last_n. rewrite length_skipn. lia. Qed.

Lemma skipn_app_left {A} (k : nat) (l r : list A) :
  k <= List.length l -> skipn k (l ++ r) = (skipn k l ++ r)%list.
Proof.
  intros H. rewrite skipn_app. replace (k - List.length l) with 0 by lia.
  reflexivity.
Qed.

Lemma last_n_app {A} (n : nat) (l r : list A) :
  last_n n (last_n n l ++ r) = last_n n (l ++ r).
Proof.
  destruct (Nat.le_gt_cases (List.length l) n) as [H|H].
  - now rewrite (last_n_all n l H).
  - unfold last_n at 1 3. rewrite !length_app, last_n_length.
    rewrite Nat.min_l by lia. unfold last_n.
    rewrite <- skipn_app_left by lia.
    rewrite skipn_skipn. f_equal. lia.
Qed.

Lemma last_n_last_n {A} (m n : nat) (l : list A) :
  m <= n -> last_n m (last_n n l) = last_n m l.
Proof.
  intros H. unfold last_n at 1. rewrite last_n_length. unfold last_n.
  rewrite skipn_skipn. f_equal. lia.
Qed.

Lemma push_event_last_n (now : Z) (event : dict) (EVENTS : list dict) :
  push_event now event EVENTS = last_n MAX_EVENTS (EVENTS ++ [stamp now event]).
Proof.
  unfold push_event.
  destruct (MAX_EVENTS <? _)%nat eqn:E; [reflexivity|].
  apply Nat.ltb_ge in E. now rewrite last_n_all.
Qed.

Lemma push_events_last_n (arrivals : list (Z * dict)) (EVENTS : list dict) :
  push_events arrivals (last_n MAX_EVENTS EVENTS)
  = last_n MAX_EVENTS
           (EVENTS ++ map (fun a => stamp (fst a) (snd a)) arrivals).
Proof.
  revert EVENTS. induction arrivals as [|a arrivals IH]; intros EVENTS.
  - simpl. now rewrite app_nil_r.
  - unfold push_events. cbn [fold_left map].
    rewrite push_event_last_n, last_n_app.
    fold (push_events arrivals
            (last_n MAX_EVENTS (EVENTS ++ [stamp (fst a) (snd a)]))).
    rewrite IH, <- app_assoc. reflexivity.
Qed.

(** X27.  The store never holds more than [MAX_EVENTS] events: after any
    arrivals it holds the most recent 500 of what it held and of what
    arrived, in order of arrival, each stamped with its time of arrival. *)
Theorem push_events_keeps_most_recent
        (arrivals : list (Z * dict)) (EVENTS : list dict) :
  List.length EVENTS <= MAX_EVENTS ->
  push_events arrivals EVENTS
  = last_n MAX_EVENTS
           (EVENTS ++ map (fun a => stamp (fst a) (snd a)) arrivals)
  /\ List.length (push_events arrivals EVENTS) <= MAX_EVENTS.
Proof.
  intros H. rewrite <- (last_n_all MAX_EVENTS EVENTS H) at 1 3.
  rewrite push_events_last_n. split; [reflexivity|].
  rewrite last_n_length. lia.
Qed.

(** X28.  [GET /events] answers as if the store were unbounded: with the most
    recent events that arrived, at most 200 and at most [limit] of them (one
    for a [limit] below 1), the newest last. *)
Theorem get_events_answers_most_recent (limit : Z) (arrivals : list (Z * dict)) :
  let stamped := map (fun a => stamp (fst a) (snd a)) arrivals in
  let n := Z.to_nat (Z.max 1 (Z.min limit 200)) in
  get_events limit (push_events arrivals []) = last_n n stamped
  /\ 1 <= n <= 200
  /\ List.length (get_events limit (push_events arrivals []))
     = Nat.min n (List.length arrivals).
Proof.
  intros stamped n.
  assert (1 <= n <= 200) as Hn by (subst n; lia).
  assert (get_events limit (push_events arrivals []) = last_n n stamped) as E.
  { unfold get_events. fold n.
    change (@nil dict) with (last_n MAX_EVENTS (@nil dict)).
    rewrite push_events_last_n. simpl app. fold stamped.
    apply last_n_last_n. unfold MAX_EVENTS. lia. }
  split; [exact E|]. split; [exact Hn|].
  rewrite E, last_n_length. subst stamped. now rewrite length_map.
Qed.

(** ** Nothing is deleted *)

Lemma message_kept_refl (m : Message.t) : message_kept m m.
Proof. unfold message_kept. auto. Qed.

Lemma message_kept_trans (a b c : Message.t) :
  message_kept a b -> message_kept b c -> message_kept a c.
Proof. unfold message_kept. intuition congruence. Qed.

Lemma appended_refl (db : DB) : appended db db.
Proof.
  split; [|split].
  - exists (messages db), []. rewrite app_nil_r. split; [reflexivity|].
    apply Forall2_same, message_kept_refl.
  - exists []. now rewrite app_nil_r.
  - exists []. now rewrite app_nil_r.
Qed.

Lemma appended_trans (a b c : DB) : appended a b -> appended b c -> appended a c.
Proof.
  intros ((k1 & c1 & Hm1 & Hk1) & (r1 & Hr1) & (o1 & Ho1))
         ((k2 & c2 & Hm2 & Hk2) & (r2 & Hr2) & (o2 & Ho2)).
  split; [|split].
  - rewrite Hm1 in Hk2. apply Forall2_app_inv_l in Hk2
      as (k2a & k2b & Hka & Hkb & ->).
    exists k2a, (k2b ++ c2)%list. split; [now rewrite Hm2, app_assoc|].
    apply Forall2_compose with k1; [apply message_kept_trans|exact Hk1|exact Hka].
  - exists (r1 ++ r2)%list. now rewrite Hr2, Hr1, app_assoc.
  - exists (o1 ++ o2)%list. now rewrite Ho2, Ho1, app_assoc.
Qed.

(** A state that differs in the assignments to message rows only. *)
Lemma appended_rows (db db' : DB) :
  Forall2 message_kept (messages db) (messages db') ->
  responses db' = responses db -> optouts db' = optouts db ->
  appended db db'.
Proof.
  intros Hm Hr Ho. split; [|split].
  - exists (messages db'), []. now rewrite app_nil_r.
  - exists []. now rewrite app_nil_r.
  - exists []. now rewrite app_nil_r.
Qed.

Section Ledgers.

Variable repr : pyval -> string.

Lemma appended_update_message (pk : nat) (f : Message.t -> Message.t) (db : DB) :
  (forall m, message_kept m (f m)) ->
  appended db (update_message pk f db).
Proof.
  intros Hf. apply appended_rows; [|reflexivity|reflexivity].
  simpl. apply Forall2_update_where; [apply message_kept_refl|exact Hf].
Qed.

Lemma appended_update_campaign (pk : nat) (f : Campaign.t -> Campaign.t) (db : DB) :
  appended db (update_campaign pk f db).
Proof.
  apply appended_rows; [|reflexivity|reflexivity].
  simpl. apply Forall2_same, message_kept_refl.
Qed.

Lemma record_outcome_kept (o : SendOutcome) (now : nat) (m : Message.t) :
  message_kept m (record_outcome o now m).
Proof. destruct o; unfold message_kept; simpl; auto. Qed.

Lemma appended_send_loop (wa : provider) (clock : nat -> nat) (cid : nat)
      (template : string) (k : nat) (msgs : list Message.t) (db : DB) :
  appended db (send_loop repr wa clock cid template k msgs db).
Proof.
  revert k db. induction msgs as [|msg msgs IH]; intros k db; simpl.
  - apply appended_refl.
  - eapply appended_trans; [|apply IH]. unfold send_one.
    eapply appended_trans; [|apply appended_update_campaign].
    apply appended_update_message. intros m. apply record_outcome_kept.
Qed.

Lemma appended_dispatch (wa : provider) (clock : nat -> nat) (db : DB) (cid : nat)
      (access_token phone_number_id : string) :
  appended db (committed (send_campaign_messages repr wa clock db cid
                            access_token phone_number_id)).
Proof.
  unfold send_campaign_messages.
  destruct (get_campaign db cid) as [camp|]; [|apply appended_refl].
  destruct (get_whatsapp_client access_token phone_number_id); simpl;
    [|apply appended_update_campaign].
  eapply appended_trans; [apply appended_update_campaign|].
  eapply appended_trans; [apply appended_send_loop|].
  apply appended_update_campaign.
Qed.

Lemma appended_status_update (now : nat) (db : DB) (sd : dict) :
  appended db (committed (process_status_update repr now db sd)).
Proof.
  unfold process_status_update.
  destruct (extract_message_status sd) as [info|]; [|apply appended_refl].
  destruct (negb _); [apply appended_refl|].
  destruct (bind_parameter _); [|apply appended_refl].
  destruct (message_by_whatsapp_id _ _) as [msg|]; [|apply appended_refl].
  assert (Hupd : forall f, (forall m, message_kept m (f m)) ->
                           appended db (update_message (Message.id msg) f db))
    by (intros f Hf; now apply appended_update_message).
  assert (Hbump : forall f counter count,
             (forall m, message_kept m (f m)) ->
             appended db (committed (bump db msg f counter count))).
  { intros f counter count Hf. unfold bump.
    destruct (get_campaign db (Message.campaign_id msg)); [|apply appended_refl].
    simpl. eapply appended_trans; [apply (Hupd f Hf)|].
    apply appended_update_campaign. }
  assert (Hkept : forall f : Message.t -> Message.t,
             (forall m, Message.id (f m) = Message.id m
                        /\ Message.campaign_id (f m) = Message.campaign_id m
                        /\ Message.member_id (f m) = Message.member_id m
                        /\ Message.template_name (f m) = Message.template_name m
                        /\ Message.created_at (f m) = Message.created_at m) ->
             forall m, message_kept m (f m)) by (intros f H m; exact (H m)).
  destruct (eq_str _ "sent");
    [apply Hupd, Hkept; intros m; simpl; auto|].
  destruct (eq_str _ "delivered");
    [apply Hbump, Hkept; intros m; simpl; auto|].
  destruct (eq_str _ "read");
    [apply Hbump, Hkept; intros m; simpl; auto|].
  destruct (eq_str _ "failed");
    [apply Hbump, Hkept; intros m; simpl; auto|].
  apply appended_refl.
Qed.

Lemma appended_incoming (now : nat) (db : DB) (md : dict) :
  appended db (committed (process_incoming_message repr now db md)).
Proof.
  unfold process_incoming_message.
  destruct (negb _); [apply appended_refl|].
  destruct (bind_parameter _); [|apply appended_refl].
  destruct (member_by_phone db _) as [member|]; [|apply appended_refl].
  destruct (bind _ _) as [[|]|e]; [| |apply appended_refl].
  - simpl. split; [|split].
    + exists (messages db), []. rewrite app_nil_r. split; [reflexivity|].
      apply Forall2_same, message_kept_refl.
    + exists []. now rewrite app_nil_r.
    + eexists. reflexivity.
  - destruct (extract_button_payload repr md) as [[payload|]|e];
      [| apply appended_refl | apply appended_refl].
    destruct (last_message_of db _) as [last_msg|]; [|apply appended_refl].
    simpl. split; [|split].
    + exists (messages db), []. rewrite app_nil_r. split; [reflexivity|].
      apply Forall2_same, message_kept_refl.
    + eexists. reflexivity.
    + exists []. now rewrite app_nil_r.
Qed.

Lemma appended_create (now : nat) (db : DB) (request : SendTemplateRequest.t) :
  appended db (http_db (create_campaign_and_queue now db request)).
Proof.
  destruct (create_campaign_and_queue_spec now db request) as [Hnone Hsome].
  destruct (filter Member.is_opted_in (members db)) as [|m ms] eqn:E.
  - rewrite (Hnone eq_refl). apply appended_refl.
  - destruct Hsome as (campaign & rows & r & _ & -> & _); [discriminate|].
    split; [|split]; simpl.
    + exists (messages db), rows. split; [reflexivity|].
      apply Forall2_same, message_kept_refl.
    + exists []. now rewrite app_nil_r.
    + exists []. now rewrite app_nil_r.
Qed.

Lemma appended_exec (o : op) (db : DB) : appended db (exec repr o db).
Proof.
  destruct o; simpl.
  - apply appended_create.
  - apply appended_dispatch.
  - apply appended_status_update.
  - apply appended_incoming.
  - apply appended_rows; [|reflexivity|reflexivity].
    simpl. apply Forall2_same, message_kept_refl.
Qed.

(** X29.  Over any history, from any state, nothing is deleted from the ledger:
    every message stays in its place with its key, campaign, recipient,
    template and creation time, and responses and opt-outs are only ever
    appended, never changed or removed. *)
Theorem ledger_is_append_only (ops : list op) (db : DB) :
  appended db (run repr ops db).
Proof.
  unfold run. revert db. induction ops as [|o ops IH]; intros db; simpl.
  - apply appended_refl.
  - eapply appended_trans; [apply appended_exec|apply IH].
Qed.

(** ** One campaign's dispatch and the others *)

Lemma filter_update_where_other {A} (key : A -> nat) (g : A -> nat) (pk other : nat)
      (f : A -> A) (l : list A) :
  (forall r, g (f r) = g r) ->
  (forall r, In r l -> key r = pk -> g r = other) ->
  filter (fun r => negb (g r =? other)%nat) (update_where key pk f l)
  = filter (fun r => negb (g r =? other)%nat) l.
Proof.
  intros Hg Hkey. unfold update_where.
  induction l as [|a l IH]; simpl; [reflexivity|].
  assert (IH' := IH (fun r Hr => Hkey r (or_intror Hr))).
  destruct (Nat.eqb_spec (key a) pk) as [Heq|Hne].
  - rewrite Hg, (Hkey a (or_introl eq_refl) Heq), Nat.eqb_refl. simpl. exact IH'.
  - destruct (negb _); [now rewrite IH'|exact IH'].
Qed.

Lemma same_outside_refl (cid : nat) (db : DB) : same_outside cid db db.
Proof. unfold same_outside. auto. Qed.

Lemma same_outside_trans (cid : nat) (a b c : DB) :
  same_outside cid a b -> same_outside cid b c -> same_outside cid a c.
Proof. unfold same_outside. intuition congruence. Qed.

Lemma same_outside_update_campaign (cid : nat) (f : Campaign.t -> Campaign.t)
      (db : DB) :
  (forall c, Campaign.id (f c) = Campaign.id c) ->
  same_outside cid db (update_campaign cid f db).
Proof.
  intros Hf. unfold same_outside. simpl. repeat split.
  apply filter_update_where_other; [exact Hf|auto].
Qed.

Lemma keyed_within_send_one (wa : provider) (clock : nat -> nat) (cid : nat)
      (template : string) (k : nat) (msg m : Message.t) (db : DB) :
  keyed_within cid db m ->
  keyed_within cid (send_one repr wa clock cid template k msg db) m.
Proof.
  intros H r' Hr' Hid. unfold send_one in Hr'. simpl in Hr'.
  apply update_where_inv in Hr' as (r & Hr & ->).
  destruct (Message.id r =? Message.id msg)%nat.
  - rewrite record_outcome_campaign_id. rewrite record_outcome_id in Hid.
    now apply H.
  - now apply H.
Qed.

Lemma same_outside_send_loop (wa : provider) (clock : nat -> nat) (cid : nat)
      (template : string) (k : nat) (msgs : list Message.t) (db : DB) :
  (forall m, In m msgs -> keyed_within cid db m) ->
  same_outside cid db (send_loop repr wa clock cid template k msgs db).
Proof.
  revert k db. induction msgs as [|msg msgs IH]; intros k db Hmsgs; simpl.
  - apply same_outside_refl.
  - apply same_outside_trans
      with (send_one repr wa clock cid template k msg db).
    + unfold send_one.
      eapply same_outside_trans;
        [|apply same_outside_update_campaign; intros c; apply count_outcome_id].
      unfold same_outside. simpl. repeat split.
      apply filter_update_where_other.
      * intros r. apply record_outcome_campaign_id.
      * intros r Hr Hid. exact (Hmsgs msg (or_introl eq_refl) r Hr Hid).
    + apply IH. intros m Hm. apply keyed_within_send_one.
      apply Hmsgs. now right.
Qed.

(** X30.  The dispatch of a campaign leaves every other campaign alone: the rows
    of the other campaigns and their messages are afterwards what they were,
    in the same order, as are the recipients, the responses and the
    opt-outs, whatever the provider answers and however the dispatch
    ends. *)
Theorem dispatch_leaves_other_campaigns_alone
        (wa : provider) (clock : nat -> nat) (db : DB) (cid : nat)
        (access_token phone_number_id : string) :
  message_keys_unique db ->
  same_outside cid db
    (committed (send_campaign_messages repr wa clock db cid
                  access_token phone_number_id)).
Proof.
  intros Hkeys. unfold send_campaign_messages.
  destruct (get_campaign db cid) as [camp|]; [|apply same_outside_refl].
  assert (H1 : same_outside cid db
                 (update_campaign cid
                    (fun c => Campaign.set_sent_at (clock 0)
                                (Campaign.set_status "sending" c)) db))
    by (apply same_outside_update_campaign; reflexivity).
  destruct (get_whatsapp_client access_token phone_number_id); simpl;
    [|exact H1].
  eapply same_outside_trans; [exact H1|].
  eapply same_outside_trans;
    [|apply same_outside_update_campaign; reflexivity].
  apply same_outside_send_loop.
  intros m Hm r Hr Hid. simpl in Hm, Hr.
  apply filter_In in Hm as [Hm Hq].
  assert (r = m) by exact (NoDup_map_eq Message.id _ r m Hkeys Hr Hm Hid).
  subst r. unfold is_queued_of in Hq. apply andb_prop in Hq as [Hc _].
  now apply Nat.eqb_eq in Hc.
Qed.

End Ledgers.

(** ** Concrete runs of the further properties *)

Lemma engine_only_opts_out_witness :
  Forall (fun o => engine_op o = true) Desk.engine_history
  /\ Forall2 member_kept (members Sample.store)
             (members (run Sample.repr Desk.engine_history Sample.store)).
Proof.
  assert (H : Forall (fun o => engine_op o = true) Desk.engine_history)
    by (repeat constructor).
  split; [exact H|].
  exact (engine_only_opts_out Sample.repr Desk.engine_history Sample.store H).
Defined.

Lemma status_events_never_touch_queued_messages_witness :
  In Sample.alice_message (messages (run Sample.repr Desk.queued_history empty_db))
  /\ Message.status Sample.alice_message = QUEUED
  /\ Message.whatsapp_message_id Sample.alice_message = None
  /\ In Sample.alice_message
        (messages
           (committed
              (process_status_update Sample.repr 30
                 (run Sample.repr Desk.queued_history empty_db)
                 (Sample.status_event Sample.alice_wamid "delivered")))).
Proof.
  assert (Hin : In Sample.alice_message
                   (messages (run Sample.repr Desk.queued_history empty_db)))
    by (vm_compute; auto).
  assert (Hq : Message.status Sample.alice_message = QUEUED) by evaluate.
  split; [exact Hin|]. split; [exact Hq|].
  exact (status_events_never_touch_queued_messages
           Sample.repr Desk.queued_history 30
           (Sample.status_event Sample.alice_wamid "delivered")
           Sample.alice_message Hin Hq).
Defined.

Lemma second_dispatch_sends_nothing_witness :
  message_keys_unique Sample.created
  /\ get_campaign Sample.created 1 = Some Sample.campaign_created
  /\ messages
       (committed
          (send_campaign_messages Sample.repr Sample.accepting Sample.clock
             Sample.dispatched 1 "token" "1001"))
     = messages Sample.dispatched.
Proof.
  assert (Hkeys : message_keys_unique Sample.created).
  { unfold message_keys_unique. vm_compute.
    repeat constructor; simpl; intuition discriminate. }
  assert (Hcamp : get_campaign Sample.created 1 = Some Sample.campaign_created)
    by evaluate.
  assert (Htok : "token" <> "") by discriminate.
  assert (Hpn : "1001" <> "") by discriminate.
  split; [exact Hkeys|]. split; [exact Hcamp|].
  destruct (second_dispatch_sends_nothing
              Sample.repr Sample.accepting Sample.accepting Sample.clock Sample.clock
              Sample.created 1 "token" "1001" "token" "1001"
              Sample.campaign_created Hkeys Hcamp Htok Hpn)
    as (_ & Hmsgs & _).
  exact Hmsgs.
Defined.

Lemma plain_text_is_discarded_witness :
  inbound_text (Sample.text_message "+15550001" "thanks") = Ok (PStr "thanks")
  /\ is_stop_command "thanks" = false
  /\ process_incoming_message Sample.repr 40 Sample.dispatched
       (Sample.text_message "+15550001" "thanks")
     = Returned Sample.dispatched.
Proof.
  assert (Htext : inbound_text (Sample.text_message "+15550001" "thanks")
                  = Ok (PStr "thanks")) by evaluate.
  assert (Hstop : is_stop_command "thanks" = false) by evaluate.
  split; [exact Htext|]. split; [exact Hstop|].
  exact (plain_text_is_discarded Sample.repr 40 Sample.dispatched
           (Sample.text_message "+15550001" "thanks") "thanks"
           eq_refl Htext Hstop eq_refl eq_refl).
Defined.

Lemma text_that_is_not_an_object_raises_witness :
  member_by_phone Sample.dispatched (PStr "+15550001") = Some Sample.alice
  /\ process_incoming_message Sample.repr 40 Sample.dispatched
       (Desk.flat_text "+15550001" "stop")
     = Raised (no_attribute (PStr "stop") "get") Sample.dispatched.
Proof.
  assert (Hmember : member_by_phone Sample.dispatched (PStr "+15550001")
                    = Some Sample.alice) by evaluate.
  assert (Hsender : "+15550001" <> "") by discriminate.
  assert (Hshape : forall d, PStr "stop" <> PDict d) by discriminate.
  split; [exact Hmember|].
  exact (text_that_is_not_an_object_raises Sample.repr 40 Sample.dispatched
           (Desk.flat_text "+15550001" "stop") "+15550001" Sample.alice
           (PStr "stop") eq_refl Hsender Hmember eq_refl eq_refl Hshape).
Defined.

Lemma create_member_keeps_uniqueness_witness :
  member_keys_unique Sample.store
  /\ NoDup (phones Sample.store)
  /\ member_keys_unique
       (answer_db (create_member Sample.store (Desk.new_member "+15550004")))
  /\ NoDup (phones (answer_db (create_member Sample.store
                                 (Desk.new_member "+15550004")))).
Proof.
  assert (Hkeys : member_keys_unique Sample.store).
  { unfold member_keys_unique. vm_compute.
    repeat constructor; simpl; intuition discriminate. }
  assert (Hphones : NoDup (phones Sample.store)).
  { vm_compute. repeat constructor; simpl; intuition discriminate. }
  split; [exact Hkeys|]. split; [exact Hphones|].
  exact (create_member_keeps_uniqueness Sample.store
           (Desk.new_member "+15550004") Hkeys Hphones).
Defined.

Lemma create_member_stores_padding_witness :
  validate_phone_number " +15550004 " = true
  /\ strip " +15550004 " <> " +15550004 "
  /\ exists db',
       create_member Sample.store (Desk.new_member " +15550004 ")
       = Answered Desk.dave_padded db'
       /\ member_by_phone db' (PStr "+15550004") = None.
Proof.
  assert (Hvalid : validate_phone_number " +15550004 " = true) by evaluate.
  assert (Hpad : strip " +15550004 " <> " +15550004 ")
    by (vm_compute; discriminate).
  assert (Hnew : ~ In " +15550004 " (phones Sample.store))
    by (vm_compute; intuition discriminate).
  assert (Hnew' : ~ In (strip " +15550004 ") (phones Sample.store))
    by (vm_compute; intuition discriminate).
  split; [exact Hvalid|]. split; [exact Hpad|].
  destruct (create_member_stores_padding Sample.store
              (Desk.new_member " +15550004 ") Hvalid Hpad Hnew Hnew')
    as (m & db' & Hrun & Hphone & Hlookup).
  assert (Hrow : create_member Sample.store (Desk.new_member " +15550004 ")
                 = Answered Desk.dave_padded
                     (with_members (members Sample.store ++ [Desk.dave_padded])
                                   Sample.store)) by evaluate.
  rewrite Hrow in Hrun. injection Hrun as <- <-.
  eexists. split; [exact Hrow|exact Hlookup].
Defined.

Lemma campaign_after_stop_skips_the_recipient_witness :
  is_stop_command "stop" = true
  /\ http_response (create_campaign_and_queue 50 Desk.after_stop (Sample.request None))
     = Ok Desk.response_after_stop
  /\ In Desk.bob_message
        (messages (http_db (create_campaign_and_queue 50 Desk.after_stop
                              (Sample.request None))))
  /\ Message.member_id Desk.bob_message <> Member.id Sample.alice.
Proof.
  assert (Hshape : messages_have_campaign Sample.store) by (intros msg []).
  assert (Hsender : "+15550001" <> "") by discriminate.
  assert (Hmember : member_by_phone Sample.store (PStr "+15550001")
                    = Some Sample.alice) by evaluate.
  assert (Hstop : is_stop_command "stop" = true) by evaluate.
  assert (Hresp : http_response (create_campaign_and_queue 50 Desk.after_stop
                                   (Sample.request None))
                  = Ok Desk.response_after_stop) by evaluate.
  assert (Hin : In Desk.bob_message
                   (messages (http_db (create_campaign_and_queue 50 Desk.after_stop
                                         (Sample.request None)))))
    by (vm_compute; auto).
  split; [exact Hstop|]. split; [exact Hresp|]. split; [exact Hin|].
  exact (campaign_after_stop_skips_the_recipient
           Sample.repr 40 50 Sample.store
           (Sample.text_message "+15550001" "stop") [("body", PStr "stop")]
           "+15550001" "stop" Sample.alice (Sample.request None)
           Desk.response_after_stop Desk.bob_message
           Hshape eq_refl Hsender Hmember eq_refl eq_refl Hstop Hresp Hin eq_refl).
Defined.

Lemma campaign_after_opt_in_reaches_the_recipient_witness :
  update_member_endpoint Sample.store 3 (Desk.opt (Some true))
  = Answered Desk.carol_back
             (update_member 3 (set_columns (Desk.opt (Some true))) Sample.store)
  /\ exists r msg,
       http_response
         (create_campaign_and_queue 50
            (update_member 3 (set_columns (Desk.opt (Some true))) Sample.store)
            (Sample.request None)) = Ok r
       /\ In msg
             (messages
                (http_db
                   (create_campaign_and_queue 50
                      (update_member 3 (set_columns (Desk.opt (Some true)))
                                     Sample.store)
                      (Sample.request None))))
       /\ Message.campaign_id msg = SendTemplateResponse.campaign_id r
       /\ Message.member_id msg = 3.
Proof.
  assert (Hshape : messages_have_campaign Sample.store) by (intros msg []).
  assert (Hrun : update_member_endpoint Sample.store 3 (Desk.opt (Some true))
                 = Answered Desk.carol_back
                     (update_member 3 (set_columns (Desk.opt (Some true)))
                                    Sample.store)) by evaluate.
  split; [exact Hrun|].
  exact (campaign_after_opt_in_reaches_the_recipient
           50 Sample.store 3 (Desk.opt (Some true)) Desk.carol_back
           (update_member 3 (set_columns (Desk.opt (Some true))) Sample.store)
           (Sample.request None) Hshape eq_refl Hrun).
Defined.

Lemma list_members_sound_witness :
  In Sample.alice (list_members 0 10 (Some "active") None None (Some true) Sample.store)
  /\ In Sample.alice (members Sample.store)
  /\ Member.status Sample.alice = Some "active"
  /\ Member.is_opted_in Sample.alice = true.
Proof.
  assert (Hin : In Sample.alice
                   (list_members 0 10 (Some "active") None None (Some true)
                                 Sample.store))
    by (vm_compute; auto).
  assert (Hne : "active" <> "") by discriminate.
  destruct (list_members_sound 0 10 (Some "active") None None (Some true)
                               Sample.store Sample.alice Hin)
    as (Hmem & Hstatus & _ & _ & Hopt & _).
  split; [exact Hin|]. split; [exact Hmem|].
  split; [exact (Hstatus "active" eq_refl Hne)|exact (Hopt true eq_refl)].
Defined.

Lemma list_campaigns_newest_first_witness :
  map Campaign.created_at (campaigns Desk.same_age) = [10; 10; 10]
  /\ map Campaign.id (list_campaigns 0 10 None Desk.same_age) = [1; 2; 3]
  /\ map Campaign.id (list_campaigns 0 1 None Desk.same_age) = [1].
Proof.
  assert (Hage : Forall (fun c => Campaign.created_at c = 10)
                        (campaigns Desk.same_age))
    by (vm_compute; repeat constructor).
  assert (Hsame : forall a b, In a (campaigns Desk.same_age) ->
                              In b (campaigns Desk.same_age) ->
                              Campaign.created_at a = Campaign.created_at b).
  { rewrite Forall_forall in Hage. intros a b Ha Hb.
    now rewrite (Hage a Ha), (Hage b Hb). }
  split; [evaluate|]. split.
  - rewrite (proj2 (proj2 (proj2 (list_campaigns_newest_first 0 10 None
                                    Desk.same_age))) Hsame).
    evaluate.
  - rewrite (proj2 (proj2 (proj2 (list_campaigns_newest_first 0 1 None
                                    Desk.same_age))) Hsame).
    evaluate.
Defined.

Lemma import_rows_report_witness :
  member_keys_unique Sample.store
  /\ NoDup (phones Sample.store)
  /\ import_rows Sample.store [Desk.row "+15550001"; Desk.row "+15550004"]
     = Answered Desk.import_report Desk.after_import
  /\ member_keys_unique Desk.after_import
  /\ NoDup (phones Desk.after_import).
Proof.
  assert (Hkeys : member_keys_unique Sample.store).
  { unfold member_keys_unique. vm_compute.
    repeat constructor; simpl; intuition discriminate. }
  assert (Hphones : NoDup (phones Sample.store)).
  { vm_compute. repeat constructor; simpl; intuition discriminate. }
  assert (Hrun : import_rows Sample.store
                   [Desk.row "+15550001"; Desk.row "+15550004"]
                 = Answered Desk.import_report Desk.after_import) by evaluate.
  split; [exact Hkeys|]. split; [exact Hphones|]. split; [exact Hrun|].
  destruct (import_rows_report Sample.store
              [Desk.row "+15550001"; Desk.row "+15550004"]
              Desk.import_report Desk.after_import Hkeys Hphones Hrun)
    as (_ & _ & _ & _ & Hkeys' & Hphones' & _).
  split; [exact Hkeys'|exact Hphones'].
Defined.

Lemma import_rows_repeated_number_fails_witness :
  ~ In "+15550004" (phones Sample.store)
  /\ import_rows Sample.store
       [Desk.row "+15550005"; Desk.row "+15550004"; Desk.row "+15550004"]
     = Failed (IntegrityError "UNIQUE constraint failed: members.phone_number")
              Sample.store.
Proof.
  assert (Hfree : ~ In (ImportRow.phone_number (Desk.row "+15550004"))
                       (phones Sample.store))
    by (vm_compute; intuition discriminate).
  split; [exact Hfree|].
  exact (import_rows_repeated_number_fails Sample.store
           [Desk.row "+15550005"] [] [] (Desk.row "+15550004")
           (Desk.row "+15550004") eq_refl Hfree).
Defined.

Lemma import_rows_again_witness :
  import_rows Sample.store [Desk.row "+15550001"; Desk.row "+15550004"]
  = Answered Desk.import_report Desk.after_import
  /\ import_rows Desk.after_import [Desk.row "+15550001"; Desk.row "+15550004"]
     = Answered {| created := 0; skipped := 2; total := 2 |} Desk.after_import.
Proof.
  assert (Hrun : import_rows Sample.store
                   [Desk.row "+15550001"; Desk.row "+15550004"]
                 = Answered Desk.import_report Desk.after_import) by evaluate.
  split; [exact Hrun|].
  exact (import_rows_again Sample.store
           [Desk.row "+15550001"; Desk.row "+15550004"]
           Desk.import_report Desk.after_import Hrun).
Defined.

Lemma import_members_adds_valid_numbers_witness :
  import_members Desk.strptime Sample.store ["phone"; "name"; "expiry"] Desk.csv_rows
  = Answered {| created := 1; skipped := 0; total := 1 |} Desk.after_csv
  /\ exists new,
       members Desk.after_csv = (members Sample.store ++ new)%list
       /\ forall m, In m new ->
            validate_phone_number (Member.phone_number m) = true
            /\ strip (Member.phone_number m) = Member.phone_number m
            /\ ~ In (Member.phone_number m) (phones Sample.store).
Proof.
  assert (Hrun : import_members Desk.strptime Sample.store
                   ["phone"; "name"; "expiry"] Desk.csv_rows
                 = Answered {| created := 1; skipped := 0; total := 1 |}
                            Desk.after_csv) by evaluate.
  split; [exact Hrun|].
  destruct (import_members_adds_valid_numbers
              Desk.strptime Sample.store ["phone"; "name"; "expiry"]
              Desk.csv_rows _ Desk.after_csv Hrun)
    as (new & Hnew & _ & Hvalid).
  exists new. split; [exact Hnew|exact Hvalid].
Defined.

Lemma webhook_post_stops_at_malformed_entry_witness :
  webhook_post
    (notification
       [entry_of [([Desk.sent_event], [])]; PStr "entry"; entry_of [([], [PNone])]])
  = {| webhook_response :=
         webhook_error "'str' object has no attribute 'get'";
       webhook_tasks := [process_status_update_task Desk.sent_event] |}.
Proof.
  assert (Hbad : forall d, PStr "entry" <> PDict d) by discriminate.
  exact (webhook_post_stops_at_malformed_entry
           [[([Desk.sent_event], [])]] (PStr "entry")
           [entry_of [([], [PNone])]] Hbad).
Defined.

Lemma message_is_accepted_iff_exchange_is_witness :
  get_member Sample.created 1 = Some Sample.alice
  /\ try_send Sample.repr (client_provider Desk.naming Desk.client)
              Sample.created "hello_world" 0 Sample.alice_message
     = Accepted (Some "wamid.1").
Proof.
  assert (Hmember : get_member Sample.created (Message.member_id Sample.alice_message)
                    = Some Sample.alice) by evaluate.
  split; [exact Hmember|].
  destruct (message_is_accepted_iff_exchange_is
              Sample.repr Desk.naming Desk.client Sample.created "hello_world" 0
              Sample.alice_message Sample.alice Hmember) as [Hyes _].
  apply (Hyes (PStr "wamid.1")).
  eexists. eexists. split; [reflexivity|]. split; [simpl; lia|].
  split; reflexivity.
Defined.

Lemma acceptance_without_id_is_never_confirmed_witness :
  message_keys_unique Sample.created
  /\ In Sample.alice_message (messages Sample.created)
  /\ forall now sd,
       In (Message.mark_dispatched None 21 Sample.alice_message)
          (messages
             (committed
                (process_status_update Sample.repr now
                   (send_one Sample.repr (client_provider Desk.silent Desk.client)
                             Sample.clock 1 "hello_world" 0
                             Sample.alice_message Sample.created)
                   sd))).
Proof.
  assert (Hkeys : message_keys_unique Sample.created).
  { unfold message_keys_unique. vm_compute.
    repeat constructor; simpl; intuition discriminate. }
  assert (Hin : In Sample.alice_message (messages Sample.created))
    by (vm_compute; auto).
  assert (Hmember : get_member Sample.created (Message.member_id Sample.alice_message)
                    = Some Sample.alice) by evaluate.
  assert (Hacc : exchange_accepted
                   (Desk.silent 0 (WhatsAppCloudClient.base_url Desk.client)
                      (request_headers Desk.client)
                      (template_payload (Member.phone_number Sample.alice)
                                        "hello_world" "en_US" None) 30) PNone).
  { eexists. eexists. split; [reflexivity|]. split; [simpl; lia|].
    split; reflexivity. }
  split; [exact Hkeys|]. split; [exact Hin|].
  destruct (acceptance_without_id_is_never_confirmed
              Sample.repr Desk.silent Desk.client Sample.clock Sample.created 1
              "hello_world" 0 Sample.alice_message Sample.alice
              Hkeys Hin Hmember Hacc) as (_ & _ & _ & Hnever).
  exact Hnever.
Defined.

Lemma push_events_keeps_most_recent_witness :
  List.length [[("object", PStr "a")]] <= MAX_EVENTS
  /\ push_events [(7%Z, [("object", PStr "b")])] [[("object", PStr "a")]]
     = [[("object", PStr "a")];
        [("object", PStr "b"); ("_received_at", PInt 7)]].
Proof.
  assert (H : List.length [[("object", PStr "a")]] <= MAX_EVENTS)
    by (vm_compute; lia).
  split; [exact H|].
  destruct (push_events_keeps_most_recent
              [(7%Z, [("object", PStr "b")])] [[("object", PStr "a")]] H)
    as [Hrun _].
  rewrite Hrun. evaluate.
Defined.

Lemma dispatch_leaves_other_campaigns_alone_witness :
  message_keys_unique Desk.two_campaigns
  /\ same_outside 1 Desk.two_campaigns
       (committed (send_campaign_messages Sample.repr Sample.flaky Sample.clock
                     Desk.two_campaigns 1 "token" "1001")).
Proof.
  assert (Hkeys : message_keys_unique Desk.two_campaigns).
  { unfold message_keys_unique. vm_compute.
    repeat constructor; simpl; intuition discriminate. }
  split; [exact Hkeys|].
  exact (dispatch_leaves_other_campaigns_alone
           Sample.repr Sample.flaky Sample.clock Desk.two_campaigns 1
           "token" "1001" Hkeys).
Defined.
